(** * canvas-leaderboard: the LeaderboardBuilder class

    A shallow embedding of [src/LeaderboardBuilder.ts] and [src/types.ts].

    - A JavaScript [number] is an IEEE 754 binary64 value: Rocq's primitive
      [float], with its NaN, signed zeros and infinities.
    - The canvas is a sink: the builder only ever writes to the 2D context.
      A canvas is therefore the log of the context calls made on it, and the
      meaning of a log (which graphics state each drawing call sees) is given
      by replaying it, [Canvas.replay].
    - The canvas library parses color strings.  Which strings it takes for
      colors is its own business and is a parameter, [colorError]:
      [addColorStop] throws on a string that is no color, and an
      assignment of such a string to [fillStyle], [strokeStyle] or
      [shadowColor] is ignored.
    - [build] is [async] and contains one [try]/[catch]; it runs in a state
      and exception monad over the canvas, the console and the image loader.
    - The tier array handed to [setRankTiers] is a heap object: the builder
      stores a reference to it.

    [addFont] only registers a font with the canvas library, logs when
    that fails and returns the builder; it is left out. *)

From Stdlib Require Import ZArith Lia Floats Bool List Permutation Sorted.
From stdpp Require Import base option list gmap strings pretty.

Local Open Scope Z_scope.

(** * JavaScript values and built-ins used by the builder *)

Abbreviation number := float.

Module Js.

(** Integer-valued numbers. Layout arithmetic on array lengths and indices
    is carried out in [Z] and injected; it is exact below [2^53]. *)
Definition Z2num (z : Z) : number :=
  if z <? 0 then (- PrimFloat.of_uint63 (Uint63.of_Z (- z)))%float
  else PrimFloat.of_uint63 (Uint63.of_Z z).

(** [ToBoolean] on a number: [+0], [-0] and [NaN] are falsy. *)
Definition ToBoolean_number (x : number) : bool :=
  negb (PrimFloat.is_zero x || PrimFloat.is_nan x).

(** [ToBoolean] on a string: only the empty string is falsy. *)
Definition ToBoolean_string (s : string) : bool :=
  match s with EmptyString => false | String _ _ => true end.

(** A possibly [undefined] string in a condition, or on the left of [||]
    or [&&]: the string when it is truthy. *)
Definition truthy (o : option string) : option string :=
  match o with
  | Some s => if ToBoolean_string s then Some s else None
  | None => None
  end.

(** [a || d] for an optional string [a] and a string default [d]. *)
Definition or_default (a : option string) (d : string) : string :=
  match truthy a with Some s => s | None => d end.

(** [Math.min] on two arguments. *)
Definition Math_min (a b : number) : number :=
  if PrimFloat.is_nan a || PrimFloat.is_nan b then PrimFloat.nan
  else if (a <? b)%float then a
  else if (b <? a)%float then b
  else if PrimFloat.get_sign a then a else b.

Definition Math_PI : number := 0x1.921fb54442d18p+1%float.

(** [ToIntegerOrInfinity]. *)
Inductive integer_or_infinity : Type :=
| MinusInfinity
| Finite (z : Z)
| PlusInfinity.

Definition ToIntegerOrInfinity (x : number) : integer_or_infinity :=
  match Prim2SF x with
  | S754_nan => Finite 0
  | S754_zero _ => Finite 0
  | S754_infinity s => if s then MinusInfinity else PlusInfinity
  | S754_finite s m e => Finite (cond_Zopp s (Z.shiftl (Zpos m) e))
  end.

(** [Array.prototype.slice(0, end)]. *)
Definition Array_slice0 {A} (l : list A) (end_ : number) : list A :=
  let len := Z.of_nat (length l) in
  let final :=
    match ToIntegerOrInfinity end_ with
    | MinusInfinity => 0
    | Finite relativeEnd =>
        if relativeEnd <? 0 then Z.max (len + relativeEnd) 0
        else Z.min relativeEnd len
    | PlusInfinity => len
    end in
  firstn (Z.to_nat final) l.

(** [Array.prototype.sort(comparefn)]. The language requires a stable
    sort and, for a consistent comparator, fixes its result; a stable
    insertion sort computes it. Only the sign of [comparefn a b] is used,
    and a NaN result counts as [+0]. *)
Section Sort.
Context {A : Type} (comparefn : A -> A -> number).

Fixpoint sort_insert (a : A) (sorted : list A) : list A :=
  match sorted with
  | [] => [a]
  | b :: rest =>
      if (0 <? comparefn a b)%float then b :: sort_insert a rest
      else a :: sorted
  end.

Definition Array_sort (l : list A) : list A := fold_right sort_insert [] l.
End Sort.

(** What a rejected promise or a [throw] carries. *)
Inductive Error : Type :=
| LoadError (message : string)
| TypeError (message : string).

End Js.

(** * types.ts *)

Module LeaderboardData.
Record t : Type := mk {
  nickname : string;
  avatarUrl : string;
  level : number;
  xp : number;
  neededXp : number;
  rank : option string
}.
End LeaderboardData.

Module PodiumColors.
Record t : Type := mk {
  first : option string;
  second : option string;
  third : option string
}.
End PodiumColors.

(** [GradientOptions.type] is declared as one of seven literals; at run
    time it is a string, and [build] switches on it with a [default]. *)
Module GradientOptions.
Record t : Type := mk {
  type : string;
  colors : list string
}.
End GradientOptions.

Module AuroraSpot.
Record t : Type := mk {
  color : string;
  x : number;
  y : number;
  radius : number
}.
End AuroraSpot.

Module AuroraBackgroundOptions.
Record t : Type := mk {
  baseColor : string;
  spots : list AuroraSpot.t
}.
End AuroraBackgroundOptions.

(** [string | GradientOptions | AuroraBackgroundOptions]. The [type] field
    of an aurora object is the literal ['aurora']. *)
Inductive BackgroundOptions : Type :=
| BgColor (color : string)
| BgGradient (g : GradientOptions.t)
| BgAurora (a : AuroraBackgroundOptions.t).

Module HeaderOptions.
Record t : Type := mk {
  title : string;
  subtitle : option string
}.
End HeaderOptions.

Module PodiumOptions.
Record t : Type := mk {
  colors : option PodiumColors.t
}.
End PodiumOptions.

Module RankTier.
Record t : Type := mk {
  name : string;
  color : string;
  minXp : number
}.
End RankTier.

Module XpBarColors.
Record t : Type := mk {
  primary : string;
  secondary : string
}.
End XpBarColors.

Module FontStyles.
Record t : Type := mk {
  headerTitle : option string;
  headerSubtitle : option string;
  userNickname : option string;
  userLevel : option string;
  userPosition : option string;
  xpText : option string;
  rankText : option string
}.
End FontStyles.

(** An object literal given where [FontStyles] is expected: each key is
    absent, or present with a string or with [undefined].  The difference
    shows when the object is spread over another. *)
Inductive Property (A : Type) : Type :=
| Absent
| Present (value : option A).
Arguments Absent {A}.
Arguments Present {A} value.

Module FontStylesLiteral.
Record t : Type := mk {
  headerTitle : Property string;
  headerSubtitle : Property string;
  userNickname : Property string;
  userLevel : Property string;
  userPosition : Property string;
  xpText : Property string;
  rankText : Property string
}.
End FontStylesLiteral.

(** * The 2D canvas

    Only the calls the builder makes.  A gradient object is built by
    [createLinearGradient] or [createRadialGradient], receives its stops,
    and is then assigned to [fillStyle] and never touched again, so it is
    a value here. *)
Module Canvas.

Record Image : Type := { src : string }.

Inductive GradientGeometry : Type :=
| Linear (x0 y0 x1 y1 : number)
| Radial (x0 y0 r0 x1 y1 r1 : number).

Record CanvasGradient : Type := {
  geometry : GradientGeometry;
  colorStops : list (number * string)
}.

Definition createLinearGradient (x0 y0 x1 y1 : number) : CanvasGradient :=
  {| geometry := Linear x0 y0 x1 y1; colorStops := [] |}.

Definition createRadialGradient (x0 y0 r0 x1 y1 r1 : number) : CanvasGradient :=
  {| geometry := Radial x0 y0 r0 x1 y1 r1; colorStops := [] |}.

(** The gradient with one more stop, after the stops it has. *)
Definition withColorStop (offset : number) (color : string) (g : CanvasGradient)
  : CanvasGradient :=
  {| geometry := geometry g; colorStops := colorStops g ++ [(offset, color)] |}.

Inductive Style : Type :=
| Color (c : string)
| Gradient (g : CanvasGradient).

(** A call on the context, or an assignment to one of its properties. *)
Inductive Call : Type :=
| set_fillStyle (s : Style)
| set_strokeStyle (s : Style)
| set_globalAlpha (a : number)
| set_lineWidth (w : number)
| set_font (f : string)
| set_textAlign (a : string)
| set_shadowColor (c : string)
| set_shadowBlur (b : number)
| fillRect (x y w h : number)
| fillText (text : string) (x y : number)
| drawImage (image : Image) (dx dy dw dh : number)
| beginPath
| moveTo (x y : number)
| lineTo (x y : number)
| quadraticCurveTo (cpx cpy x y : number)
| arc (x y radius startAngle endAngle : number)
| closePath
| fill
| stroke
| clip
| save
| restore.

(** ** Replaying a log

    The drawing state of the Canvas API, as far as the calls above touch
    it, and the list of drawing operations with the state each one saw.
    An assignment of a value the property cannot take leaves the property
    as it was; [font] holds the string last assigned. *)
Record State : Type := {
  fillStyle : Style;
  strokeStyle : Style;
  globalAlpha : number;
  lineWidth : number;
  font : string;
  textAlign : string;
  shadowColor : string;
  shadowBlur : number;
  clipping : list (list Call)
}.

Record Paint : Type := {
  drawn : Call;
  outline : list Call;
  seen : State
}.

Record Context : Type := {
  state : State;
  path : list Call;
  saved : list State;
  painted : list Paint
}.

(** A fresh context, with the defaults of the Canvas API. *)
Definition initial : Context :=
  {| state := {| fillStyle := Color "#000000";
                 strokeStyle := Color "#000000";
                 globalAlpha := 1%float;
                 lineWidth := 1%float;
                 font := "10px sans-serif";
                 textAlign := "start";
                 shadowColor := "rgba(0, 0, 0, 0)";
                 shadowBlur := 0%float;
                 clipping := [] |};
     path := [];
     saved := [];
     painted := [] |}.

Definition with_state (f : State -> State) (c : Context) : Context :=
  {| state := f (state c); path := path c; saved := saved c; painted := painted c |}.

Definition extend_path (call : Call) (c : Context) : Context :=
  {| state := state c; path := path c ++ [call]; saved := saved c;
     painted := painted c |}.

Definition paint (call : Call) (outl : list Call) (c : Context) : Context :=
  {| state := state c; path := path c; saved := saved c;
     painted := painted c ++ [{| drawn := call; outline := outl; seen := state c |}] |}.

(** [lineWidth]: zero, negative, infinite and NaN values are ignored. *)
Definition assignLineWidth (value old : number) : number :=
  if (0 <? value)%float && negb (PrimFloat.is_infinity value) then value else old.

(** [shadowBlur]: negative, infinite and NaN values are ignored. *)
Definition assignShadowBlur (value old : number) : number :=
  if (0 <=? value)%float && negb (PrimFloat.is_infinity value) then value else old.

(** [textAlign]: anything but the five keywords is ignored. *)
Definition assignTextAlign (value old : string) : string :=
  if existsb (String.eqb value) ["start"; "end"; "left"; "right"; "center"]
  then value else old.

Section Library.
(** The color parser of the library: [None] for a string it takes for a
    color, and for any other string the error with which [addColorStop]
    refuses it. *)
Variable colorError : string -> option Js.Error.

Definition parses (color : string) : bool :=
  match colorError color with
  | None => true
  | Some _ => false
  end.

(** [gradient.addColorStop(offset, color)] *)
Definition addColorStop (offset : number) (color : string) (g : CanvasGradient)
  : Js.Error + CanvasGradient :=
  match colorError color with
  | Some e => inl e
  | None => inr (withColorStop offset color g)
  end.

(** [fillStyle] and [strokeStyle]: a string that is no color is ignored. *)
Definition assignStyle (value old : Style) : Style :=
  match value with
  | Color c => if parses c then value else old
  | Gradient _ => value
  end.

(** [shadowColor]: a string that is no color is ignored. *)
Definition assignColor (value old : string) : string :=
  if parses value then value else old.

Definition step (c : Context) (call : Call) : Context :=
  match call with
  | set_fillStyle s =>
      with_state (fun st =>
        {| fillStyle := assignStyle s (fillStyle st); strokeStyle := strokeStyle st;
           globalAlpha := globalAlpha st;
           lineWidth := lineWidth st; font := font st; textAlign := textAlign st;
           shadowColor := shadowColor st; shadowBlur := shadowBlur st;
           clipping := clipping st |}) c
  | set_strokeStyle s =>
      with_state (fun st =>
        {| fillStyle := fillStyle st; strokeStyle := assignStyle s (strokeStyle st);
           globalAlpha := globalAlpha st;
           lineWidth := lineWidth st; font := font st; textAlign := textAlign st;
           shadowColor := shadowColor st; shadowBlur := shadowBlur st;
           clipping := clipping st |}) c
  | set_globalAlpha a =>
      (* values outside [0, 1], NaN included, are ignored *)
      if (0 <=? a)%float && (a <=? 1)%float then
        with_state (fun st =>
          {| fillStyle := fillStyle st; strokeStyle := strokeStyle st; globalAlpha := a;
             lineWidth := lineWidth st; font := font st; textAlign := textAlign st;
             shadowColor := shadowColor st; shadowBlur := shadowBlur st;
             clipping := clipping st |}) c
      else c
  | set_lineWidth w =>
      with_state (fun st =>
        {| fillStyle := fillStyle st; strokeStyle := strokeStyle st;
           globalAlpha := globalAlpha st;
           lineWidth := assignLineWidth w (lineWidth st); font := font st;
           textAlign := textAlign st; shadowColor := shadowColor st;
           shadowBlur := shadowBlur st; clipping := clipping st |}) c
  | set_font f =>
      with_state (fun st =>
        {| fillStyle := fillStyle st; strokeStyle := strokeStyle st;
           globalAlpha := globalAlpha st; lineWidth := lineWidth st; font := f;
           textAlign := textAlign st; shadowColor := shadowColor st;
           shadowBlur := shadowBlur st; clipping := clipping st |}) c
  | set_textAlign a =>
      with_state (fun st =>
        {| fillStyle := fillStyle st; strokeStyle := strokeStyle st;
           globalAlpha := globalAlpha st; lineWidth := lineWidth st; font := font st;
           textAlign := assignTextAlign a (textAlign st); shadowColor := shadowColor st;
           shadowBlur := shadowBlur st; clipping := clipping st |}) c
  | set_shadowColor col =>
      with_state (fun st =>
        {| fillStyle := fillStyle st; strokeStyle := strokeStyle st;
           globalAlpha := globalAlpha st; lineWidth := lineWidth st; font := font st;
           textAlign := textAlign st; shadowColor := assignColor col (shadowColor st);
           shadowBlur := shadowBlur st; clipping := clipping st |}) c
  | set_shadowBlur b =>
      with_state (fun st =>
        {| fillStyle := fillStyle st; strokeStyle := strokeStyle st;
           globalAlpha := globalAlpha st; lineWidth := lineWidth st; font := font st;
           textAlign := textAlign st; shadowColor := shadowColor st;
           shadowBlur := assignShadowBlur b (shadowBlur st); clipping := clipping st |}) c
  | fillRect _ _ _ _ | fillText _ _ _ | drawImage _ _ _ _ _ => paint call [] c
  | fill | stroke => paint call (path c) c
  | beginPath =>
      {| state := state c; path := []; saved := saved c; painted := painted c |}
  | moveTo _ _ | lineTo _ _ | quadraticCurveTo _ _ _ _ | arc _ _ _ _ _ | closePath =>
      extend_path call c
  | clip =>
      with_state (fun st =>
        {| fillStyle := fillStyle st; strokeStyle := strokeStyle st;
           globalAlpha := globalAlpha st; lineWidth := lineWidth st; font := font st;
           textAlign := textAlign st; shadowColor := shadowColor st;
           shadowBlur := shadowBlur st; clipping := path c :: clipping st |}) c
  | save =>
      {| state := state c; path := path c; saved := state c :: saved c;
         painted := painted c |}
  | restore =>
      match saved c with
      | [] => c
      | st :: rest =>
          {| state := st; path := path c; saved := rest; painted := painted c |}
      end
  end.

Definition replay (log : list Call) : Context := fold_left step log initial.
End Library.

(** [canvas.toBuffer('image/png')]: the encoded image of a canvas of the
    given size on which [content] was drawn. *)
Record Buffer : Type := {
  width : Z;
  height : Z;
  content : list Call
}.

Definition paints (colorError : string -> option Js.Error) (b : Buffer) : list Paint :=
  painted (replay colorError (content b)).

End Canvas.

(** * The monad of [build]

    State: the canvas under construction, the console, and the number of
    images requested so far.  A computation returns or throws. *)
Inductive Result (A : Type) : Type :=
| Ok (a : A)
| Throw (e : Js.Error).
Arguments Ok {A} a.
Arguments Throw {A} e.

Record ConsoleEntry : Type := {
  message : string;
  detail : Js.Error
}.

Record Env : Type := {
  console : list ConsoleEntry;
  fetched : nat
}.

Record Frame : Type := {
  canvas : list Canvas.Call;
  env : Env
}.

Definition M (A : Type) : Type := Frame -> Result A * Frame.

#[global] Instance M_ret : MRet M := fun A (a : A) s => (Ok a, s).

#[global] Instance M_bind : MBind M :=
  fun A B (k : A -> M B) (m : M A) s =>
    match m s with
    | (Ok a, s') => k a s'
    | (Throw e, s') => (Throw e, s')
    end.

Definition throw {A} (e : Js.Error) : M A := fun s => (Throw e, s).

(** A library call that returns or throws. *)
Definition settle {A} (r : Js.Error + A) : M A :=
  fun s =>
    match r with
    | inl e => (Throw e, s)
    | inr a => (Ok a, s)
    end.

Definition try_catch {A} (body : M A) (handler : Js.Error -> M A) : M A :=
  fun s =>
    match body s with
    | (Ok a, s') => (Ok a, s')
    | (Throw e, s') => handler e s'
    end.

(** Context calls, in order. *)
Definition emit (calls : list Canvas.Call) : M unit :=
  fun s => (Ok tt, {| canvas := canvas s ++ calls; env := env s |}).

(** [console.error(message, e)]. *)
Definition console_error (msg : string) (e : Js.Error) : M unit :=
  fun s =>
    (Ok tt,
     {| canvas := canvas s;
        env := {| console := console (env s) ++ [{| message := msg; detail := e |}];
                  fetched := fetched (env s) |} |}).

(** [for (let i = start; i < start + l.length; i++) body(i, l[i - start])]. *)
Fixpoint for_each {A} (body : nat -> A -> M unit) (i : nat) (l : list A) : M unit :=
  match l with
  | [] => mret tt
  | a :: rest => body i a;; for_each body (S i) rest
  end.

(** * The heap of tier arrays

    [setRankTiers] keeps the array it is given, so tier arrays are objects
    with an identity.  The other arguments of the setters are only read. *)
Abbreviation loc := positive.
Abbreviation heap := (gmap loc (list RankTier.t)).

(** * LeaderboardBuilder.ts *)
Module LeaderboardBuilder.
Import Js Canvas.

Record t : Type := mk {
  users : list LeaderboardData.t;
  limit : option number;
  background : BackgroundOptions;
  header : HeaderOptions.t;
  podium : PodiumOptions.t;
  rankVisible : bool;
  rankTiers : loc;
  xpBarColors : XpBarColors.t;
  fontStyles : FontStyles.t
}.

(** [new LeaderboardBuilder()]: the field initialisers; [rankTiers = []]
    allocates a new array. *)
Definition new (h : heap) : heap * t :=
  let l := fresh (dom h) in
  (<[l := []]> h,
   {| users := [];
      limit := None;
      background := BgColor "#0D0E12";
      header := {| HeaderOptions.title := "Leaderboard"; HeaderOptions.subtitle := None |};
      podium := {| PodiumOptions.colors := None |};
      rankVisible := true;
      rankTiers := l;
      xpBarColors := {| XpBarColors.primary := "#5865F2";
                        XpBarColors.secondary := "#A458F2" |};
      fontStyles := FontStyles.mk None None None None None None None |}).

Definition setUsers (users' : list LeaderboardData.t) (this : t) : t :=
  mk users' (limit this) (background this) (header this) (podium this)
     (rankVisible this) (rankTiers this) (xpBarColors this) (fontStyles this).

Definition setHeader (options : HeaderOptions.t) (this : t) : t :=
  mk (users this) (limit this) (background this) options (podium this)
     (rankVisible this) (rankTiers this) (xpBarColors this) (fontStyles this).

Definition setPodium (options : PodiumOptions.t) (this : t) : t :=
  mk (users this) (limit this) (background this) (header this) options
     (rankVisible this) (rankTiers this) (xpBarColors this) (fontStyles this).

Definition showRank (visible : bool) (this : t) : t :=
  mk (users this) (limit this) (background this) (header this) (podium this)
     visible (rankTiers this) (xpBarColors this) (fontStyles this).

(** [(a, b) => b.minXp - a.minXp] *)
Definition byMinXpDescending (a b : RankTier.t) : number :=
  (RankTier.minXp b - RankTier.minXp a)%float.

(** [this.rankTiers = tiers.sort(...)]: [sort] reorders the array it is
    called on and returns that same array. *)
Definition setRankTiers (tiers : loc) (h : heap) (this : t) : heap * t :=
  (alter (Array_sort byMinXpDescending) tiers h,
   mk (users this) (limit this) (background this) (header this) (podium this)
      (rankVisible this) tiers (xpBarColors this) (fontStyles this)).

Definition setXpBarColors (colors : XpBarColors.t) (this : t) : t :=
  mk (users this) (limit this) (background this) (header this) (podium this)
     (rankVisible this) (rankTiers this) colors (fontStyles this).

(** One key of [{ ...target, ...source }], read back. *)
Definition spread {A} (target : option A) (source : Property A) : option A :=
  match source with
  | Absent => target
  | Present value => value
  end.

(** [this.fontStyles = { ...this.fontStyles, ...styles }] *)
Definition setFontStyles (styles : FontStylesLiteral.t) (this : t) : t :=
  mk (users this) (limit this) (background this) (header this) (podium this)
     (rankVisible this) (rankTiers this) (xpBarColors this)
     {| FontStyles.headerTitle :=
          spread (FontStyles.headerTitle (fontStyles this))
                 (FontStylesLiteral.headerTitle styles);
        FontStyles.headerSubtitle :=
          spread (FontStyles.headerSubtitle (fontStyles this))
                 (FontStylesLiteral.headerSubtitle styles);
        FontStyles.userNickname :=
          spread (FontStyles.userNickname (fontStyles this))
                 (FontStylesLiteral.userNickname styles);
        FontStyles.userLevel :=
          spread (FontStyles.userLevel (fontStyles this))
                 (FontStylesLiteral.userLevel styles);
        FontStyles.userPosition :=
          spread (FontStyles.userPosition (fontStyles this))
                 (FontStylesLiteral.userPosition styles);
        FontStyles.xpText :=
          spread (FontStyles.xpText (fontStyles this))
                 (FontStylesLiteral.xpText styles);
        FontStyles.rankText :=
          spread (FontStyles.rankText (fontStyles this))
                 (FontStylesLiteral.rankText styles) |}.

Definition setLimit (count : number) (this : t) : t :=
  mk (users this) (Some count) (background this) (header this) (podium this)
     (rankVisible this) (rankTiers this) (xpBarColors this) (fontStyles this).

Definition setBackground (options : BackgroundOptions) (this : t) : t :=
  mk (users this) (limit this) options (header this) (podium this)
     (rankVisible this) (rankTiers this) (xpBarColors this) (fontStyles this).

Definition roundRect (x y width height radius : number) : list Call :=
  [ beginPath;
    moveTo (x + radius) y;
    lineTo (x + width - radius) y;
    quadraticCurveTo (x + width) y (x + width) (y + radius);
    lineTo (x + width) (y + height - radius);
    quadraticCurveTo (x + width) (y + height) (x + width - radius) (y + height);
    lineTo (x + radius) (y + height);
    quadraticCurveTo x (y + height) x (y + height - radius);
    lineTo x (y + radius);
    quadraticCurveTo x y (x + radius) y;
    closePath ]%float.

(** The array a builder's [rankTiers] points to. *)
Definition tiersOf (h : heap) (this : t) : list RankTier.t :=
  default [] (h !! rankTiers this).

Definition getRankForXp (h : heap) (this : t) (xp : number) : option RankTier.t :=
  if (length (tiersOf h this) =? 0)%nat then None
  else find (fun tier => (RankTier.minXp tier <=? xp)%float) (tiersOf h this).

(** ** build *)

(** [this.limit ? this.users.slice(0, this.limit) : this.users] *)
Definition usersToRender (this : t) : list LeaderboardData.t :=
  match limit this with
  | Some count =>
      if ToBoolean_number count then Array_slice0 (users this) count else users this
  | None => users this
  end.

Definition canvasWidth : Z := 900.

(** [this.header.subtitle ? 150 : 120] *)
Definition headerHeight (this : t) : Z :=
  match truthy (HeaderOptions.subtitle (header this)) with
  | Some _ => 150
  | None => 120
  end.

Definition canvasHeight (this : t) : Z :=
  headerHeight this + Z.of_nat (length (usersToRender this)) * 100 + 20.

(** The [switch] on the gradient type. *)
Definition createGradient (type : string) (width height : Z) : CanvasGradient :=
  let w := Z2num width in
  let h := Z2num height in
  if String.eqb type "linear-left-right" then createLinearGradient 0 0 w 0
  else if String.eqb type "linear-right-left" then createLinearGradient w 0 0 0
  else if String.eqb type "linear-top-bottom" then createLinearGradient 0 0 0 h
  else if String.eqb type "linear-bottom-top" then createLinearGradient 0 h 0 0
  else if String.eqb type "linear-top-left-bottom-right" then
    createLinearGradient 0 0 w h
  else if String.eqb type "linear-top-right-bottom-left" then
    createLinearGradient w 0 0 h
  else if String.eqb type "radial" then
    createRadialGradient (w / 2) (h / 2) 0 (w / 2) (h / 2)
                         (Z2num (Z.max width height) / 2)
  else createLinearGradient 0 0 w h.

(** The global alpha of the aurora spots, the literal [0.4]: as a
    binary64 value, [0x1.999999999999ap-2]. *)
#[warnings="-inexact-float"]
Definition spotAlpha : number := 0.4.

Section Background.
(** The color parser of the canvas library. *)
Variable colorError : string -> option Js.Error.

(** [colors.forEach((color, index) => gradient.addColorStop(
      index / (colors.length - 1), color))]: the loop ends at the first
    color that [addColorStop] refuses. *)
Fixpoint addStops (count : Z) (index : Z) (colors : list string)
                  (gradient : CanvasGradient) : M CanvasGradient :=
  match colors with
  | [] => mret gradient
  | color :: rest =>
      gradient ← settle (addColorStop colorError (Z2num index / Z2num (count - 1))
                                      color gradient);
      addStops count (index + 1) rest gradient
  end.

(** Lines 222-228: one turn of [for (const spot of auroraOptions.spots)]. *)
Definition paintSpot (width height : Z) (spot : AuroraSpot.t) : M unit :=
  gradient ← settle (addColorStop colorError 0 (AuroraSpot.color spot)
                       (createRadialGradient (AuroraSpot.x spot) (AuroraSpot.y spot) 0
                                             (AuroraSpot.x spot) (AuroraSpot.y spot)
                                             (AuroraSpot.radius spot)));
  gradient ← settle (addColorStop colorError 1 (AuroraSpot.color spot +:+ "00")
                       gradient);
  emit [ set_fillStyle (Gradient gradient);
         fillRect 0 0 (Z2num width) (Z2num height) ].

(** Lines 210-250.  The code asks [typeof background === 'string'], then
    [background.type === 'aurora'], and treats every other object as
    gradient options.  A gradient object whose [type] is ['aurora'] thus
    takes the aurora branch, where its [baseColor] and [spots] are
    [undefined]: the fill style is left alone and [for ... of] throws.
    In the other two branches [addColorStop] throws on the first string
    that is no color: for an aurora that is after the base fill, with the
    global alpha at 0.4. *)
Definition paintBackground (bg : BackgroundOptions) (width height : Z) : M unit :=
  match bg with
  | BgColor color =>
      emit [ set_fillStyle (Color color);
             fillRect 0 0 (Z2num width) (Z2num height) ]
  | BgAurora auroraOptions =>
      emit [ set_fillStyle (Color (AuroraBackgroundOptions.baseColor auroraOptions));
             fillRect 0 0 (Z2num width) (Z2num height);
             set_globalAlpha spotAlpha ];;
      for_each (fun _ spot => paintSpot width height spot) 0
               (AuroraBackgroundOptions.spots auroraOptions);;
      emit [ set_globalAlpha 1 ]
  | BgGradient gradientOptions =>
      if String.eqb (GradientOptions.type gradientOptions) "aurora" then
        emit [ fillRect 0 0 (Z2num width) (Z2num height); set_globalAlpha spotAlpha ];;
        throw (TypeError "auroraOptions.spots is not iterable")
      else
        let colors := GradientOptions.colors gradientOptions in
        gradient ← addStops (Z.of_nat (length colors)) 0 colors
                     (createGradient (GradientOptions.type gradientOptions) width height);
        emit [ set_fillStyle (Gradient gradient);
               fillRect 0 0 (Z2num width) (Z2num height) ]
  end.
End Background.

(** ** What is drawn when no color is refused

    The gradient objects and the context calls of the background, as
    functions of the options: what the code above hands to the canvas
    when [addColorStop] takes every stop ([paintBackground_run] below). *)

(** The stops of [colors.forEach], in order, after those of [gradient]. *)
Fixpoint addColorStops (count : Z) (index : Z) (colors : list string)
                       (gradient : CanvasGradient) : CanvasGradient :=
  match colors with
  | [] => gradient
  | color :: rest =>
      addColorStops count (index + 1) rest
        (withColorStop (Z2num index / Z2num (count - 1)) color gradient)
  end.

Definition spotCalls (width height : Z) (spot : AuroraSpot.t) : list Call :=
  let gradient :=
    createRadialGradient (AuroraSpot.x spot) (AuroraSpot.y spot) 0
                         (AuroraSpot.x spot) (AuroraSpot.y spot)
                         (AuroraSpot.radius spot) in
  let gradient := withColorStop 0 (AuroraSpot.color spot) gradient in
  let gradient := withColorStop 1 (AuroraSpot.color spot +:+ "00") gradient in
  [ set_fillStyle (Gradient gradient);
    fillRect 0 0 (Z2num width) (Z2num height) ].

(** Lines 214-231. *)
Definition auroraCalls (auroraOptions : AuroraBackgroundOptions.t) (width height : Z)
  : list Call :=
  [ set_fillStyle (Color (AuroraBackgroundOptions.baseColor auroraOptions));
    fillRect 0 0 (Z2num width) (Z2num height);
    set_globalAlpha spotAlpha ]
  ++ flat_map (spotCalls width height) (AuroraBackgroundOptions.spots auroraOptions)
  ++ [ set_globalAlpha 1 ].

(** Lines 233-249. *)
Definition gradientCalls (gradientOptions : GradientOptions.t) (width height : Z)
  : list Call :=
  let gradient := createGradient (GradientOptions.type gradientOptions) width height in
  let colors := GradientOptions.colors gradientOptions in
  let gradient := addColorStops (Z.of_nat (length colors)) 0 colors gradient in
  [ set_fillStyle (Gradient gradient);
    fillRect 0 0 (Z2num width) (Z2num height) ].

(** Lines 252-263. *)
Definition headerCalls (this : t) (width : Z) : list Call :=
  [ set_textAlign "center";
    set_fillStyle (Color "#FFFFFF");
    set_font (or_default (FontStyles.headerTitle (fontStyles this)) "bold 42px Roboto");
    set_shadowColor "rgba(0, 0, 0, 0.5)";
    set_shadowBlur 10;
    fillText (HeaderOptions.title (header this)) (Z2num width / 2) 85 ]
  ++ match truthy (HeaderOptions.subtitle (header this)) with
     | Some subtitle =>
         [ set_font (or_default (FontStyles.headerSubtitle (fontStyles this))
                                "22px Roboto");
           set_fillStyle (Color "#B9BBBE");
           fillText subtitle (Z2num width / 2) 115 ]
     | None => []
     end
  ++ [ set_shadowColor "transparent" ].

Section Rows.
(** [Number.prototype.toString] and template-literal conversion. *)
Variable Number_toString : number -> string.
(** What [loadImage] settles to, by request number and URL. *)
Variable network : nat -> string -> Js.Error + Image.
(** The color parser of the canvas library. *)
Variable colorError : string -> option Js.Error.

Definition loadImage (url : string) : M Image :=
  fun s =>
    let s' := {| canvas := canvas s;
                 env := {| console := console (env s);
                           fetched := S (fetched (env s)) |} |} in
    match network (fetched (env s)) url with
    | inl e => (Throw e, s')
    | inr image => (Ok image, s')
    end.

Variable this : t.
Variable h : heap.

(** Lines 270-277: the card. *)
Definition cardCalls (width y : Z) : list Call :=
  [ set_fillStyle (Color "rgba(255, 255, 255, 0.04)") ]
  ++ roundRect 30 (Z2num y) (Z2num (width - 60)) 90 15
  ++ [ fill;
       set_strokeStyle (Color "rgba(255, 255, 255, 0.1)");
       set_lineWidth 1 ]
  ++ roundRect 30 (Z2num y) (Z2num (width - 60)) 90 15
  ++ [ stroke ].

(** Lines 279-282. *)
Definition podiumColor (position : Z) : option string :=
  let colors := PodiumOptions.colors (podium this) in
  match (if position =? 1 then truthy (colors ≫= PodiumColors.first) else None) with
  | Some c => Some c
  | None =>
      match (if position =? 2 then truthy (colors ≫= PodiumColors.second) else None) with
      | Some c => Some c
      | None =>
          if position =? 3 then truthy (colors ≫= PodiumColors.third) else None
      end
  end.

(** Lines 284-289. *)
Definition podiumCalls (width y position : Z) : list Call :=
  match podiumColor position with
  | Some color =>
      [ set_strokeStyle (Color color); set_lineWidth 2 ]
      ++ roundRect 30 (Z2num y) (Z2num (width - 60)) 90 15
      ++ [ stroke ]
  | None => []
  end.

(** Lines 291-294. *)
Definition positionCalls (y position : Z) : list Call :=
  [ set_font (or_default (FontStyles.userPosition (fontStyles this)) "bold 30px Roboto");
    set_fillStyle (Color "#B9BBBE");
    set_textAlign "center";
    fillText (Number_toString (Z2num position)) 80 (Z2num (y + 58)) ].

(** Lines 298-303, once the image is there. *)
Definition avatarCalls (y : Z) (avatar : Image) : list Call :=
  [ save;
    beginPath;
    arc 170 (Z2num (y + 45)) 30 0 (Math_PI * 2);
    clip;
    drawImage avatar 140 (Z2num (y + 15)) 60 60;
    restore ].

(** Lines 296-304. *)
Definition drawAvatar (y : Z) (player : LeaderboardData.t) : M unit :=
  try_catch
    (avatar ← loadImage (LeaderboardData.avatarUrl player);
     emit (avatarCalls y avatar))
    (fun e => console_error "Could not load avatar" e).

(** Lines 306-312. *)
Definition nameCalls (y : Z) (player : LeaderboardData.t) : list Call :=
  [ set_textAlign "left";
    set_fillStyle (Color "#FFFFFF");
    set_font (or_default (FontStyles.userNickname (fontStyles this)) "bold 22px Roboto");
    fillText (LeaderboardData.nickname player) 225 (Z2num (y + 40));
    set_fillStyle (Color "#B9BBBE");
    set_font (or_default (FontStyles.userLevel (fontStyles this)) "16px Roboto");
    fillText ("Level " +:+ Number_toString (LeaderboardData.level player))
             225 (Z2num (y + 65)) ].

Definition barStartX : number := 450.
Definition barWidth : number := if rankVisible this then 200 else 350.
Definition barHeight : number := 10.

(** [player.neededXp > 0 ? player.xp / player.neededXp : 0] *)
Definition progress (player : LeaderboardData.t) : number :=
  if (0 <? LeaderboardData.neededXp player)%float
  then (LeaderboardData.xp player / LeaderboardData.neededXp player)%float
  else 0.

(** The gradient of the fill, once [addColorStop] has taken both colors. *)
Definition xpGradient : CanvasGradient :=
  withColorStop 1 (XpBarColors.secondary (xpBarColors this))
    (withColorStop 0 (XpBarColors.primary (xpBarColors this))
       (createLinearGradient barStartX 0 (barStartX + barWidth) 0)).

(** Lines 319-321: the track. *)
Definition xpTrackCalls (y : Z) : list Call :=
  [ set_fillStyle (Color "rgba(0, 0, 0, 0.3)") ]
  ++ roundRect barStartX (Z2num (y + 45)) barWidth barHeight 5
  ++ [ fill ].

(** Lines 322-329: the fill.  [addColorStop] throws on a bar color that
    is no color, before anything of the fill is drawn. *)
Definition fillXpBar (y : Z) (player : LeaderboardData.t) : M unit :=
  if (0 <? progress player)%float then
    xpGradient ← settle (addColorStop colorError 0
                           (XpBarColors.primary (xpBarColors this))
                           (createLinearGradient barStartX 0 (barStartX + barWidth) 0));
    xpGradient ← settle (addColorStop colorError 1
                           (XpBarColors.secondary (xpBarColors this)) xpGradient);
    emit ([ set_fillStyle (Gradient xpGradient) ]
          ++ roundRect barStartX (Z2num (y + 45))
                       (barWidth * Math_min (progress player) 1) barHeight 5
          ++ [ fill ])
  else mret tt.

(** The calls of the fill when both bar colors are taken. *)
Definition xpFillCalls (y : Z) (player : LeaderboardData.t) : list Call :=
  if (0 <? progress player)%float then
    [ set_fillStyle (Gradient xpGradient) ]
    ++ roundRect barStartX (Z2num (y + 45))
                 (barWidth * Math_min (progress player) 1) barHeight 5
    ++ [ fill ]
  else [].

(** Lines 330-333: the figures. *)
Definition xpTextCalls (y : Z) (player : LeaderboardData.t) : list Call :=
  [ set_font (or_default (FontStyles.xpText (fontStyles this)) "bold 10px Roboto");
    set_fillStyle (Color "#FFFFFF");
    set_textAlign "right";
    fillText (Number_toString (LeaderboardData.xp player) +:+ " / "
              +:+ Number_toString (LeaderboardData.neededXp player))
             (barStartX + barWidth) (Z2num (y + 70)) ].

(** Lines 335-341. *)
Definition rankCalls (width y : Z) (player : LeaderboardData.t) : list Call :=
  let rank := getRankForXp h this (LeaderboardData.xp player) in
  match rank with
  | Some rank =>
      if rankVisible this then
        [ set_textAlign "right";
          set_font (or_default (FontStyles.rankText (fontStyles this)) "bold 22px Roboto");
          set_fillStyle (Color (RankTier.color rank));
          fillText (RankTier.name rank) (Z2num (width - 50)) (Z2num (y + 58)) ]
      else []
  | None => []
  end.

(** The body of the loop, lines 266-341. *)
Definition drawRow (width headerHeight : Z) (i : nat) (player : LeaderboardData.t)
  : M unit :=
  let position := Z.of_nat i + 1 in
  let y := headerHeight + Z.of_nat i * 100 in
  emit (cardCalls width y);;
  emit (podiumCalls width y position);;
  emit (positionCalls y position);;
  drawAvatar y player;;
  emit (nameCalls y player);;
  emit (xpTrackCalls y);;
  fillXpBar y player;;
  emit (xpTextCalls y player);;
  emit (rankCalls width y player).

(** Lines 207-344, on the canvas made by [createCanvas]. *)
Definition draw (usersToRender : list LeaderboardData.t)
                (width headerHeight height : Z) : M unit :=
  paintBackground colorError (background this) width height;;
  emit (headerCalls this width);;
  for_each (drawRow width headerHeight) 0 usersToRender.

Definition build (e : Env) : Result Buffer * Env :=
  let usersToRender := usersToRender this in
  let width := canvasWidth in
  let headerHeight := headerHeight this in
  let height := headerHeight + Z.of_nat (length usersToRender) * 100 + 20 in
  match draw usersToRender width headerHeight height {| canvas := []; env := e |} with
  | (Ok _, s) =>
      (Ok {| Canvas.width := width; Canvas.height := height; content := canvas s |},
       env s)
  | (Throw err, s) => (Throw err, env s)
  end.
End Rows.

End LeaderboardBuilder.

(** * Binary64 facts

    The order of non-NaN floats is embedded in [Z] by [fval]; comparison and
    the sign of a difference or a quotient are read off that embedding. *)
Module Float64.
Definition SFval (x : spec_float) : Z :=
  match x with
  | S754_zero _ => 0
  | S754_nan => 0
  | S754_infinity s => cond_Zopp s (2 ^ 2200)
  | S754_finite s m e => cond_Zopp s (Zpos m * 2 ^ (e + 1074))
  end.

Definition SFis_nan (x : spec_float) : bool :=
  match x with S754_nan => true | _ => false end.

Lemma digits2_pos_size m : digits2_pos m = Pos.size m.
Proof. induction m; simpl; congruence. Qed.

Lemma canonical_bounds m e :
  bounded prec emax m e = true ->
  -1074 <= e <= 971 /\ Zpos m < 2 ^ 53 /\ (-1074 < e -> 2 ^ 52 <= Zpos m).
Proof.
  unfold bounded, canonical_mantissa, fexp, SpecFloat.emin, prec, emax.
  rewrite digits2_pos_size. intros H.
  apply andb_prop in H as [H1 H2].
  apply Z.eqb_eq in H1. apply Z.leb_le in H2.
  pose proof (Pos.size_gt m) as Hgt.
  pose proof (Pos.size_le m) as Hle.
  assert (Hgt' : Zpos m < 2 ^ Zpos (Pos.size m)).
  { rewrite <- Pos2Z.inj_pow. apply Pos2Z.pos_lt_pos. exact Hgt. }
  assert (Hle' : 2 ^ Zpos (Pos.size m) <= 2 * Zpos m).
  { rewrite <- Pos2Z.inj_pow. change (2 * Zpos m) with (Zpos m~0). apply Pos2Z.pos_le_pos. exact Hle. }
  split; [lia|]. split.
  - eapply Z.lt_le_trans; [exact Hgt'|]. apply Z.pow_le_mono_r; lia.
  - intros He. assert (Zpos (Pos.size m) = 53) by lia.
    rewrite H in Hle'. change (2 ^ 53) with (2 * 2 ^ 52) in Hle'. lia.
Qed.

Definition SFbig : Z := 2 ^ 2200.

Lemma finite_val_bounds m e :
  bounded prec emax m e = true ->
  0 < Zpos m * 2 ^ (e + 1074) < 2 ^ 2200.
Proof.
  intros H. apply canonical_bounds in H as (He & Hm & _).
  assert (0 < 2 ^ (e + 1074)) by (apply Z.pow_pos_nonneg; lia).
  split; [apply Z.mul_pos_pos; lia|].
  assert (2 ^ (e + 1074) <= 2 ^ 2045) by (apply Z.pow_le_mono_r; lia).
  assert (2 ^ 53 * 2 ^ 2045 < 2 ^ 2200).
  { rewrite <- Z.pow_add_r by lia. apply Z.pow_lt_mono_r; lia. }
  nia.
Qed.

Lemma finite_val_compare m1 e1 m2 e2 :
  bounded prec emax m1 e1 = true ->
  bounded prec emax m2 e2 = true ->
  (Zpos m1 * 2 ^ (e1 + 1074) ?= Zpos m2 * 2 ^ (e2 + 1074)) =
  match e1 ?= e2 with
  | Lt => Lt
  | Gt => Gt
  | Eq => Pos.compare_cont Eq m1 m2
  end.
Proof.
  intros H1 H2.
  apply canonical_bounds in H1 as (He1 & Hm1 & Hn1).
  apply canonical_bounds in H2 as (He2 & Hm2 & Hn2).
  assert (Hstep : forall a b ma mb, -1074 <= a < b -> Zpos ma < 2 ^ 53 -> 2 ^ 52 <= Zpos mb ->
            Zpos ma * 2 ^ (a + 1074) < Zpos mb * 2 ^ (b + 1074)).
  { intros a b ma mb Hab Hma Hmb.
    replace (b + 1074) with ((a + 1074) + (b - a)) by lia.
    rewrite (Z.pow_add_r 2 (a + 1074) (b - a)) by lia.
    assert (0 < 2 ^ (a + 1074)) by (apply Z.pow_pos_nonneg; lia).
    assert (2 ^ 1 <= 2 ^ (b - a)) by (apply Z.pow_le_mono_r; lia).
    change (2 ^ 1) with 2 in *. change (2 ^ 53) with (2 * 2 ^ 52) in Hma.
    set (A := 2 ^ (a + 1074)) in *. set (K := 2 ^ (b - a)) in *.
    assert (Zpos ma * A < 2 * Zpos mb * A) by (apply Z.mul_lt_mono_pos_r; lia).
    assert (Zpos mb * A * 2 <= Zpos mb * A * K).
    { apply Z.mul_le_mono_nonneg_l; [apply Z.mul_nonneg_nonneg|]; lia. }
    lia. }
  destruct (Z.compare_spec e1 e2) as [Heq | Hlt | Hgt].
  - subst e2. change (Pos.compare_cont Eq m1 m2) with (Pos.compare m1 m2).
    assert (0 < 2 ^ (e1 + 1074)) by (apply Z.pow_pos_nonneg; lia).
    destruct (Pos.compare_spec m1 m2) as [Hm | Hm | Hm].
    + subst m2. apply Z.compare_refl.
    + apply Z.compare_lt_iff, Z.mul_lt_mono_pos_r; lia.
    + apply Z.compare_gt_iff, Z.mul_lt_mono_pos_r; lia.
  - apply Z.compare_lt_iff. apply Hstep; [lia | assumption | apply Hn2; lia].
  - apply Z.compare_gt_iff. apply Hstep; [lia | assumption | apply Hn1; lia].
Qed.

Lemma SFcompare_val x y :
  valid_binary x = true -> valid_binary y = true ->
  SFis_nan x = false -> SFis_nan y = false ->
  SFcompare x y = Some (SFval x ?= SFval y).
Proof.
  intros Vx Vy Nx Ny.
  assert (HB : 0 < SFbig) by (unfold SFbig; apply Z.pow_pos_nonneg; lia).
  destruct x as [sx | sx | | sx mx ex], y as [sy | sy | | sy my ey];
    try discriminate; cbv [valid_binary] in Vx, Vy;
    try (pose proof (finite_val_bounds _ _ Vx) as Bx);
    try (pose proof (finite_val_bounds _ _ Vy) as By);
    fold SFbig in *; destruct sx, sy;
    cbv [SFcompare SFval cond_Zopp]; fold SFbig; f_equal; symmetry.
  all: try first [ reflexivity
                 | apply Z.compare_eq_iff; lia
                 | apply Z.compare_lt_iff; lia
                 | apply Z.compare_gt_iff; lia ].
  - rewrite Z.compare_opp. rewrite (finite_val_compare _ _ _ _ Vy Vx).
    rewrite (Z.compare_antisym ey ex).
    destruct (ey ?= ex); simpl; try reflexivity.
    change (Pos.compare_cont Eq mx my) with (Pos.compare mx my).
    change (Pos.compare_cont Eq my mx) with (Pos.compare my mx).
    rewrite (Pos.compare_antisym my mx). destruct (Pos.compare my mx); reflexivity.
  - apply finite_val_compare; assumption.
Qed.

(* ---- rounding keeps a positive mantissa positive ---- *)

Lemma iter_pos_iter {A} (f : A -> A) p x : SpecFloat.iter_pos f p x = Pos.iter f x p.
Proof.
  revert x. induction p as [p IH | p IH |]; intros x; simpl.
  - rewrite !IH. rewrite !Pos.iter_swap. reflexivity.
  - rewrite !IH. reflexivity.
  - reflexivity.
Qed.

Lemma shr_1_div2 r : 0 <= shr_m r -> shr_m (shr_1 r) = Z.div2 (shr_m r).
Proof.
  destruct r as [m r s]. simpl. intros H.
  destruct m as [| [p | p |] | p]; try reflexivity. lia.
Qed.

Lemma shr_iter_shiftr p r :
  0 <= shr_m r -> shr_m (Pos.iter shr_1 r p) = Z.shiftr (shr_m r) (Zpos p).
Proof.
  intros H. change (Z.shiftr (shr_m r) (Zpos p)) with (Pos.iter Z.div2 (shr_m r) p).
  induction p as [| p IH] using Pos.peano_ind.
  - simpl. apply shr_1_div2, H.
  - rewrite !Pos.iter_succ. rewrite shr_1_div2.
    + f_equal. exact IH.
    + rewrite IH. change (Pos.iter Z.div2 (shr_m r) p) with (Z.shiftr (shr_m r) (Zpos p)).
      apply Z.shiftr_nonneg, H.
Qed.

Lemma shr_record_of_loc_m m l : shr_m (shr_record_of_loc m l) = m.
Proof. destruct l as [| []]; reflexivity. Qed.

Lemma shr_fexp_pos m e l :
  -1074 < Zpos (Pos.size m) + e ->
  exists m', shr_m (fst (shr_fexp prec emax (Zpos m) e l)) = Zpos m' /\
             -1074 <= snd (shr_fexp prec emax (Zpos m) e l).
Proof.
  intros He. unfold shr_fexp, shr, fexp, SpecFloat.emin, prec, emax, Zdigits2.
  rewrite digits2_pos_size.
  pose proof (Pos.size_le m) as Hle.
  assert (Hle' : 2 ^ Zpos (Pos.size m) <= 2 * Zpos m).
  { rewrite <- Pos2Z.inj_pow. change (2 * Zpos m) with (Zpos m~0).
    apply Pos2Z.pos_le_pos. exact Hle. }
  destruct (Z.max (Zpos (Pos.size m) + e - 53) (3 - 1024 - 53) - e) as [| n | n] eqn:En;
    simpl fst; simpl snd.
  - exists m. rewrite shr_record_of_loc_m. split; [reflexivity | lia].
  - rewrite iter_pos_iter, shr_iter_shiftr by (rewrite shr_record_of_loc_m; lia).
    rewrite shr_record_of_loc_m. rewrite Z.shiftr_div_pow2 by lia.
    assert (Hn : Zpos n <= Zpos (Pos.size m) - 1) by lia.
    assert (Hpow : 2 ^ Zpos n <= Zpos m).
    { assert (2 * 2 ^ Zpos n <= 2 ^ Zpos (Pos.size m)).
      { rewrite <- (Z.pow_succ_r 2) by lia. apply Z.pow_le_mono_r; lia. }
      lia. }
    assert (0 < 2 ^ Zpos n) by (apply Z.pow_pos_nonneg; lia).
    assert (0 < Zpos m / 2 ^ Zpos n) by (apply Z.div_str_pos; lia).
    destruct (Zpos m / 2 ^ Zpos n) as [| q | q]; try lia.
    exists q. split; [reflexivity | lia].
  - exists m. rewrite shr_record_of_loc_m. split; [reflexivity | lia].
Qed.

Lemma binary_round_aux_pos m e l :
  -1074 < Zpos (Pos.size m) + e ->
  (exists m' e', binary_round_aux prec emax false (Zpos m) e l = S754_finite false m' e') \/
  binary_round_aux prec emax false (Zpos m) e l = S754_infinity false.
Proof.
  intros He. unfold binary_round_aux.
  destruct (shr_fexp_pos m e l He) as (m1 & Hm1 & He1).
  destruct (shr_fexp prec emax (Zpos m) e l) as [mrs1 e1]. simpl in Hm1, He1.
  assert (Hr : exists m2, round_nearest_even (shr_m mrs1) (loc_of_shr_record mrs1) = Zpos m2).
  { rewrite Hm1. unfold round_nearest_even.
    destruct (loc_of_shr_record mrs1) as [| []]; try destruct (Z.even (Zpos m1)); simpl; eauto. }
  destruct Hr as (m2 & ->).
  assert (He1' : -1074 < Zpos (Pos.size m2) + e1) by lia.
  destruct (shr_fexp_pos m2 e1 loc_Exact He1') as (m3 & Hm3 & He3).
  destruct (shr_fexp prec emax (Zpos m2) e1 loc_Exact) as [mrs3 e3]. simpl in Hm3, He3.
  rewrite Hm3. destruct (e3 <=? emax - prec); eauto.
Qed.

Lemma binary_round_aux_sign s m e l :
  match binary_round_aux prec emax s m e l with
  | S754_zero s' | S754_infinity s' | S754_finite s' _ _ => s' = s
  | S754_nan => True
  end.
Proof.
  unfold binary_round_aux.
  destruct (shr_fexp prec emax m e l) as [mrs1 e1].
  destruct (shr_fexp prec emax _ e1 loc_Exact) as [mrs3 e3].
  destruct (shr_m mrs3); try destruct (e3 <=? emax - prec); auto.
Qed.

Lemma shl_align_exp m e e' :
  -1074 <= e -> -1074 <= e' -> -1074 <= snd (shl_align m e e').
Proof. unfold shl_align. destruct (e' - e); simpl; lia. Qed.

Lemma binary_round_pos m e :
  -1074 <= e ->
  (exists m' e', binary_round prec emax false m e = S754_finite false m' e') \/
  binary_round prec emax false m e = S754_infinity false.
Proof.
  intros He. unfold binary_round.
  pose proof (shl_align_exp m e (fexp prec emax (Zpos (digits2_pos m) + e)) He) as Hs.
  destruct (shl_align m e _) as [mz ez]. simpl in Hs.
  apply binary_round_aux_pos.
  assert (-1074 <= ez); [| lia].
  apply Hs. unfold fexp, SpecFloat.emin, prec, emax. lia.
Qed.

Lemma pos_iter_xO m d : Zpos (Pos.iter xO m d) = Zpos m * 2 ^ Zpos d.
Proof.
  induction d as [| d IH] using Pos.peano_ind.
  - simpl. lia.
  - rewrite Pos.iter_succ, Pos2Z.inj_succ, Z.pow_succ_r by lia.
    rewrite Pos2Z.inj_xO, IH. lia.
Qed.

Lemma shl_align_val m e ez :
  ez <= e -> Zpos (fst (shl_align m e ez)) = Zpos m * 2 ^ (e - ez).
Proof.
  intros H. unfold shl_align.
  destruct (ez - e) as [| d | d] eqn:Ed; simpl fst.
  - replace (e - ez) with 0 by lia. lia.
  - lia.
  - rewrite pos_iter_xO. f_equal. f_equal. lia.
Qed.

Lemma SFsub_pos x y :
  valid_binary x = true -> valid_binary y = true ->
  SFis_nan x = false -> SFis_nan y = false ->
  SFltb (S754_zero false) (SFsub prec emax y x) = (SFval x <? SFval y).
Proof.
  intros Vx Vy Nx Ny.
  assert (HB : 0 < SFbig) by (unfold SFbig; apply Z.pow_pos_nonneg; lia).
  destruct x as [sx | sx | | sx mx ex], y as [sy | sy | | sy my ey];
    try discriminate; cbv [valid_binary] in Vx, Vy;
    try (pose proof (finite_val_bounds _ _ Vx) as Bx);
    try (pose proof (finite_val_bounds _ _ Vy) as By);
    fold SFbig in *.
  all: try (destruct sx, sy; cbv [SFsub SFltb SFcompare SFval cond_Zopp negb]; fold SFbig;
            symmetry; first [ apply Z.ltb_lt; lia | apply Z.ltb_ge; lia ]; fail).
  (* finite - finite *)
  cbv [SFsub]. cbv zeta.
  pose proof (canonical_bounds _ _ Vx) as (Hex & _ & _).
  pose proof (canonical_bounds _ _ Vy) as (Hey & _ & _).
  set (ez := Z.min ey ex).
  rewrite (shl_align_val my ey ez), (shl_align_val mx ex ez) by (unfold ez; lia).
  assert (Hez : -1074 <= ez) by (unfold ez; lia).
  assert (HA : 0 < 2 ^ (ez + 1074)) by (apply Z.pow_pos_nonneg; lia).
  assert (Hx : SFval (S754_finite sx mx ex) =
               cond_Zopp sx (Zpos mx * 2 ^ (ex - ez)) * 2 ^ (ez + 1074)).
  { cbv [SFval]. replace (ex + 1074) with ((ex - ez) + (ez + 1074)) by lia.
    rewrite Z.pow_add_r by (unfold ez; lia). destruct sx; cbv [cond_Zopp]; lia. }
  assert (Hy : SFval (S754_finite sy my ey) =
               cond_Zopp sy (Zpos my * 2 ^ (ey - ez)) * 2 ^ (ez + 1074)).
  { cbv [SFval]. replace (ey + 1074) with ((ey - ez) + (ez + 1074)) by lia.
    rewrite Z.pow_add_r by (unfold ez; lia). destruct sy; cbv [cond_Zopp]; lia. }
  rewrite Hx, Hy.
  set (a := cond_Zopp sx (Zpos mx * 2 ^ (ex - ez))).
  set (b := cond_Zopp sy (Zpos my * 2 ^ (ey - ez))).
  destruct (b - a) as [| d | d] eqn:Ed; cbv [binary_normalize].
  - symmetry. apply Z.ltb_ge. replace b with a by lia. lia.
  - transitivity true.
    + destruct (binary_round_pos d ez Hez) as [(m' & e' & ->) | ->]; reflexivity.
    + symmetry. apply Z.ltb_lt. apply Z.mul_lt_mono_pos_r; lia.
  - transitivity false.
    + unfold binary_round. destruct (shl_align d ez _) as [mz ez'].
      pose proof (binary_round_aux_sign true (Zpos mz) ez' loc_Exact) as Hs.
      destruct (binary_round_aux prec emax true (Zpos mz) ez' loc_Exact);
        try subst; reflexivity.
    + symmetry. apply Z.ltb_ge. apply Z.mul_le_mono_nonneg_r; lia.
Qed.

(* ---- primitive floats ---- *)

Definition fval (x : float) : Z := SFval (Prim2SF x).

Lemma is_nan_spec x : PrimFloat.is_nan x = SFis_nan (Prim2SF x).
Proof.
  unfold PrimFloat.is_nan. rewrite FloatAxioms.eqb_spec. unfold SFeqb.
  destruct (SFis_nan (Prim2SF x)) eqn:E.
  - destruct (Prim2SF x); try discriminate. reflexivity.
  - rewrite SFcompare_val by (apply Prim2SF_valid || assumption).
    rewrite Z.compare_refl. reflexivity.
Qed.

Lemma ltb_fval x y :
  PrimFloat.is_nan x = false -> PrimFloat.is_nan y = false ->
  (x <? y)%float = (fval x <? fval y).
Proof.
  rewrite !is_nan_spec. intros Nx Ny. rewrite ltb_spec. unfold SFltb, fval.
  rewrite SFcompare_val by (apply Prim2SF_valid || assumption).
  unfold Z.ltb. destruct (_ ?= _); reflexivity.
Qed.

Lemma leb_fval x y :
  PrimFloat.is_nan x = false -> PrimFloat.is_nan y = false ->
  (x <=? y)%float = (fval x <=? fval y).
Proof.
  rewrite !is_nan_spec. intros Nx Ny. rewrite leb_spec. unfold SFleb, fval.
  rewrite SFcompare_val by (apply Prim2SF_valid || assumption).
  unfold Z.leb. destruct (_ ?= _); reflexivity.
Qed.

Lemma sub_pos_fval x y :
  PrimFloat.is_nan x = false -> PrimFloat.is_nan y = false ->
  (0 <? y - x)%float = (fval x <? fval y).
Proof.
  rewrite !is_nan_spec. intros Nx Ny. rewrite ltb_spec, sub_spec.
  change (Prim2SF 0) with (S754_zero false).
  apply SFsub_pos; auto using Prim2SF_valid.
Qed.

Lemma ltb_true_not_nan x y :
  (x <? y)%float = true -> PrimFloat.is_nan x = false /\ PrimFloat.is_nan y = false.
Proof.
  rewrite ltb_spec, !is_nan_spec. unfold SFltb.
  destruct (Prim2SF x), (Prim2SF y); simpl; auto; discriminate.
Qed.

Lemma leb_true_not_nan x y :
  (x <=? y)%float = true -> PrimFloat.is_nan x = false /\ PrimFloat.is_nan y = false.
Proof.
  rewrite leb_spec, !is_nan_spec. unfold SFleb.
  destruct (Prim2SF x), (Prim2SF y); simpl; auto; discriminate.
Qed.

Lemma leb_refl x : PrimFloat.is_nan x = false -> (x <=? x)%float = true.
Proof. intros Nx. rewrite leb_fval by assumption. apply Z.leb_refl. Qed.

Lemma ltb_leb_false x y : (x <? y)%float = true -> (y <=? x)%float = false.
Proof.
  intros H. destruct (ltb_true_not_nan _ _ H) as [Nx Ny].
  rewrite ltb_fval in H by assumption. rewrite leb_fval by assumption.
  apply Z.ltb_lt in H. apply Z.leb_gt. exact H.
Qed.

Lemma zero_ltb_nan_free x : (0 <? x)%float = true -> PrimFloat.is_nan x = false.
Proof. intros H. apply (ltb_true_not_nan _ _ H). Qed.

(** The quotient of a negative number by a positive one is never positive
    (it is negative, a negative zero, or NaN for two infinities). *)
Lemma div_neg_pos x y :
  (x <? 0)%float = true -> (0 <? y)%float = true -> (0 <? x / y)%float = false.
Proof.
  rewrite !ltb_spec, div_spec. change (Prim2SF 0) with (S754_zero false).
  unfold SFltb. intros Hx Hy.
  destruct (Prim2SF x) as [sx | sx | | sx mx ex], (Prim2SF y) as [sy | sy | | sy my ey];
    try destruct sx; try destruct sy; cbv [SFcompare] in Hx, Hy; try discriminate;
    cbv [SF64div SFdiv xorb]; try reflexivity.
  destruct (SFdiv_core_binary prec emax (Zpos mx) ex (Zpos my) ey) as [[mz ez] lz].
  pose proof (binary_round_aux_sign true mz ez lz) as Hs.
  destruct (binary_round_aux prec emax true mz ez lz); try subst; reflexivity.
Qed.

(** A positive number times a normal number that is at least one is
    positive: the product cannot underflow to zero. *)
Lemma mul_pos_ge1 c x mc ec :
  Prim2SF c = S754_finite false mc ec -> 2 ^ 52 <= Zpos mc -> -52 <= ec ->
  (0 <? x)%float = true -> (0 <? c * x)%float = true.
Proof.
  intros Hc Hmc Hec. rewrite !ltb_spec, mul_spec. change (Prim2SF 0) with (S754_zero false).
  pose proof (Prim2SF_valid x) as Vx. rewrite Hc.
  destruct (Prim2SF x) as [sx | sx | | sx mx ex]; try destruct sx;
    cbv [SFltb SFcompare]; try discriminate; intros _; try reflexivity.
  cbv [SF64mul SFmul xorb]. cbv [valid_binary] in Vx.
  apply canonical_bounds in Vx as (Hex & _ & _).
  change (Zpos (mc * mx)) with (Zpos mc * Zpos mx).
  assert (Hsize : 53 <= Zpos (Pos.size (mc * mx))).
  { pose proof (Pos.size_gt (mc * mx)) as Hgt.
    assert (Hgt' : Zpos (mc * mx) < 2 ^ Zpos (Pos.size (mc * mx))).
    { rewrite <- Pos2Z.inj_pow. apply Pos2Z.pos_lt_pos. exact Hgt. }
    rewrite Pos2Z.inj_mul in Hgt'.
    assert (2 ^ 52 <= Zpos mc * Zpos mx) by nia.
    destruct (Z_lt_le_dec (Zpos (Pos.size (mc * mx))) 53) as [Hlt | ?]; [| assumption].
    assert (2 ^ Zpos (Pos.size (mc * mx)) <= 2 ^ 52) by (apply Z.pow_le_mono_r; lia).
    lia. }
  rewrite <- Pos2Z.inj_mul.
  destruct (binary_round_aux_pos (mc * mx) (ec + ex) loc_Exact) as [(m' & e' & ->) | ->];
    [lia | reflexivity | reflexivity].
Qed.

End Float64.

(** * How [build] runs *)
Section Run.
Import Js Canvas LeaderboardBuilder.

Variable Number_toString : number -> string.
Variable network : nat -> string -> Js.Error + Image.
Variable colorError : string -> option Js.Error.
Variable this : t.
Variable h : heap.

(** The calls of one turn of the loop, given what [loadImage] settled to. *)
Definition rowCalls (i : nat) (player : LeaderboardData.t) (outcome : Js.Error + Image)
  : list Call :=
  let position := Z.of_nat i + 1 in
  let y := headerHeight this + Z.of_nat i * 100 in
  cardCalls canvasWidth y
  ++ podiumCalls this canvasWidth y position
  ++ positionCalls Number_toString this y position
  ++ match outcome with inr avatar => avatarCalls y avatar | inl _ => [] end
  ++ nameCalls Number_toString this y player
  ++ xpTrackCalls this y
  ++ xpFillCalls this y player
  ++ xpTextCalls Number_toString this y player
  ++ rankCalls this h canvasWidth y player.

(** What the [catch] clause of one turn prints. *)
Definition rowConsole (outcome : Js.Error + Image) : list ConsoleEntry :=
  match outcome with
  | inl e => [ {| message := "Could not load avatar"; detail := e |} ]
  | inr _ => []
  end.

(** Rows [i], [i+1], ... for the players [l]; the first of them issues
    request number [n]. *)
Fixpoint rowsFrom (i n : nat) (l : list LeaderboardData.t) : list (list Call) :=
  match l with
  | [] => []
  | player :: rest =>
      rowCalls i player (network n (LeaderboardData.avatarUrl player))
      :: rowsFrom (S i) (S n) rest
  end.

Fixpoint consoleFrom (n : nat) (l : list LeaderboardData.t) : list ConsoleEntry :=
  match l with
  | [] => []
  | player :: rest =>
      rowConsole (network n (LeaderboardData.avatarUrl player)) ++ consoleFrom (S n) rest
  end.

(** The calls that paint a background on which [build] does not throw. *)
Definition backgroundCalls (bg : BackgroundOptions) (width height : Z) : list Call :=
  match bg with
  | BgColor color =>
      [ set_fillStyle (Color color); fillRect 0 0 (Z2num width) (Z2num height) ]
  | BgAurora auroraOptions => auroraCalls auroraOptions width height
  | BgGradient gradientOptions => gradientCalls gradientOptions width height
  end.

(** An object whose [type] is ['aurora'] must be an aurora object. *)
Definition wellTyped (bg : BackgroundOptions) : bool :=
  match bg with
  | BgGradient g => negb (String.eqb (GradientOptions.type g) "aurora")
  | _ => true
  end.

(** [addColorStop] takes both stops of the spot: its color, and its color
    with ["00"] appended. *)
Definition spotAccepted (spot : AuroraSpot.t) : bool :=
  parses colorError (AuroraSpot.color spot)
  && parses colorError (AuroraSpot.color spot +:+ "00").

(** [addColorStop] takes every stop of the background. *)
Definition backgroundAccepted (bg : BackgroundOptions) : bool :=
  match bg with
  | BgColor _ => true
  | BgGradient g => forallb (parses colorError) (GradientOptions.colors g)
  | BgAurora a => forallb spotAccepted (AuroraBackgroundOptions.spots a)
  end.

(** The row has no fill to draw, or [addColorStop] takes both bar colors. *)
Definition rowAccepted (player : LeaderboardData.t) : bool :=
  negb (0 <? progress player)%float
  || (parses colorError (XpBarColors.primary (xpBarColors this))
      && parses colorError (XpBarColors.secondary (xpBarColors this))).

(** [addColorStop] takes every stop that [build] hands to it. *)
Definition accepted : bool :=
  backgroundAccepted (background this) && forallb rowAccepted (usersToRender this).

Lemma parses_true color : parses colorError color = true <-> colorError color = None.
Proof. unfold parses. destruct (colorError color); split; congruence. Qed.

Lemma parses_false color :
  parses colorError color = false <-> exists err, colorError color = Some err.
Proof.
  unfold parses. destruct (colorError color) as [err |]; split; try congruence.
  - intros _. exists err. reflexivity.
  - intros (err & H). discriminate.
Qed.

Lemma addColorStop_taken {A} offset color g (k : CanvasGradient -> M A) s :
  parses colorError color = true ->
  (settle (addColorStop colorError offset color g) ≫= k) s =
  k (withColorStop offset color g) s.
Proof.
  intros H. apply parses_true in H.
  unfold mbind, M_bind, settle, addColorStop. rewrite H. reflexivity.
Qed.

Lemma addColorStop_refused {A} offset color g (k : CanvasGradient -> M A) s err :
  colorError color = Some err ->
  (settle (addColorStop colorError offset color g) ≫= k) s = (Throw err, s).
Proof.
  intros H. unfold mbind, M_bind, settle, addColorStop. rewrite H. reflexivity.
Qed.

Lemma addStops_run colors : forall count index g s,
  forallb (parses colorError) colors = true ->
  addStops colorError count index colors g s =
  (Ok (addColorStops count index colors g), s).
Proof.
  induction colors as [| color rest IH]; intros count index g s H; [reflexivity|].
  cbn in H. apply andb_prop in H as [Hc Hrest].
  cbn [addStops addColorStops]. rewrite (addColorStop_taken _ _ _ _ _ Hc).
  apply IH, Hrest.
Qed.

Lemma addStops_refused colors : forall count index g s,
  forallb (parses colorError) colors = false ->
  exists err, addStops colorError count index colors g s = (Throw err, s).
Proof.
  induction colors as [| color rest IH]; intros count index g s H; [discriminate|].
  cbn in H. cbn [addStops].
  destruct (parses colorError color) eqn:Hc.
  - rewrite (addColorStop_taken _ _ _ _ _ Hc). apply IH. exact H.
  - apply parses_false in Hc as (err & Hc). exists err.
    apply addColorStop_refused, Hc.
Qed.

Lemma paintSpot_run width height spot s :
  spotAccepted spot = true ->
  paintSpot colorError width height spot s =
  (Ok tt, {| canvas := canvas s ++ spotCalls width height spot; env := env s |}).
Proof.
  intros H. apply andb_prop in H as [H0 H1]. unfold paintSpot.
  rewrite (addColorStop_taken _ _ _ _ _ H0), (addColorStop_taken _ _ _ _ _ H1).
  reflexivity.
Qed.

Lemma paintSpot_refused width height spot s :
  spotAccepted spot = false ->
  exists err, paintSpot colorError width height spot s = (Throw err, s).
Proof.
  intros H. unfold spotAccepted in H. unfold paintSpot.
  destruct (parses colorError (AuroraSpot.color spot)) eqn:H0.
  - cbn in H. apply parses_false in H as (err & H). exists err.
    rewrite (addColorStop_taken _ _ _ _ _ H0). apply addColorStop_refused, H.
  - apply parses_false in H0 as (err & H0). exists err.
    apply addColorStop_refused, H0.
Qed.

Lemma paintSpots_run width height spots : forall i s,
  forallb spotAccepted spots = true ->
  for_each (fun _ spot => paintSpot colorError width height spot) i spots s =
  (Ok tt, {| canvas := canvas s ++ flat_map (spotCalls width height) spots;
             env := env s |}).
Proof.
  induction spots as [| spot rest IH]; intros i s H.
  - cbn. rewrite app_nil_r. destruct s. reflexivity.
  - cbn in H. apply andb_prop in H as [Hs Hrest].
    cbn [for_each flat_map]. unfold mbind at 1, M_bind at 1.
    rewrite (paintSpot_run _ _ _ _ Hs), (IH _ _ Hrest). cbn [canvas env].
    rewrite <- app_assoc. reflexivity.
Qed.

(** The loop over the spots stops at the first spot refused; nothing was
    printed or requested, and [globalAlpha = 1] was not reached. *)
Lemma paintSpots_refused width height spots : forall i s,
  forallb spotAccepted spots = false ->
  exists err s',
    for_each (fun _ spot => paintSpot colorError width height spot) i spots s =
      (Throw err, s') /\
    env s' = env s.
Proof.
  induction spots as [| spot rest IH]; intros i s H; [discriminate|].
  cbn in H. cbn [for_each]. unfold mbind at 1, M_bind at 1.
  destruct (spotAccepted spot) eqn:Hs.
  - rewrite (paintSpot_run _ _ _ _ Hs).
    destruct (IH (S i) {| canvas := canvas s ++ spotCalls width height spot;
                          env := env s |} H) as (err & s' & -> & He).
    exists err, s'. split; [reflexivity | exact He].
  - destruct (paintSpot_refused width height spot s Hs) as (err & ->).
    exists err, s. split; reflexivity.
Qed.

Lemma drawAvatar_run y player s :
  drawAvatar network y player s =
  let outcome := network (fetched (env s)) (LeaderboardData.avatarUrl player) in
  (Ok tt,
   {| canvas := canvas s ++ match outcome with
                            | inr avatar => avatarCalls y avatar
                            | inl _ => []
                            end;
      env := {| console := console (env s) ++ rowConsole outcome;
                fetched := S (fetched (env s)) |} |}).
Proof.
  unfold drawAvatar, try_catch, loadImage, mbind, M_bind. cbv zeta.
  destruct (network (fetched (env s)) (LeaderboardData.avatarUrl player)); cbn.
  - rewrite app_nil_r. reflexivity.
  - rewrite app_nil_r. reflexivity.
Qed.

Lemma fillXpBar_run y player s :
  rowAccepted player = true ->
  fillXpBar colorError this y player s =
  (Ok tt, {| canvas := canvas s ++ xpFillCalls this y player; env := env s |}).
Proof.
  unfold rowAccepted, fillXpBar, xpFillCalls.
  destruct (0 <? progress player)%float; cbn [negb orb]; intros H.
  - apply andb_prop in H as [H0 H1].
    rewrite (addColorStop_taken _ _ _ _ _ H0), (addColorStop_taken _ _ _ _ _ H1).
    reflexivity.
  - rewrite app_nil_r. destruct s. reflexivity.
Qed.

Lemma fillXpBar_refused y player s :
  rowAccepted player = false ->
  exists err, fillXpBar colorError this y player s = (Throw err, s).
Proof.
  unfold rowAccepted, fillXpBar.
  destruct (0 <? progress player)%float; cbn [negb orb]; intros H; [| discriminate].
  destruct (parses colorError (XpBarColors.primary (xpBarColors this))) eqn:H0.
  - cbn in H. apply parses_false in H as (err & H). exists err.
    rewrite (addColorStop_taken _ _ _ _ _ H0). apply addColorStop_refused, H.
  - apply parses_false in H0 as (err & H0). exists err.
    apply addColorStop_refused, H0.
Qed.

Lemma drawRow_run i player s :
  rowAccepted player = true ->
  drawRow Number_toString network colorError this h canvasWidth (headerHeight this)
          i player s =
  let outcome := network (fetched (env s)) (LeaderboardData.avatarUrl player) in
  (Ok tt,
   {| canvas := canvas s ++ rowCalls i player outcome;
      env := {| console := console (env s) ++ rowConsole outcome;
                fetched := S (fetched (env s)) |} |}).
Proof.
  intros Hacc. unfold drawRow, rowCalls. cbv zeta.
  unfold mbind, M_bind, emit. cbn [canvas env].
  rewrite drawAvatar_run. cbv zeta. cbn [canvas env].
  rewrite (fillXpBar_run _ _ _ Hacc). cbn [canvas env].
  rewrite <- !app_assoc. reflexivity.
Qed.

(** A row whose fill is refused: the avatar was asked for before. *)
Lemma drawRow_refused i player s :
  rowAccepted player = false ->
  exists err s',
    drawRow Number_toString network colorError this h canvasWidth (headerHeight this)
            i player s = (Throw err, s') /\
    env s' =
      {| console := console (env s)
                    ++ rowConsole (network (fetched (env s))
                                           (LeaderboardData.avatarUrl player));
         fetched := S (fetched (env s)) |}.
Proof.
  intros Hacc. unfold drawRow. cbv zeta.
  unfold mbind, M_bind, emit. cbn [canvas env].
  rewrite drawAvatar_run. cbv zeta. cbn [canvas env].
  match goal with
  | |- context [ fillXpBar colorError this ?y player ?s0 ] =>
      destruct (fillXpBar_refused y player s0 Hacc) as (err & ->)
  end.
  eexists err, _. split; reflexivity.
Qed.

Lemma for_each_run l : forall i s,
  forallb rowAccepted l = true ->
  for_each (drawRow Number_toString network colorError this h canvasWidth
                    (headerHeight this)) i l s =
  (Ok tt,
   {| canvas := canvas s ++ concat (rowsFrom i (fetched (env s)) l);
      env := {| console := console (env s) ++ consoleFrom (fetched (env s)) l;
                fetched := fetched (env s) + length l |} |}).
Proof.
  induction l as [| player rest IH]; intros i s Hacc.
  - cbn. rewrite !app_nil_r, Nat.add_0_r. destruct s as [c [co f]]. reflexivity.
  - cbn in Hacc. apply andb_prop in Hacc as [Hrow Hrest].
    cbn [for_each]. unfold mbind at 1, M_bind at 1.
    rewrite (drawRow_run _ _ _ Hrow). cbv beta iota zeta.
    rewrite (IH _ _ Hrest). cbn [canvas env console fetched rowsFrom consoleFrom concat length].
    rewrite <- !app_assoc, Nat.add_succ_comm. reflexivity.
Qed.

Lemma for_each_refused l : forall i s,
  forallb rowAccepted l = false ->
  exists err s',
    for_each (drawRow Number_toString network colorError this h canvasWidth
                      (headerHeight this)) i l s = (Throw err, s').
Proof.
  induction l as [| player rest IH]; intros i s Hacc; [discriminate|].
  cbn in Hacc. cbn [for_each]. unfold mbind at 1, M_bind at 1.
  destruct (rowAccepted player) eqn:Hrow.
  - rewrite (drawRow_run _ _ _ Hrow). cbv beta iota zeta. apply IH. exact Hacc.
  - destruct (drawRow_refused i player s Hrow) as (err & s' & -> & _).
    exists err, s'. reflexivity.
Qed.

Lemma paintBackground_run bg width height s :
  wellTyped bg = true ->
  backgroundAccepted bg = true ->
  paintBackground colorError bg width height s =
  (Ok tt, {| canvas := canvas s ++ backgroundCalls bg width height; env := env s |}).
Proof.
  destruct bg as [color | g | a]; cbn [wellTyped backgroundAccepted paintBackground
                                         backgroundCalls]; intros Hwt Hacc.
  - reflexivity.
  - apply negb_true_iff in Hwt. rewrite Hwt. cbv zeta.
    unfold mbind, M_bind. rewrite (addStops_run _ _ _ _ _ Hacc). reflexivity.
  - unfold mbind, M_bind, emit. cbn [canvas env].
    rewrite (paintSpots_run _ _ _ _ _ Hacc). cbn [canvas env].
    unfold auroraCalls. rewrite <- !app_assoc. reflexivity.
Qed.

(** A background with a stop that is no color: [paintBackground] throws
    what [addColorStop] throws, and nothing was printed or requested. *)
Lemma paintBackground_refused bg width height s :
  wellTyped bg = true ->
  backgroundAccepted bg = false ->
  exists err s',
    paintBackground colorError bg width height s = (Throw err, s') /\ env s' = env s.
Proof.
  destruct bg as [color | g | a]; cbn [wellTyped backgroundAccepted paintBackground];
    intros Hwt Hacc.
  - discriminate.
  - apply negb_true_iff in Hwt. rewrite Hwt. cbv zeta.
    unfold mbind, M_bind.
    destruct (addStops_refused _ (Z.of_nat (length (GradientOptions.colors g))) 0
                (createGradient (GradientOptions.type g) width height) s Hacc)
      as (err & ->).
    exists err, s. split; reflexivity.
  - unfold mbind, M_bind, emit. cbn [canvas env].
    match goal with
    | |- context [ for_each ?body 0 ?spots ?s0 ] =>
        destruct (paintSpots_refused width height spots 0 s0 Hacc) as (err & s' & -> & He)
    end.
    exists err, s'. split; [reflexivity | exact He].
Qed.

(** [build] returns, and what it returns, for a well-typed background
    whose stops, and the stops of the bars, are all taken. *)
Lemma build_run e :
  wellTyped (background this) = true ->
  accepted = true ->
  build Number_toString network colorError this h e =
  (Ok {| width := canvasWidth;
         height := canvasHeight this;
         content := backgroundCalls (background this) canvasWidth (canvasHeight this)
                    ++ headerCalls this canvasWidth
                    ++ concat (rowsFrom 0 (fetched e) (usersToRender this)) |},
   {| console := console e ++ consoleFrom (fetched e) (usersToRender this);
      fetched := fetched e + length (usersToRender this) |}).
Proof.
  intros Hwt Hacc. apply andb_prop in Hacc as [Hbg Hrows].
  unfold build, draw. cbv zeta.
  unfold mbind, M_bind. rewrite paintBackground_run by assumption.
  unfold emit. cbn [canvas env]. rewrite (for_each_run _ _ _ Hrows).
  cbn [canvas env console fetched app].
  rewrite <- app_assoc. reflexivity.
Qed.

(** On a well-typed background with a stop that is no color, or with a
    fill to draw in bar colors that are no colors, [build] throws. *)
Lemma build_refused e :
  wellTyped (background this) = true ->
  accepted = false ->
  exists err e', build Number_toString network colorError this h e = (Throw err, e').
Proof.
  intros Hwt Hacc. unfold accepted in Hacc.
  unfold build, draw. cbv zeta. unfold mbind, M_bind.
  destruct (backgroundAccepted (background this)) eqn:Hbg.
  - cbn in Hacc. rewrite paintBackground_run by assumption.
    unfold emit. cbn [canvas env].
    match goal with
    | |- context [ for_each ?body 0 ?l ?s0 ] =>
        destruct (for_each_refused l 0 s0 Hacc) as (err & s' & ->)
    end.
    exists err, (env s'). reflexivity.
  - destruct (paintBackground_refused (background this) canvasWidth
                (headerHeight this + Z.of_nat (length (usersToRender this)) * 100 + 20)
                {| canvas := []; env := e |} Hwt Hbg) as (err & s' & -> & He).
    exists err, (env s'). reflexivity.
Qed.

(** On any other background [build] throws, before the header is drawn. *)
Lemma build_ill_typed e :
  wellTyped (background this) = false ->
  build Number_toString network colorError this h e =
  (Throw (TypeError "auroraOptions.spots is not iterable"), e).
Proof.
  intros Hwt. unfold build, draw. cbv zeta. unfold mbind, M_bind.
  destruct (background this) as [color | g | a]; try discriminate.
  cbn in Hwt. apply negb_false_iff in Hwt.
  unfold paintBackground. rewrite Hwt. destruct e. reflexivity.
Qed.

(** [build] returns exactly on these inputs. *)
Lemma build_returns_iff e :
  (exists buf e', build Number_toString network colorError this h e = (Ok buf, e')) <->
  wellTyped (background this) = true /\ accepted = true.
Proof.
  split.
  - intros (buf & e' & Hb).
    destruct (wellTyped (background this)) eqn:Hwt.
    + destruct accepted eqn:Hacc; [split; reflexivity|].
      destruct (build_refused e Hwt Hacc) as (err & e'' & Hr). congruence.
    + rewrite (build_ill_typed e Hwt) in Hb. discriminate.
  - intros [Hwt Hacc]. eexists _, _. apply build_run; assumption.
Qed.

Lemma rowsFrom_length l : forall i n, length (rowsFrom i n l) = length l.
Proof. induction l; intros; cbn; auto. Qed.

Lemma rowsFrom_lookup l : forall i n k player,
  l !! k = Some player ->
  rowsFrom i n l !! k =
  Some (rowCalls (i + k) player (network (n + k) (LeaderboardData.avatarUrl player))).
Proof.
  induction l as [| p rest IH]; intros i n k player Hk; [discriminate|].
  destruct k as [| k]; simpl in *.
  - inversion Hk; subst. rewrite !Nat.add_0_r. reflexivity.
  - rewrite (IH (S i) (S n) k player Hk), <- !Nat.add_succ_comm. reflexivity.
Qed.

Lemma consoleFrom_In l : forall n k player e,
  l !! k = Some player ->
  network (n + k) (LeaderboardData.avatarUrl player) = inl e ->
  In {| message := "Could not load avatar"; detail := e |} (consoleFrom n l).
Proof.
  induction l as [| p rest IH]; intros n k player e Hk Hn; [discriminate|].
  destruct k as [| k]; simpl in *.
  - inversion Hk; subst. rewrite Nat.add_0_r in Hn. rewrite Hn. left. reflexivity.
  - apply in_or_app. right. apply (IH (S n) k player e Hk).
    replace (S n + k)%nat with (n + S k)%nat by lia. exact Hn.
Qed.

(** A row of the log sits between the rows before it and those after. *)
Lemma concat_lookup_split {A} (ls : list (list A)) k (x : list A) :
  ls !! k = Some x ->
  concat ls = concat (take k ls) ++ x ++ concat (drop (S k) ls).
Proof.
  intros Hk. rewrite <- (take_drop_middle ls k x Hk) at 1.
  rewrite concat_app. reflexivity.
Qed.
End Run.

(** * Rank resolution *)
Section RankResolution.
Import Js LeaderboardBuilder.

Lemma find_first {A} (f : A -> bool) (l : list A) (x : A) :
  find f l = Some x <->
  exists before after,
    l = before ++ x :: after /\ f x = true /\ Forall (fun y => f y = false) before.
Proof.
  induction l as [| a l IH]; cbn.
  - split; [discriminate|]. intros (before & after & H & _). destruct before; discriminate.
  - destruct (f a) eqn:Fa.
    + split.
      * intros [= ->]. exists [], l. auto.
      * intros (before & after & H & Fx & Hb). destruct before as [| b before].
        -- cbn in H. congruence.
        -- cbn in H. inversion H; subst. inversion Hb; subst. congruence.
    + rewrite IH. split.
      * intros (before & after & -> & Fx & Hb). exists (a :: before), after. auto.
      * intros (before & after & H & Fx & Hb). destruct before as [| b before].
        -- cbn in H. inversion H; subst. congruence.
        -- cbn in H. inversion H; subst. inversion Hb; subst. eauto.
Qed.

Lemma find_none_iff {A} (f : A -> bool) (l : list A) :
  find f l = None <-> Forall (fun y => f y = false) l.
Proof.
  induction l as [| a l IH]; cbn.
  - split; auto.
  - destruct (f a) eqn:Fa.
    + split; [discriminate|]. intros H. inversion H; subst. congruence.
    + rewrite IH. split; [auto|]. intros H. inversion H; auto.
Qed.

Lemma getRankForXp_find h this xp :
  getRankForXp h this xp =
  find (fun tier => (RankTier.minXp tier <=? xp)%float) (tiersOf h this).
Proof. unfold getRankForXp. destruct (tiersOf h this); reflexivity. Qed.
End RankResolution.

Lemma StronglySorted_middle {A} (R : A -> A -> Prop) before x after :
  StronglySorted R (before ++ x :: after) -> Forall (R x) after.
Proof.
  induction before as [| b before IH]; cbn; intros Hs; inversion Hs; subst; auto.
Qed.

(** C1. Rank resolution never throws (it is a total function into an
    optional tier); it returns none on an empty tier array; it returns a
    tier exactly when that tier is the first one of the array, in array
    order, whose [minXp] is at most the XP; and it returns none when every
    tier's [minXp] exceeds the XP.  On an array in descending order of
    [minXp] the tier returned is therefore the highest that qualifies. *)
Theorem getRankForXp_first_qualifying
    (h : heap) (this : LeaderboardBuilder.t) (xp : number) :
  (LeaderboardBuilder.tiersOf h this = [] ->
   LeaderboardBuilder.getRankForXp h this xp = None) /\
  (forall tier,
     LeaderboardBuilder.getRankForXp h this xp = Some tier <->
     exists before after,
       LeaderboardBuilder.tiersOf h this = before ++ tier :: after /\
       (RankTier.minXp tier <=? xp)%float = true /\
       Forall (fun t => (RankTier.minXp t <=? xp)%float = false) before) /\
  (Forall (fun t => (xp <? RankTier.minXp t)%float = true)
          (LeaderboardBuilder.tiersOf h this) ->
   LeaderboardBuilder.getRankForXp h this xp = None) /\
  (StronglySorted (fun a b => (RankTier.minXp b <=? RankTier.minXp a)%float = true)
                  (LeaderboardBuilder.tiersOf h this) ->
   forall tier other,
     LeaderboardBuilder.getRankForXp h this xp = Some tier ->
     In other (LeaderboardBuilder.tiersOf h this) ->
     (RankTier.minXp other <=? xp)%float = true ->
     (RankTier.minXp other <=? RankTier.minXp tier)%float = true).
Proof.
  rewrite getRankForXp_find. split; [| split; [| split]].
  - intros ->. reflexivity.
  - intros tier.
    apply (find_first (fun t => (RankTier.minXp t <=? xp)%float)).
  - intros Hall.
    apply (find_none_iff (fun t => (RankTier.minXp t <=? xp)%float)).
    eapply Forall_impl; [exact Hall |].
    intros t Ht. cbv beta in *. apply Float64.ltb_leb_false. exact Ht.
  - intros Hsorted tier other Hfind Hin Hother.
    apply (find_first (fun t => (RankTier.minXp t <=? xp)%float)) in Hfind
      as (before & after & Heq & Htier & Hbefore).
    rewrite Heq in Hin, Hsorted.
    apply in_app_or in Hin as [Hin | [<- | Hin]].
    + rewrite Forall_forall in Hbefore. apply list_elem_of_In in Hin.
      specialize (Hbefore other Hin). cbv beta in Hbefore. congruence.
    + apply Float64.leb_refl. apply (Float64.leb_true_not_nan _ _ Htier).
    + apply StronglySorted_middle in Hsorted.
      rewrite Forall_forall in Hsorted. apply list_elem_of_In in Hin.
      exact (Hsorted other Hin).
Qed.

(** * Sorting the tiers *)
Section SortTiers.
Import Js LeaderboardBuilder.

Definition tierKey (t : RankTier.t) : Z := Float64.fval (RankTier.minXp t).
Definition tierNumeric (t : RankTier.t) : Prop :=
  PrimFloat.is_nan (RankTier.minXp t) = false.

Lemma byMinXpDescending_key a b :
  tierNumeric a -> tierNumeric b ->
  (0 <? byMinXpDescending a b)%float = (tierKey a <? tierKey b).
Proof. intros Ha Hb. apply Float64.sub_pos_fval; assumption. Qed.

Lemma sort_insert_perm {A} (cmp : A -> A -> number) a l :
  Permutation (a :: l) (sort_insert cmp a l).
Proof.
  induction l as [| b l IH]; cbn; [reflexivity|].
  destruct (0 <? cmp a b)%float; [| reflexivity].
  rewrite perm_swap. apply perm_skip. exact IH.
Qed.

Lemma Array_sort_perm {A} (cmp : A -> A -> number) l :
  Permutation l (Array_sort cmp l).
Proof.
  induction l as [| a l IH]; cbn; [reflexivity|].
  rewrite <- sort_insert_perm. apply perm_skip. exact IH.
Qed.

Definition descending (a b : RankTier.t) : Prop := tierKey b <= tierKey a.

Lemma sort_insert_descending a l :
  tierNumeric a -> Forall tierNumeric l ->
  StronglySorted descending l ->
  StronglySorted descending (sort_insert byMinXpDescending a l).
Proof.
  intros Ha Hl Hs. induction Hs as [| b l Hs IH Hb]; cbn [sort_insert].
  - repeat constructor.
  - inversion Hl as [| ? ? Nb Nl]; subst.
    rewrite byMinXpDescending_key by assumption.
    destruct (Z.ltb_spec (tierKey a) (tierKey b)) as [Hlt | Hge].
    + constructor; [apply IH; assumption|].
      rewrite <- sort_insert_perm. constructor; [unfold descending; lia | exact Hb].
    + constructor; [constructor; assumption|].
      constructor; [exact Hge|].
      eapply Forall_impl; [exact Hb |]. unfold descending. intros c Hc. cbv beta in *. lia.
Qed.

Lemma Array_sort_descending l :
  Forall tierNumeric l ->
  StronglySorted descending (Array_sort byMinXpDescending l).
Proof.
  induction 1 as [| a l Ha Hl IH]; [constructor|].
  change (Array_sort byMinXpDescending (a :: l))
    with (sort_insert byMinXpDescending a (Array_sort byMinXpDescending l)).
  apply sort_insert_descending; [assumption | | assumption].
  rewrite <- Array_sort_perm. exact Hl.
Qed.

Lemma StronglySorted_weaken {A} (R S : A -> A -> Prop) (P : A -> Prop) l :
  (forall a b, P a -> P b -> R a b -> S a b) ->
  Forall P l -> StronglySorted R l -> StronglySorted S l.
Proof.
  intros HRS HP Hs. induction Hs as [| a l Hs IH Ha]; [constructor|].
  inversion HP; subst. constructor; [auto|].
  rewrite Forall_forall in *. intros b Hb. auto.
Qed.

Lemma Array_sort_minXp_descending l :
  Forall tierNumeric l ->
  StronglySorted (fun a b => (RankTier.minXp b <=? RankTier.minXp a)%float = true)
                 (Array_sort byMinXpDescending l).
Proof.
  intros Hl.
  apply (StronglySorted_weaken descending _ tierNumeric).
  - intros a b Na Nb Hab. rewrite Float64.leb_fval by assumption.
    apply Z.leb_le. exact Hab.
  - rewrite <- Array_sort_perm. exact Hl.
  - apply Array_sort_descending, Hl.
Qed.
End SortTiers.

(** C9. [setRankTiers] sorts the array it is given, where it is: after the
    call the builder's [rankTiers] is the very reference that was passed,
    the heap holds at that reference a permutation of the old contents,
    in descending order of [minXp] (for tiers whose [minXp] is not NaN), no
    object was allocated and no other object changed.  The two names are
    aliases: what the caller later writes to its array is what the builder
    reads. *)
Theorem setRankTiers_sorts_in_place
    (h : heap) (this : LeaderboardBuilder.t) (tiers : loc) (l : list RankTier.t) :
  h !! tiers = Some l ->
  let after := LeaderboardBuilder.setRankTiers tiers h this in
  LeaderboardBuilder.rankTiers (snd after) = tiers /\
  (exists l',
     fst after !! tiers = Some l' /\
     LeaderboardBuilder.tiersOf (fst after) (snd after) = l' /\
     Permutation l l' /\
     (Forall tierNumeric l ->
      StronglySorted (fun a b => (RankTier.minXp b <=? RankTier.minXp a)%float = true) l')) /\
  dom (fst after) = dom h /\
  (forall other, other <> tiers -> fst after !! other = h !! other) /\
  (forall l2, LeaderboardBuilder.tiersOf (<[tiers := l2]> (fst after)) (snd after) = l2).
Proof.
  intros Hl after. unfold after, LeaderboardBuilder.setRankTiers. cbn [fst snd].
  split; [reflexivity|]. split; [| split; [| split]].
  - exists (Js.Array_sort LeaderboardBuilder.byMinXpDescending l).
    unfold LeaderboardBuilder.tiersOf. cbn.
    rewrite lookup_alter_eq, Hl. cbn.
    split; [reflexivity|]. split; [reflexivity|]. split.
    + apply Array_sort_perm.
    + apply Array_sort_minXp_descending.
  - apply dom_alter_L.
  - intros other Hne. apply lookup_alter_ne. congruence.
  - intros l2. unfold LeaderboardBuilder.tiersOf. cbn. rewrite lookup_insert_eq. reflexivity.
Qed.

(** * Layout and truncation *)
Section Layout.
Import Js Canvas LeaderboardBuilder.

Lemma truthy_Some (o : option string) (s : string) :
  truthy o = Some s <-> o = Some s /\ s <> "".
Proof.
  destruct o as [t |]; cbn.
  - destruct t as [| c r]; cbn.
    + split; [discriminate|]. intros [[= <-] H]. congruence.
    + split.
      * intros [= <-]. split; [reflexivity | discriminate].
      * intros [[= <-] _]. reflexivity.
  - split; [discriminate|]. intros [? _]. discriminate.
Qed.

Lemma headerHeight_150 this :
  headerHeight this = 150 <->
  exists s, HeaderOptions.subtitle (header this) = Some s /\ s <> "".
Proof.
  unfold headerHeight.
  destruct (truthy (HeaderOptions.subtitle (header this))) as [s |] eqn:E.
  - apply truthy_Some in E. split; [eauto | reflexivity].
  - split; [discriminate|]. intros (s & Hs & Hne).
    assert (truthy (HeaderOptions.subtitle (header this)) = Some s)
      by (apply truthy_Some; auto).
    congruence.
Qed.

Lemma headerHeight_cases this : headerHeight this = 150 \/ headerHeight this = 120.
Proof. unfold headerHeight. destruct (truthy _); auto. Qed.

(** The sign of a number decides its truthiness and the side of zero its
    integer part lies on. *)
Lemma positive_number count :
  (0 <? count)%float = true ->
  ToBoolean_number count = true /\
  (ToIntegerOrInfinity count = PlusInfinity \/
   exists n, ToIntegerOrInfinity count = Finite n /\ 0 <= n).
Proof.
  unfold ToBoolean_number, ToIntegerOrInfinity, PrimFloat.is_zero.
  rewrite Float64.is_nan_spec, FloatAxioms.eqb_spec, ltb_spec.
  change (Prim2SF 0) with (S754_zero false). change (Prim2SF zero) with (S754_zero false).
  destruct (Prim2SF count) as [s | s | | s m e]; try destruct s; cbv [SFltb SFeqb SFcompare];
    try discriminate; intros _; (split; [reflexivity|]); [left; reflexivity|].
  right. eexists. split; [reflexivity|]. cbn. apply Z.shiftl_nonneg. lia.
Qed.

Lemma negative_number count :
  (count <? 0)%float = true ->
  ToBoolean_number count = true /\
  (ToIntegerOrInfinity count = MinusInfinity \/
   exists n, ToIntegerOrInfinity count = Finite n /\ n <= 0).
Proof.
  unfold ToBoolean_number, ToIntegerOrInfinity, PrimFloat.is_zero.
  rewrite Float64.is_nan_spec, FloatAxioms.eqb_spec, ltb_spec.
  change (Prim2SF 0) with (S754_zero false). change (Prim2SF zero) with (S754_zero false).
  destruct (Prim2SF count) as [s | s | | s m e]; try destruct s; cbv [SFltb SFeqb SFcompare];
    try discriminate; intros _; (split; [reflexivity|]); [left; reflexivity|].
  right. eexists. split; [reflexivity|]. cbn.
  assert (0 <= Z.shiftl (Zpos m) e) by (apply Z.shiftl_nonneg; lia). lia.
Qed.

Lemma Array_slice0_prefix {A} (l : list A) (end_ : number) :
  exists dropped, l = Array_slice0 l end_ ++ dropped.
Proof. unfold Array_slice0. eexists. symmetry. apply firstn_skipn. Qed.

Lemma Array_slice0_nonneg {A} (l : list A) end_ n :
  ToIntegerOrInfinity end_ = Finite n -> 0 <= n ->
  Array_slice0 l end_ = take (Z.to_nat n) l.
Proof.
  intros E Hn. unfold Array_slice0. rewrite E.
  destruct (Z.ltb_spec n 0) as [? | _]; [lia|].
  destruct (Z.le_ge_cases n (Z.of_nat (length l))) as [Hle | Hge].
  - rewrite Z.min_l by lia. reflexivity.
  - rewrite Z.min_r by lia. rewrite Nat2Z.id.
    rewrite firstn_all. symmetry. apply firstn_all2. lia.
Qed.

Lemma Array_slice0_negative {A} (l : list A) end_ n :
  ToIntegerOrInfinity end_ = Finite n -> n < 0 ->
  Array_slice0 l end_ = take (length l - Z.to_nat (- n)) l.
Proof.
  intros E Hn. unfold Array_slice0. rewrite E.
  destruct (Z.ltb_spec n 0) as [_ | ?]; [| lia].
  f_equal. lia.
Qed.

Lemma Array_slice0_infinite {A} (l : list A) end_ :
  ToIntegerOrInfinity end_ = PlusInfinity -> Array_slice0 l end_ = l.
Proof.
  intros E. unfold Array_slice0. rewrite E, Nat2Z.id. apply firstn_all.
Qed.

Lemma usersToRender_prefix this :
  exists dropped, users this = usersToRender this ++ dropped.
Proof.
  unfold usersToRender. destruct (limit this) as [count |].
  - destruct (ToBoolean_number count).
    + apply Array_slice0_prefix.
    + exists []. symmetry. apply app_nil_r.
  - exists []. symmetry. apply app_nil_r.
Qed.
End Layout.

(** C2. For every participant list and header, when the canvas takes the
    color stops handed to it ([accepted]: the stops of the background,
    and the two bar colors if some row has a fill), [build] returns a
    buffer of a canvas 900 wide whose height is the header height plus 100
    for each rendered row plus 20; the header height is 150 exactly when a
    subtitle is present and not empty, and 120 otherwise. *)
Theorem build_canvas_dimensions
    (Number_toString : number -> string)
    (network : nat -> string -> Js.Error + Canvas.Image)
    (colorError : string -> option Js.Error)
    (this : LeaderboardBuilder.t) (h : heap) (e : Env) :
  wellTyped (LeaderboardBuilder.background this) = true ->
  accepted colorError this = true ->
  exists buf e' rows,
    LeaderboardBuilder.build Number_toString network colorError this h e = (Ok buf, e') /\
    Canvas.content buf =
      backgroundCalls (LeaderboardBuilder.background this)
                      (Canvas.width buf) (Canvas.height buf)
      ++ LeaderboardBuilder.headerCalls this (Canvas.width buf)
      ++ concat rows /\
    rows = rowsFrom Number_toString network this h 0 (fetched e)
                    (LeaderboardBuilder.usersToRender this) /\
    Canvas.width buf = 900 /\
    Canvas.height buf =
      LeaderboardBuilder.headerHeight this + Z.of_nat (length rows) * 100 + 20 /\
    (LeaderboardBuilder.headerHeight this = 150 <->
     exists s, HeaderOptions.subtitle (LeaderboardBuilder.header this) = Some s /\ s <> "") /\
    (LeaderboardBuilder.headerHeight this = 150 \/
     LeaderboardBuilder.headerHeight this = 120).
Proof.
  intros Hwt Hacc. rewrite (build_run _ _ _ _ _ _ Hwt Hacc).
  eexists _, _, _. split; [reflexivity|]. cbn [Canvas.content Canvas.width Canvas.height].
  split; [reflexivity|]. split; [reflexivity|]. split; [reflexivity|].
  split; [| split].
  - rewrite rowsFrom_length. reflexivity.
  - apply headerHeight_150.
  - apply headerHeight_cases.
Qed.

(** A negative limit is truthy and goes to [slice(0, limit)], which counts
    from the end: with whole part [-k], [k >= 1], the last [k] participants
    are left out. *)
Lemma negative_limit_slices_from_end (this : LeaderboardBuilder.t) (count : number) (n : Z) :
  LeaderboardBuilder.limit this = Some count ->
  (count <? 0)%float = true ->
  Js.ToIntegerOrInfinity count = Js.Finite n -> n < 0 ->
  LeaderboardBuilder.usersToRender this =
  take (length (LeaderboardBuilder.users this) - Z.to_nat (- n))
       (LeaderboardBuilder.users this).
Proof.
  intros Hl Hneg Hn Hlt. unfold LeaderboardBuilder.usersToRender. rewrite Hl.
  destruct (negative_number count Hneg) as [-> _].
  apply Array_slice0_negative; assumption.
Qed.

(** C3, as the code has it. When the canvas takes the color stops handed
    to it, [build] returns an image with one row for each participant of
    [usersToRender], in order, and that list is always a prefix of the
    participant list (nothing is re-sorted).  It is the whole list when the
    limit is unset, zero or NaN, and its first [n] entries, [n] being the
    whole part of the limit, when the limit is positive (all of them when
    the limit is infinite or exceeds their number). *)
Theorem build_renders_limit_prefix
    (Number_toString : number -> string)
    (network : nat -> string -> Js.Error + Canvas.Image)
    (colorError : string -> option Js.Error)
    (this : LeaderboardBuilder.t) (h : heap) (e : Env) :
  wellTyped (LeaderboardBuilder.background this) = true ->
  accepted colorError this = true ->
  let rendered := LeaderboardBuilder.usersToRender this in
  let users := LeaderboardBuilder.users this in
  exists buf e',
    LeaderboardBuilder.build Number_toString network colorError this h e = (Ok buf, e') /\
    Canvas.content buf =
      backgroundCalls (LeaderboardBuilder.background this)
                      (Canvas.width buf) (Canvas.height buf)
      ++ LeaderboardBuilder.headerCalls this (Canvas.width buf)
      ++ concat (rowsFrom Number_toString network this h 0 (fetched e) rendered) /\
    (exists dropped, users = rendered ++ dropped) /\
    (LeaderboardBuilder.limit this = None -> rendered = users) /\
    (forall count,
       LeaderboardBuilder.limit this = Some count ->
       Js.ToBoolean_number count = false -> rendered = users) /\
    (forall count n,
       LeaderboardBuilder.limit this = Some count -> (0 <? count)%float = true ->
       Js.ToIntegerOrInfinity count = Js.Finite n ->
       rendered = take (Z.to_nat n) users) /\
    (forall count,
       LeaderboardBuilder.limit this = Some count ->
       Js.ToIntegerOrInfinity count = Js.PlusInfinity -> rendered = users).
Proof.
  intros Hwt Hacc rendered users. rewrite (build_run _ _ _ _ _ _ Hwt Hacc).
  eexists _, _. split; [reflexivity|]. cbn [Canvas.content Canvas.width Canvas.height].
  split; [reflexivity|].
  split; [apply usersToRender_prefix|].
  unfold rendered, users, LeaderboardBuilder.usersToRender.
  split; [| split; [| split]].
  - intros ->. reflexivity.
  - intros count -> ->. reflexivity.
  - intros count n -> Hpos Hn.
    destruct (positive_number count Hpos) as [-> [Hinf | (n' & Hn' & Hge)]]; [congruence|].
    apply Array_slice0_nonneg; [assumption | congruence].
  - intros count -> Hinf.
    destruct (Js.ToBoolean_number count); [| reflexivity].
    apply Array_slice0_infinite, Hinf.
Qed.

(** * Rows *)
Section RowFacts.
Import Js Canvas LeaderboardBuilder.

Variable Number_toString : number -> string.
Variable network : nat -> string -> Js.Error + Image.
Variable colorError : string -> option Js.Error.
Variable this : t.
Variable h : heap.

(** The calls of row [k] are a segment of what [build] draws. *)
Lemma build_row e k player :
  wellTyped (background this) = true ->
  accepted colorError this = true ->
  usersToRender this !! k = Some player ->
  exists buf e' before after,
    build Number_toString network colorError this h e = (Ok buf, e') /\
    width buf = 900 /\
    height buf = headerHeight this + Z.of_nat (length (usersToRender this)) * 100 + 20 /\
    console e' = console e
                 ++ consoleFrom network (fetched e) (usersToRender this) /\
    content buf =
      before
      ++ rowCalls Number_toString this h k player
           (network (fetched e + k) (LeaderboardData.avatarUrl player))
      ++ after.
Proof.
  intros Hwt Hacc Hk. rewrite (build_run _ _ _ _ _ _ Hwt Hacc).
  pose proof (rowsFrom_lookup Number_toString network this h _ 0 (fetched e) k player Hk)
    as Hrow.
  cbn [Nat.add] in Hrow.
  set (rows := rowsFrom Number_toString network this h 0 (fetched e) (usersToRender this))
    in *.
  eexists _, _,
    (backgroundCalls (background this) canvasWidth (canvasHeight this)
     ++ headerCalls this canvasWidth ++ concat (take k rows)),
    (concat (drop (S k) rows)).
  split; [reflexivity|].
  cbn [content width height console].
  split; [reflexivity|]. split; [reflexivity|]. split; [reflexivity|].
  rewrite (concat_lookup_split _ k _ Hrow).
  rewrite <- !app_assoc. reflexivity.
Qed.

(** Within a row, the progress bar comes as track, fill, figures. *)
Lemma rowCalls_xp_bar k player outcome :
  exists before after,
    rowCalls Number_toString this h k player outcome =
    before
    ++ xpTrackCalls this (headerHeight this + Z.of_nat k * 100)
    ++ xpFillCalls this (headerHeight this + Z.of_nat k * 100) player
    ++ xpTextCalls Number_toString this (headerHeight this + Z.of_nat k * 100) player
    ++ after.
Proof.
  unfold rowCalls. cbv zeta.
  set (y := headerHeight this + Z.of_nat k * 100).
  exists (cardCalls canvasWidth y
          ++ podiumCalls this canvasWidth y (Z.of_nat k + 1)
          ++ positionCalls Number_toString this y (Z.of_nat k + 1)
          ++ match outcome with inr avatar => avatarCalls y avatar | inl _ => [] end
          ++ nameCalls Number_toString this y player),
         (rankCalls this h canvasWidth y player).
  rewrite <- !app_assoc. reflexivity.
Qed.

Lemma build_xp_bar e k player :
  wellTyped (background this) = true ->
  accepted colorError this = true ->
  usersToRender this !! k = Some player ->
  exists buf e' before after,
    build Number_toString network colorError this h e = (Ok buf, e') /\
    content buf =
      before
      ++ xpTrackCalls this (headerHeight this + Z.of_nat k * 100)
      ++ xpFillCalls this (headerHeight this + Z.of_nat k * 100) player
      ++ xpTextCalls Number_toString this (headerHeight this + Z.of_nat k * 100) player
      ++ after.
Proof.
  intros Hwt Hacc Hk.
  destruct (build_row e k player Hwt Hacc Hk) as (buf & e' & b1 & a1 & Hb & _ & _ & _ & Hc).
  destruct (rowCalls_xp_bar k player
              (network (fetched e + k) (LeaderboardData.avatarUrl player)))
    as (b2 & a2 & Hr).
  exists buf, e', (b1 ++ b2), (a2 ++ a1). split; [exact Hb|].
  rewrite Hc, Hr. rewrite <- !app_assoc. reflexivity.
Qed.

Lemma Math_min_one_pos p :
  (0 <? p)%float = true -> (0 <? Math_min p 1)%float = true.
Proof.
  intros Hp. unfold Math_min.
  rewrite (Float64.zero_ltb_nan_free p Hp). cbn [orb].
  change (PrimFloat.is_nan 1) with false. cbv iota.
  destruct (p <? 1)%float; [assumption|].
  destruct (1 <? p)%float; [reflexivity|].
  destruct (PrimFloat.get_sign p); [assumption | reflexivity].
Qed.

Lemma Math_min_clamps p :
  (1 <? p)%float = true -> Math_min p 1 = 1%float.
Proof.
  intros Hp. unfold Math_min.
  destruct (Float64.ltb_true_not_nan _ _ Hp) as [_ Np]. rewrite Np.
  change (PrimFloat.is_nan 1) with false. cbn [orb]. cbv iota.
  assert (Hle : (p <=? 1)%float = false) by (apply Float64.ltb_leb_false, Hp).
  destruct (p <? 1)%float eqn:Hlt.
  - apply Float64.ltb_leb_false in Hlt.
    pose proof (Float64.ltb_true_not_nan _ _ Hp) as [N1 _].
    rewrite Float64.leb_fval in Hlt by assumption.
    rewrite Float64.ltb_fval in Hp by assumption.
    apply Z.leb_gt in Hlt. apply Z.ltb_lt in Hp. lia.
  - rewrite Hp. reflexivity.
Qed.

Lemma barWidth_times_pos q :
  (0 <? q)%float = true -> (0 <? barWidth this * q)%float = true.
Proof.
  intros Hq. unfold barWidth. destruct (rankVisible this).
  - apply (Float64.mul_pos_ge1 200 q 7036874417766400 (-45));
      [vm_compute; reflexivity | lia | lia | exact Hq].
  - apply (Float64.mul_pos_ge1 350 q 6157265115545600 (-44));
      [vm_compute; reflexivity | lia | lia | exact Hq].
Qed.

Lemma barWidth_times_one : (barWidth this * 1)%float = barWidth this.
Proof. unfold barWidth. destruct (rankVisible this); reflexivity. Qed.

Lemma progress_not_positive player :
  (0 <? LeaderboardData.neededXp player)%float = false \/
  (LeaderboardData.xp player <? 0)%float = true ->
  (0 <? progress player)%float = false.
Proof.
  unfold progress. intros [Hn | Hx].
  - rewrite Hn. reflexivity.
  - destruct (0 <? LeaderboardData.neededXp player)%float eqn:Hn; [| reflexivity].
    apply Float64.div_neg_pos; assumption.
Qed.
End RowFacts.

(** C5. When the canvas takes the color stops handed to it, [build]
    returns an image in which, in the row of every rendered participant,
    the progress bar is drawn as: the track; then, when the ratio is positive, a fill whose width is
    [barWidth * min(xp / neededXp, 1)], the ratio being [xp / neededXp] when
    [neededXp > 0] and [0] otherwise (so that no fill is drawn then); then
    the text made of the raw [xp] and [neededXp], unclamped.  [barWidth] is
    200 when the rank column is visible and 350 when it is hidden, and a
    ratio above one yields a fill as wide as the track. *)
Theorem xp_bar_width_and_text
    (Number_toString : number -> string)
    (network : nat -> string -> Js.Error + Canvas.Image)
    (colorError : string -> option Js.Error)
    (this : LeaderboardBuilder.t) (h : heap) (e : Env)
    (k : nat) (player : LeaderboardData.t) :
  wellTyped (LeaderboardBuilder.background this) = true ->
  accepted colorError this = true ->
  LeaderboardBuilder.usersToRender this !! k = Some player ->
  let xp := LeaderboardData.xp player in
  let neededXp := LeaderboardData.neededXp player in
  let ratio := if (0 <? neededXp)%float then (xp / neededXp)%float else 0%float in
  let barWidth := if LeaderboardBuilder.rankVisible this then 200%float else 350%float in
  let y := LeaderboardBuilder.headerHeight this + Z.of_nat k * 100 in
  let fillWidth := (barWidth * Js.Math_min ratio 1)%float in
  exists buf e' before after,
    LeaderboardBuilder.build Number_toString network colorError this h e = (Ok buf, e') /\
    Canvas.content buf =
      before
      ++ LeaderboardBuilder.xpTrackCalls this y
      ++ (if (0 <? ratio)%float then
            [ Canvas.set_fillStyle (Canvas.Gradient (LeaderboardBuilder.xpGradient this)) ]
            ++ LeaderboardBuilder.roundRect 450 (Js.Z2num (y + 45)) fillWidth 10 5
            ++ [ Canvas.fill ]
          else [])
      ++ [ Canvas.set_font
             (Js.or_default (FontStyles.xpText (LeaderboardBuilder.fontStyles this))
                            "bold 10px Roboto");
           Canvas.set_fillStyle (Canvas.Color "#FFFFFF");
           Canvas.set_textAlign "right";
           Canvas.fillText
             (Number_toString xp +:+ " / " +:+ Number_toString neededXp)
             (450 + barWidth) (Js.Z2num (y + 70)) ]
      ++ after /\
    ((0 <? neededXp)%float = false -> ratio = 0%float /\ (0 <? ratio)%float = false) /\
    ((1 <? ratio)%float = true -> fillWidth = barWidth).
Proof.
  intros Hwt Hacc Hk xp neededXp ratio barWidth y fillWidth.
  destruct (build_xp_bar Number_toString network colorError this h e k player Hwt Hacc Hk)
    as (buf & e' & before & after & Hb & Hc).
  exists buf, e', before, after. split; [exact Hb|]. split; [exact Hc|]. split.
  - intros Hn. unfold ratio. rewrite Hn. split; reflexivity.
  - intros Hr. unfold fillWidth. rewrite (Math_min_clamps ratio Hr).
    apply barWidth_times_one.
Qed.

(** C10. When the canvas takes the color stops handed to it, [build]
    returns an image in which, in the row of every rendered participant,
    the fill of the progress bar is drawn exactly when the computed ratio
    is strictly positive, and
    then its width is strictly positive; otherwise the track is followed
    at once by the text.  The ratio is not positive when [neededXp] is not
    positive, nor when [xp] is negative. *)
Theorem xp_fill_only_for_positive_ratio
    (Number_toString : number -> string)
    (network : nat -> string -> Js.Error + Canvas.Image)
    (colorError : string -> option Js.Error)
    (this : LeaderboardBuilder.t) (h : heap) (e : Env)
    (k : nat) (player : LeaderboardData.t) :
  wellTyped (LeaderboardBuilder.background this) = true ->
  accepted colorError this = true ->
  LeaderboardBuilder.usersToRender this !! k = Some player ->
  let y := LeaderboardBuilder.headerHeight this + Z.of_nat k * 100 in
  let ratio := LeaderboardBuilder.progress player in
  exists buf e' before after fillCalls,
    LeaderboardBuilder.build Number_toString network colorError this h e = (Ok buf, e') /\
    Canvas.content buf =
      before
      ++ LeaderboardBuilder.xpTrackCalls this y
      ++ fillCalls
      ++ LeaderboardBuilder.xpTextCalls Number_toString this y player
      ++ after /\
    (((0 <? ratio)%float = true /\
      exists fillWidth,
        (0 <? fillWidth)%float = true /\
        fillCalls =
          [ Canvas.set_fillStyle (Canvas.Gradient (LeaderboardBuilder.xpGradient this)) ]
          ++ LeaderboardBuilder.roundRect 450 (Js.Z2num (y + 45)) fillWidth 10 5
          ++ [ Canvas.fill ])
     \/
     ((0 <? ratio)%float = false /\ fillCalls = [])) /\
    ((0 <? LeaderboardData.neededXp player)%float = false -> fillCalls = []) /\
    ((LeaderboardData.xp player <? 0)%float = true -> fillCalls = []).
Proof.
  intros Hwt Hacc Hk y ratio.
  destruct (build_xp_bar Number_toString network colorError this h e k player Hwt Hacc Hk)
    as (buf & e' & before & after & Hb & Hc).
  exists buf, e', before, after, (LeaderboardBuilder.xpFillCalls this y player).
  split; [exact Hb|]. split; [exact Hc|].
  unfold LeaderboardBuilder.xpFillCalls. fold ratio. split; [| split].
  - destruct (0 <? ratio)%float eqn:Hr.
    + left. split; [reflexivity|].
      exists (LeaderboardBuilder.barWidth this * Js.Math_min ratio 1)%float.
      split; [| reflexivity].
      apply barWidth_times_pos, Math_min_one_pos, Hr.
    + right. split; reflexivity.
  - intros Hn. unfold ratio. rewrite progress_not_positive by (left; exact Hn). reflexivity.
  - intros Hx. unfold ratio. rewrite progress_not_positive by (right; exact Hx). reflexivity.
Qed.

(** C6. When the avatar of the participant in row [k] cannot be loaded,
    and the canvas takes the color stops handed to it (the only other
    thing [build] can throw on, with an ill-typed background), [build]
    still returns a buffer, of the size computed for all the rows;
    ["Could not load avatar"] and the error are on the console; row [k] is
    drawn with no avatar calls between the position and the nickname; and
    every row is the row its own participant and its own load result give,
    whatever happened in row [k]. *)
Theorem avatar_failure_is_local
    (Number_toString : number -> string)
    (network : nat -> string -> Js.Error + Canvas.Image)
    (colorError : string -> option Js.Error)
    (this : LeaderboardBuilder.t) (h : heap) (e : Env)
    (k : nat) (player : LeaderboardData.t) (err : Js.Error) :
  wellTyped (LeaderboardBuilder.background this) = true ->
  accepted colorError this = true ->
  LeaderboardBuilder.usersToRender this !! k = Some player ->
  network (fetched e + k)%nat (LeaderboardData.avatarUrl player) = inl err ->
  let rendered := LeaderboardBuilder.usersToRender this in
  let y := LeaderboardBuilder.headerHeight this + Z.of_nat k * 100 in
  exists buf e' rows,
    LeaderboardBuilder.build Number_toString network colorError this h e = (Ok buf, e') /\
    Canvas.width buf = 900 /\
    Canvas.height buf =
      LeaderboardBuilder.headerHeight this + Z.of_nat (length rendered) * 100 + 20 /\
    In {| message := "Could not load avatar"; detail := err |} (console e') /\
    Canvas.content buf =
      backgroundCalls (LeaderboardBuilder.background this)
                      (Canvas.width buf) (Canvas.height buf)
      ++ LeaderboardBuilder.headerCalls this (Canvas.width buf)
      ++ concat rows /\
    length rows = length rendered /\
    rows !! k =
      Some (LeaderboardBuilder.cardCalls 900 y
            ++ LeaderboardBuilder.podiumCalls this 900 y (Z.of_nat k + 1)
            ++ LeaderboardBuilder.positionCalls Number_toString this y (Z.of_nat k + 1)
            ++ LeaderboardBuilder.nameCalls Number_toString this y player
            ++ LeaderboardBuilder.xpTrackCalls this y
            ++ LeaderboardBuilder.xpFillCalls this y player
            ++ LeaderboardBuilder.xpTextCalls Number_toString this y player
            ++ LeaderboardBuilder.rankCalls this h 900 y player) /\
    (forall j other,
       rendered !! j = Some other ->
       rows !! j =
         Some (rowCalls Number_toString this h j other
                 (network (fetched e + j)%nat (LeaderboardData.avatarUrl other)))) /\
    (forall network',
       (forall n url, n <> (fetched e + k)%nat -> network' n url = network n url) ->
       exists buf' e'' rows',
         LeaderboardBuilder.build Number_toString network' colorError this h e = (Ok buf', e'') /\
         Canvas.content buf' =
           backgroundCalls (LeaderboardBuilder.background this)
                           (Canvas.width buf) (Canvas.height buf)
           ++ LeaderboardBuilder.headerCalls this (Canvas.width buf)
           ++ concat rows' /\
         forall j, j <> k -> rows' !! j = rows !! j).
Proof.
  intros Hwt Hacc Hk Herr rendered y.
  rewrite (build_run _ _ _ _ _ _ Hwt Hacc).
  eexists _, _, (rowsFrom Number_toString network this h 0 (fetched e) rendered).
  split; [reflexivity|]. cbn [Canvas.content Canvas.width Canvas.height console].
  split; [reflexivity|]. split; [reflexivity|]. split.
  { apply in_or_app. right. apply (consoleFrom_In network _ _ k player err Hk Herr). }
  split; [reflexivity|]. split; [apply rowsFrom_length|]. split.
  { rewrite (rowsFrom_lookup _ _ _ _ _ 0 (fetched e) k player Hk). cbn [Nat.add].
    rewrite Herr. reflexivity. }
  split.
  { intros j other Hj. apply (rowsFrom_lookup _ _ _ _ _ 0 (fetched e) j other Hj). }
  intros network' Hsame. rewrite (build_run _ _ _ _ _ _ Hwt Hacc).
  eexists _, _, (rowsFrom Number_toString network' this h 0 (fetched e) rendered).
  split; [reflexivity|]. cbn [Canvas.content Canvas.width Canvas.height].
  split; [reflexivity|].
  intros j Hj. destruct (rendered !! j) as [other |] eqn:Ej.
  - rewrite !(rowsFrom_lookup _ _ _ _ _ 0 (fetched e) j other Ej). cbn [Nat.add].
    rewrite Hsame by lia. reflexivity.
  - apply lookup_ge_None in Ej.
    rewrite !(proj2 (lookup_ge_None _ _)) by (rewrite rowsFrom_length; exact Ej).
    reflexivity.
Qed.

(** * Backgrounds *)
Section Backgrounds.
Import Js Canvas LeaderboardBuilder.

Lemma addColorStops_geometry colors : forall count index gradient,
  geometry (addColorStops count index colors gradient) = geometry gradient.
Proof.
  induction colors as [| c rest IH]; intros; cbn; [reflexivity|].
  rewrite IH. reflexivity.
Qed.

Definition recognized (type : string) : Prop :=
  In type [ "linear-left-right"; "linear-right-left"; "linear-top-bottom";
            "linear-bottom-top"; "linear-top-left-bottom-right";
            "linear-top-right-bottom-left"; "radial" ].

Lemma createGradient_default type width height :
  ~ recognized type ->
  createGradient type width height =
  createLinearGradient 0 0 (Z2num width) (Z2num height).
Proof.
  intros Hn. unfold createGradient.
  repeat match goal with
         | |- context [String.eqb type ?s] =>
             destruct (String.eqb_spec type s) as [-> | _];
             [exfalso; apply Hn; unfold recognized; cbn; tauto |]
         end.
  reflexivity.
Qed.

Lemma createGradient_diagonal width height :
  createGradient "linear-top-left-bottom-right" width height =
  createLinearGradient 0 0 (Z2num width) (Z2num height).
Proof. reflexivity. Qed.

(** ** Replaying *)

Variable colorError : string -> option Js.Error.

Lemma replay_app log1 log2 :
  replay colorError (log1 ++ log2) = fold_left (step colorError) log2 (replay colorError log1).
Proof. unfold replay. apply fold_left_app. Qed.

Definition opaque (st : State) : Prop := globalAlpha st = 1%float.

Definition keepsAlpha (call : Call) : bool :=
  match call with set_globalAlpha _ => false | _ => true end.

(** A call other than an assignment to [globalAlpha] leaves an opaque
    context opaque, and what it paints is painted opaque. *)
Lemma step_opaque c call :
  keepsAlpha call = true ->
  opaque (state c) -> Forall opaque (saved c) ->
  opaque (state (step colorError c call)) /\ Forall opaque (saved (step colorError c call)) /\
  exists new, painted (step colorError c call) = painted c ++ new /\
              Forall (fun p => opaque (seen p)) new.
Proof.
  intros Hk Hs Hsaved.
  destruct call; try discriminate; cbn;
    try (split; [exact Hs | split; [exact Hsaved |]]);
    try (exists []; rewrite app_nil_r; split; [reflexivity | constructor]; fail);
    try (eexists; split; [reflexivity | repeat constructor; exact Hs]; fail).
  - (* save *)
    split; [exact Hs | split; [constructor; assumption |]].
    exists []. rewrite app_nil_r. split; [reflexivity | constructor].
  - (* restore *)
    destruct (saved c) as [| st rest] eqn:E; cbn.
    + split; [exact Hs | split; [rewrite E; constructor |]].
      exists []. rewrite app_nil_r. split; [reflexivity | constructor].
    + inversion Hsaved; subst.
      split; [assumption | split; [assumption |]].
      exists []. rewrite app_nil_r. split; [reflexivity | constructor].
Qed.

Lemma fold_step_opaque log : forall c,
  forallb keepsAlpha log = true ->
  opaque (state c) -> Forall opaque (saved c) ->
  opaque (state (fold_left (step colorError) log c)) /\
  exists new, painted (fold_left (step colorError) log c) = painted c ++ new /\
              Forall (fun p => opaque (seen p)) new.
Proof.
  induction log as [| call log IH]; intros c Hk Hs Hsaved; cbn.
  - split; [exact Hs|]. exists []. rewrite app_nil_r. split; [reflexivity | constructor].
  - cbn in Hk. apply andb_prop in Hk as [Hcall Hlog].
    destruct (step_opaque c call Hcall Hs Hsaved) as (Hs' & Hsaved' & new1 & Hp1 & Hn1).
    destruct (IH (step colorError c call) Hlog Hs' Hsaved') as (Hs'' & new2 & Hp2 & Hn2).
    split; [exact Hs''|]. exists (new1 ++ new2). split.
    + rewrite Hp2, Hp1, app_assoc. reflexivity.
    + apply Forall_app. split; assumption.
Qed.

Lemma forallb_app_true {A} (f : A -> bool) l1 l2 :
  forallb f l1 = true -> forallb f l2 = true -> forallb f (l1 ++ l2) = true.
Proof. intros H1 H2. rewrite forallb_app, H1, H2. reflexivity. Qed.

Lemma roundRect_keepsAlpha x y w hh r : forallb keepsAlpha (roundRect x y w hh r) = true.
Proof. reflexivity. Qed.

Lemma headerCalls_keepsAlpha this width :
  forallb keepsAlpha (headerCalls this width) = true.
Proof.
  unfold headerCalls. destruct (truthy (HeaderOptions.subtitle (header this))); reflexivity.
Qed.

Lemma rowCalls_keepsAlpha Number_toString this h i player outcome :
  forallb keepsAlpha (rowCalls Number_toString this h i player outcome) = true.
Proof.
  unfold rowCalls, podiumCalls, xpFillCalls, rankCalls. cbv zeta.
  destruct (podiumColor this _), outcome, (0 <? progress player)%float,
    (getRankForXp h this _), (rankVisible this); reflexivity.
Qed.

Lemma rowsFrom_keepsAlpha Number_toString network this h l : forall i n,
  forallb keepsAlpha (concat (rowsFrom Number_toString network this h i n l)) = true.
Proof.
  induction l as [| p rest IH]; intros i n; cbn; [reflexivity|].
  apply forallb_app_true; [apply rowCalls_keepsAlpha | apply IH].
Qed.

(** The state in which the aurora spots are painted. *)
Definition spotState (fillStyle_ : Style) : State :=
  {| fillStyle := fillStyle_; strokeStyle := Color "#000000";
     globalAlpha := spotAlpha; lineWidth := 1%float; font := "10px sans-serif";
     textAlign := "start"; shadowColor := "rgba(0, 0, 0, 0)";
     shadowBlur := 0%float; clipping := [] |}.

Definition spotGradient (spot : AuroraSpot.t) : CanvasGradient :=
  {| geometry := Radial (AuroraSpot.x spot) (AuroraSpot.y spot) 0
                        (AuroraSpot.x spot) (AuroraSpot.y spot) (AuroraSpot.radius spot);
     colorStops := [ (0%float, AuroraSpot.color spot);
                     (1%float, AuroraSpot.color spot +:+ "00") ] |}.

Definition spotPaint (width height : Z) (spot : AuroraSpot.t) : Paint :=
  {| drawn := fillRect 0 0 (Z2num width) (Z2num height);
     outline := [];
     seen := spotState (Gradient (spotGradient spot)) |}.

Lemma replay_spots width height spots : forall style ps,
  exists style',
    fold_left (step colorError) (flat_map (spotCalls width height) spots)
      {| state := spotState style; path := []; saved := []; painted := ps |} =
    {| state := spotState style'; path := []; saved := [];
       painted := ps ++ map (spotPaint width height) spots |}.
Proof.
  induction spots as [| spot rest IH]; intros style ps.
  - exists style. cbn. rewrite app_nil_r. reflexivity.
  - cbn [flat_map]. rewrite fold_left_app.
    change (fold_left (step colorError) (spotCalls width height spot)
              {| state := spotState style; path := []; saved := []; painted := ps |})
      with {| state := spotState (Gradient (spotGradient spot)); path := []; saved := [];
              painted := ps ++ [spotPaint width height spot] |}.
    destruct (IH (Gradient (spotGradient spot)) (ps ++ [spotPaint width height spot]))
      as (style' & ->).
    exists style'. cbn [map]. rewrite <- app_assoc. reflexivity.
Qed.

Definition basePaint (baseColor : string) (width height : Z) : Paint :=
  {| drawn := fillRect 0 0 (Z2num width) (Z2num height);
     outline := [];
     seen := state (step colorError initial (set_fillStyle (Color baseColor))) |}.

Lemma replay_aurora a width height :
  let c := replay colorError (auroraCalls a width height) in
  opaque (state c) /\ saved c = [] /\
  painted c = basePaint (AuroraBackgroundOptions.baseColor a) width height
              :: map (spotPaint width height) (AuroraBackgroundOptions.spots a).
Proof.
  unfold auroraCalls. cbv zeta. rewrite replay_app, fold_left_app.
  change (replay colorError [ set_fillStyle (Color (AuroraBackgroundOptions.baseColor a));
                   fillRect 0 0 (Z2num width) (Z2num height);
                   set_globalAlpha spotAlpha ])
    with {| state := spotState (assignStyle colorError
                                  (Color (AuroraBackgroundOptions.baseColor a))
                                  (Color "#000000"));
            path := []; saved := [];
            painted := [basePaint (AuroraBackgroundOptions.baseColor a) width height] |}.
  destruct (replay_spots width height (AuroraBackgroundOptions.spots a)
              (assignStyle colorError (Color (AuroraBackgroundOptions.baseColor a))
                           (Color "#000000"))
              [basePaint (AuroraBackgroundOptions.baseColor a) width height])
    as (style' & ->).
  cbn. repeat split; reflexivity.
Qed.
End Backgrounds.

#[warnings="-inexact-float"]
Lemma spotPaint_Forall2 (width height : Z) (spots : list AuroraSpot.t) :
  Forall2
    (fun spot p =>
       Canvas.drawn p = Canvas.fillRect 0 0 (Js.Z2num width) (Js.Z2num height) /\
       Canvas.fillStyle (Canvas.seen p) = Canvas.Gradient (spotGradient spot) /\
       Canvas.globalAlpha (Canvas.seen p) = 0.4%float)
    spots (map (spotPaint width height) spots).
Proof.
  induction spots as [| spot spots IH]; cbn [map]; constructor.
  - repeat split; reflexivity.
  - exact IH.
Qed.

(** C7. With an aurora background whose spot colors the canvas takes as
    gradient stops (the color itself, and the color with ["00"]
    appended), whatever the number of spots: the first paint of the image
    is the base fill, opaque, in [baseColor] if that is a color; the next
    paints are the spots, one radial gradient each, in the order given,
    at global alpha 0.4; and every later paint (header, rows) is made at
    global alpha exactly 1, which is also the alpha the context is left
    with. *)
#[warnings="-inexact-float"]
Theorem aurora_alpha_restored
    (Number_toString : number -> string)
    (network : nat -> string -> Js.Error + Canvas.Image)
    (colorError : string -> option Js.Error)
    (this : LeaderboardBuilder.t) (h : heap) (e : Env)
    (a : AuroraBackgroundOptions.t) :
  let this' := LeaderboardBuilder.setBackground (BgAurora a) this in
  accepted colorError this' = true ->
  exists buf e' base spotPaints later,
    LeaderboardBuilder.build Number_toString network colorError this' h e = (Ok buf, e') /\
    Canvas.paints colorError buf = base :: spotPaints ++ later /\
    Canvas.drawn base =
      Canvas.fillRect 0 0 (Js.Z2num (Canvas.width buf)) (Js.Z2num (Canvas.height buf)) /\
    (colorError (AuroraBackgroundOptions.baseColor a) = None ->
     Canvas.fillStyle (Canvas.seen base) =
       Canvas.Color (AuroraBackgroundOptions.baseColor a)) /\
    Canvas.globalAlpha (Canvas.seen base) = 1%float /\
    Forall2
      (fun spot p =>
         Canvas.drawn p =
           Canvas.fillRect 0 0 (Js.Z2num (Canvas.width buf)) (Js.Z2num (Canvas.height buf)) /\
         Canvas.fillStyle (Canvas.seen p) = Canvas.Gradient (spotGradient spot) /\
         Canvas.globalAlpha (Canvas.seen p) = 0.4%float)
      (AuroraBackgroundOptions.spots a) spotPaints /\
    Forall (fun p => Canvas.globalAlpha (Canvas.seen p) = 1%float) later /\
    Canvas.globalAlpha (Canvas.state (Canvas.replay colorError (Canvas.content buf))) = 1%float.
Proof.
  intros this' Hacc.
  assert (Hwt : wellTyped (LeaderboardBuilder.background this') = true) by reflexivity.
  rewrite (build_run _ _ _ _ _ _ Hwt Hacc).
  set (width := LeaderboardBuilder.canvasWidth).
  set (height := LeaderboardBuilder.canvasHeight this').
  set (rest := LeaderboardBuilder.headerCalls this' width
               ++ concat (rowsFrom Number_toString network this' h 0 (fetched e)
                            (LeaderboardBuilder.usersToRender this'))).
  change (backgroundCalls (LeaderboardBuilder.background this') width height)
    with (LeaderboardBuilder.auroraCalls a width height).
  destruct (replay_aurora colorError a width height) as (Hop & Hsaved & Hpainted).
  assert (Hrest : forallb keepsAlpha rest = true).
  { apply forallb_app_true;
      [apply headerCalls_keepsAlpha | apply rowsFrom_keepsAlpha]. }
  destruct (fold_step_opaque colorError rest
              (Canvas.replay colorError (LeaderboardBuilder.auroraCalls a width height))
              Hrest Hop) as (Hfinal & later & Hlater & Hall).
  { rewrite Hsaved. constructor. }
  eexists _, _, (basePaint colorError (AuroraBackgroundOptions.baseColor a) width height),
    (map (spotPaint width height) (AuroraBackgroundOptions.spots a)), later.
  split; [reflexivity|].
  unfold Canvas.paints. cbn [Canvas.content Canvas.width Canvas.height].
  rewrite replay_app. split; [| split; [| split; [| split; [| split; [| split]]]]].
  - rewrite Hlater, Hpainted. reflexivity.
  - reflexivity.
  - intros Hbase. cbn. unfold Canvas.parses. rewrite Hbase. reflexivity.
  - reflexivity.
  - apply spotPaint_Forall2.
  - exact Hall.
  - exact Hfinal.
Qed.

(** C8, as the code has it. A gradient object whose type is none of the
    seven recognized ones, and is not ['aurora'] either, is painted with
    the gradient running from [(0, 0)] to [(width, height)]: [build] does
    with it what it does with the type ['linear-top-left-bottom-right'] and
    the same colors, and when the canvas takes the colors it returns the
    very buffer it returns for that type. *)
Theorem unrecognized_gradient_is_diagonal
    (Number_toString : number -> string)
    (network : nat -> string -> Js.Error + Canvas.Image)
    (colorError : string -> option Js.Error)
    (this : LeaderboardBuilder.t) (h : heap) (e : Env)
    (g : GradientOptions.t) :
  ~ recognized (GradientOptions.type g) ->
  GradientOptions.type g <> "aurora" ->
  let diagonal :=
    {| GradientOptions.type := "linear-top-left-bottom-right";
       GradientOptions.colors := GradientOptions.colors g |} in
  LeaderboardBuilder.build Number_toString network colorError
    (LeaderboardBuilder.setBackground (BgGradient g) this) h e =
  LeaderboardBuilder.build Number_toString network colorError
    (LeaderboardBuilder.setBackground (BgGradient diagonal) this) h e /\
  (accepted colorError (LeaderboardBuilder.setBackground (BgGradient g) this) = true ->
   exists buf e' gradient rest,
     LeaderboardBuilder.build Number_toString network colorError
       (LeaderboardBuilder.setBackground (BgGradient g) this) h e = (Ok buf, e') /\
     Canvas.content buf =
       [ Canvas.set_fillStyle (Canvas.Gradient gradient);
         Canvas.fillRect 0 0 (Js.Z2num (Canvas.width buf)) (Js.Z2num (Canvas.height buf)) ]
       ++ rest /\
     Canvas.geometry gradient =
       Canvas.Linear 0 0 (Js.Z2num (Canvas.width buf)) (Js.Z2num (Canvas.height buf)) /\
     LeaderboardBuilder.build Number_toString network colorError
       (LeaderboardBuilder.setBackground (BgGradient diagonal) this) h e = (Ok buf, e')).
Proof.
  intros Hunknown Hnot diagonal.
  assert (Hpb : forall width height s,
             LeaderboardBuilder.paintBackground colorError (BgGradient g) width height s =
             LeaderboardBuilder.paintBackground colorError (BgGradient diagonal)
                                                width height s).
  { intros width height s. unfold LeaderboardBuilder.paintBackground.
    cbn [GradientOptions.type GradientOptions.colors diagonal].
    rewrite (proj2 (String.eqb_neq _ _) Hnot).
    change (String.eqb "linear-top-left-bottom-right" "aurora") with false.
    cbv iota zeta.
    rewrite (createGradient_default _ _ _ Hunknown), createGradient_diagonal.
    reflexivity. }
  split.
  { unfold LeaderboardBuilder.build, LeaderboardBuilder.draw. cbv zeta.
    unfold mbind, M_bind.
    cbn [LeaderboardBuilder.background LeaderboardBuilder.setBackground].
    rewrite Hpb. reflexivity. }
  intros Hacc.
  assert (Hwt : wellTyped (LeaderboardBuilder.background
                             (LeaderboardBuilder.setBackground (BgGradient g) this)) = true).
  { cbn. apply negb_true_iff, String.eqb_neq. exact Hnot. }
  assert (Hwd : wellTyped (LeaderboardBuilder.background
                             (LeaderboardBuilder.setBackground (BgGradient diagonal) this)) = true)
    by reflexivity.
  assert (Hacd : accepted colorError
                   (LeaderboardBuilder.setBackground (BgGradient diagonal) this) = true)
    by exact Hacc.
  rewrite (build_run _ _ _ _ _ _ Hwt Hacc), (build_run _ _ _ _ _ _ Hwd Hacd).
  eexists _, _, _, _. split; [reflexivity|].
  cbn [Canvas.content Canvas.width Canvas.height LeaderboardBuilder.background
       LeaderboardBuilder.setBackground backgroundCalls].
  unfold LeaderboardBuilder.gradientCalls. cbv zeta.
  split; [reflexivity|]. split.
  - rewrite addColorStops_geometry.
    rewrite (createGradient_default _ _ _ Hunknown). reflexivity.
  - cbn [GradientOptions.type GradientOptions.colors diagonal].
    rewrite (createGradient_default _ _ _ Hunknown), createGradient_diagonal.
    reflexivity.
Qed.

(** For a gradient with a single color, of any type, the one stop is added
    at offset [0 / (1 - 1)], which is NaN: the division is not guarded, and
    the fill style is a gradient with that stop, not the color. *)
Lemma single_color_gradient_stop_is_NaN
    (type color : string) (width height : Z) :
  (Js.Z2num 0 / Js.Z2num (Z.of_nat (length [color]) - 1))%float = PrimFloat.nan /\
  LeaderboardBuilder.gradientCalls
    {| GradientOptions.type := type; GradientOptions.colors := [color] |} width height =
  [ Canvas.set_fillStyle
      (Canvas.Gradient
         (Canvas.withColorStop PrimFloat.nan color
            (LeaderboardBuilder.createGradient type width height)));
    Canvas.fillRect 0 0 (Js.Z2num width) (Js.Z2num height) ].
Proof. split; reflexivity. Qed.

(** * Worked examples *)
Module Example.
Import Js Canvas LeaderboardBuilder.

(** A formatter that prints the whole part of a number in decimal, as
    [Number.prototype.toString] does for the whole numbers used below. *)
Definition decimal (x : number) : string :=
  match ToIntegerOrInfinity x with
  | Finite z => pretty z
  | PlusInfinity => "Infinity"
  | MinusInfinity => "-Infinity"
  end.

(** A color parser that knows the hexadecimal notations [#rgb], [#rgba],
    [#rrggbb] and [#rrggbbaa], the keyword [transparent] and the
    [rgba(...)] strings the builder itself assigns; it refuses anything
    else the way node-canvas does. *)
Definition hexDigit (a : Ascii.ascii) : bool :=
  let n := Ascii.nat_of_ascii a in
  ((48 <=? n) && (n <=? 57) || (65 <=? n) && (n <=? 70) || (97 <=? n) && (n <=? 102))%nat.

Definition hexColor (color : string) : bool :=
  match color with
  | String sharp digits =>
      (Ascii.nat_of_ascii sharp =? 35)%nat
      && forallb hexDigit (String.list_ascii_of_string digits)
      && existsb (Nat.eqb (String.length digits)) [3; 4; 6; 8]%nat
  | EmptyString => false
  end.

Definition cssColor (color : string) : option Js.Error :=
  if hexColor color
     || existsb (String.eqb color)
          [ "transparent"; "rgba(0, 0, 0, 0.5)"; "rgba(0, 0, 0, 0.3)";
            "rgba(255, 255, 255, 0.04)"; "rgba(255, 255, 255, 0.1)" ]
  then None
  else Some (TypeError "parse color failed").

Definition offline : nat -> string -> Js.Error + Image :=
  fun _ _ => inl (LoadError "getaddrinfo ENOTFOUND").

Definition online : nat -> string -> Js.Error + Image :=
  fun _ url => inr {| src := url |}.

(** Only request number [k] fails. *)
Definition failing (k : nat) : nat -> string -> Js.Error + Image :=
  fun n url => if (n =? k)%nat then inl (LoadError "getaddrinfo ENOTFOUND")
               else inr {| src := url |}.

Definition player (nickname : string) (level xp neededXp : number) : LeaderboardData.t :=
  {| LeaderboardData.nickname := nickname;
     LeaderboardData.avatarUrl := "https://example.com/" +:+ nickname +:+ ".png";
     LeaderboardData.level := level;
     LeaderboardData.xp := xp;
     LeaderboardData.neededXp := neededXp;
     LeaderboardData.rank := None |}.

Definition five : list LeaderboardData.t :=
  [ player "wuuu" 10 2500 3000;
    player "wuuu2" 8 1800 2000;
    player "wuuu3" 5 900 1000;
    player "wuuu4" 3 600 800;
    player "wuuu5" 1 100 200 ].

Definition readmeTiers : list RankTier.t :=
  [ {| RankTier.name := "Beginner"; RankTier.color := "#B9BBBE"; RankTier.minXp := 0 |};
    {| RankTier.name := "Pro"; RankTier.color := "#5865F2"; RankTier.minXp := 1000 |};
    {| RankTier.name := "Diamond"; RankTier.color := "#B9F2FF"; RankTier.minXp := 1500 |};
    {| RankTier.name := "Master"; RankTier.color := "#E0B0FF"; RankTier.minXp := 2000 |} ].

(** The caller's tier array lives at reference 1. *)
Definition store : heap := {[ 1%positive := readmeTiers ]}.

Definition quiet : Env := {| console := []; fetched := 0 |}.

(** [new LeaderboardBuilder().setUsers(five)] *)
Definition board : t := setUsers five (snd (new store)).

(** The same after [.setRankTiers(<reference 1>)]. *)
Definition ranked : heap * t := setRankTiers 1%positive store board.
End Example.

(** ** Rank labels, end to end *)

Example rank_of_1500 :
  LeaderboardBuilder.getRankForXp (fst Example.ranked) (snd Example.ranked) 1500 =
  Some {| RankTier.name := "Diamond"; RankTier.color := "#B9F2FF"; RankTier.minXp := 1500 |}.
Proof. vm_compute. reflexivity. Qed.

Example rank_below_all_tiers :
  LeaderboardBuilder.getRankForXp (fst Example.ranked) (snd Example.ranked) (-5) = None.
Proof. vm_compute. reflexivity. Qed.

Example rank_of_NaN :
  LeaderboardBuilder.getRankForXp (fst Example.ranked) (snd Example.ranked) PrimFloat.nan
  = None.
Proof. vm_compute. reflexivity. Qed.

Example fill_width_2500_of_3000 :
  (200 * Js.Math_min (2500 / 3000) 1)%float = 0x1.4d55555555556p+7%float.
Proof. vm_compute. reflexivity. Qed.

Example fill_width_3500_of_3000 :
  (200 * Js.Math_min (3500 / 3000) 1)%float = 200%float /\
  Example.decimal 3500 +:+ " / " +:+ Example.decimal 3000 = "3500 / 3000".
Proof. split; vm_compute; reflexivity. Qed.

(** One tier, three participants, rank column visible: rows one and three
    carry the label, row two carries none. *)
Example pro_labels :
  let store := {[ 1%positive :=
                    [ {| RankTier.name := "Pro"; RankTier.color := "#5865F2";
                         RankTier.minXp := 1000 |} ] ]} : heap in
  let this :=
    LeaderboardBuilder.setUsers
      [ Example.player "first" 7 1500 2000;
        Example.player "second" 3 500 1000;
        Example.player "third" 5 1000 2000 ]
      (snd (LeaderboardBuilder.setRankTiers 1%positive store Example.board)) in
  match fst (LeaderboardBuilder.build Example.decimal Example.online Example.cssColor this store
               Example.quiet) with
  | Ok buf =>
      (Canvas.width buf, Canvas.height buf,
       List.filter (fun p =>
                      match Canvas.drawn p with
                      | Canvas.fillText _ x _ => (x =? 850)%float
                      | _ => false
                      end) (Canvas.paints Example.cssColor buf))
      = (900, 440,
         [ {| Canvas.drawn := Canvas.fillText "Pro" 850 178;
              Canvas.outline := [];
              Canvas.seen :=
                {| Canvas.fillStyle := Canvas.Color "#5865F2";
                   Canvas.strokeStyle := Canvas.Color "rgba(255, 255, 255, 0.1)";
                   Canvas.globalAlpha := 1;
                   Canvas.lineWidth := 1;
                   Canvas.font := "bold 22px Roboto";
                   Canvas.textAlign := "right";
                   Canvas.shadowColor := "transparent";
                   Canvas.shadowBlur := 10;
                   Canvas.clipping := [] |} |};
           {| Canvas.drawn := Canvas.fillText "Pro" 850 378;
              Canvas.outline := [];
              Canvas.seen :=
                {| Canvas.fillStyle := Canvas.Color "#5865F2";
                   Canvas.strokeStyle := Canvas.Color "rgba(255, 255, 255, 0.1)";
                   Canvas.globalAlpha := 1;
                   Canvas.lineWidth := 1;
                   Canvas.font := "bold 22px Roboto";
                   Canvas.textAlign := "right";
                   Canvas.shadowColor := "transparent";
                   Canvas.shadowBlur := 10;
                   Canvas.clipping := [] |} |} ])
  | Throw _ => False
  end.
Proof. vm_compute. reflexivity. Qed.

(** An aurora without spots on an empty board: the base fill and the
    title, both opaque. *)
Example aurora_without_spots :
  let this :=
    LeaderboardBuilder.setBackground
      (BgAurora {| AuroraBackgroundOptions.baseColor := "#0D0E12";
                   AuroraBackgroundOptions.spots := [] |})
      (LeaderboardBuilder.setUsers [] Example.board) in
  match fst (LeaderboardBuilder.build Example.decimal Example.online Example.cssColor this
               Example.store Example.quiet) with
  | Ok buf =>
      map (fun p => (Canvas.drawn p, Canvas.fillStyle (Canvas.seen p),
                     Canvas.globalAlpha (Canvas.seen p)))
          (Canvas.paints Example.cssColor buf)
      = [ (Canvas.fillRect 0 0 900 140, Canvas.Color "#0D0E12", 1%float);
          (Canvas.fillText "Leaderboard" 450 85, Canvas.Color "#FFFFFF", 1%float) ]
  | Throw _ => False
  end.
Proof. vm_compute. reflexivity. Qed.

(** C4, what the code does. The gradient [{ type: 'linear-left-right',
    colors: ['#ff0000'] }] on an empty board: [build] raises nothing, but
    the background is filled with a gradient whose only stop sits at offset
    NaN ([0 / 0], the division is not guarded), not with the color. *)
Example single_color_gradient_build :
  let this :=
    LeaderboardBuilder.setBackground
      (BgGradient {| GradientOptions.type := "linear-left-right";
                     GradientOptions.colors := ["#ff0000"] |})
      (LeaderboardBuilder.setUsers [] Example.board) in
  fst (LeaderboardBuilder.build Example.decimal Example.online Example.cssColor this
         Example.store Example.quiet)
  = Ok {| Canvas.width := 900;
          Canvas.height := 140;
          Canvas.content :=
            [ Canvas.set_fillStyle
                (Canvas.Gradient
                   {| Canvas.geometry := Canvas.Linear 0 0 900 0;
                      Canvas.colorStops := [ (PrimFloat.nan, "#ff0000") ] |});
              Canvas.fillRect 0 0 900 140;
              Canvas.set_textAlign "center";
              Canvas.set_fillStyle (Canvas.Color "#FFFFFF");
              Canvas.set_font "bold 42px Roboto";
              Canvas.set_shadowColor "rgba(0, 0, 0, 0.5)";
              Canvas.set_shadowBlur 10;
              Canvas.fillText "Leaderboard" 450 85;
              Canvas.set_shadowColor "transparent" ] |}.
Proof. vm_compute. reflexivity. Qed.

(** ** The theorems at work *)

(** Five participants under a header with a subtitle: 900 by 670. *)
Lemma build_canvas_dimensions_witness :
  let this :=
    LeaderboardBuilder.setHeader
      {| HeaderOptions.title := "Global Leaderboard";
         HeaderOptions.subtitle := Some "Top players of the month" |}
      Example.board in
  wellTyped (LeaderboardBuilder.background this) = true /\
  accepted Example.cssColor this = true /\
  exists buf,
    fst (LeaderboardBuilder.build Example.decimal Example.offline Example.cssColor this
           Example.store Example.quiet) = Ok buf /\
    Canvas.width buf = 900 /\ Canvas.height buf = 670.
Proof.
  cbv zeta. split; [reflexivity|].
  assert (Hacc : accepted Example.cssColor
                   (LeaderboardBuilder.setHeader
                      {| HeaderOptions.title := "Global Leaderboard";
                         HeaderOptions.subtitle := Some "Top players of the month" |}
                      Example.board) = true) by (vm_compute; reflexivity).
  split; [exact Hacc|].
  destruct (build_canvas_dimensions Example.decimal Example.offline Example.cssColor
              (LeaderboardBuilder.setHeader
                 {| HeaderOptions.title := "Global Leaderboard";
                    HeaderOptions.subtitle := Some "Top players of the month" |}
                 Example.board)
              Example.store Example.quiet eq_refl Hacc)
    as (buf & e' & rows & Hb & _ & Hr & Hw & Hh & _).
  exists buf. rewrite Hb. split; [reflexivity|]. split; [exact Hw|].
  rewrite Hh, Hr. vm_compute. reflexivity.
Defined.

(** A limit of [-1] on five participants renders four rows, not five. *)
Lemma negative_limit_drops_the_last :
  let this := LeaderboardBuilder.setLimit (-1) Example.board in
  LeaderboardBuilder.users this = Example.five /\
  LeaderboardBuilder.usersToRender this = take 4 Example.five /\
  LeaderboardBuilder.usersToRender this <> LeaderboardBuilder.users this /\
  exists buf,
    fst (LeaderboardBuilder.build Example.decimal Example.online Example.cssColor this
           Example.store Example.quiet) = Ok buf /\
    Canvas.height buf = 120 + 4 * 100 + 20.
Proof.
  cbv zeta. split; [reflexivity|]. split; [vm_compute; reflexivity|].
  split; [vm_compute; discriminate|].
  eexists. split; vm_compute; reflexivity.
Qed.

(** A limit of [2] on five participants renders the first two. *)
Lemma build_renders_limit_prefix_witness :
  let this := LeaderboardBuilder.setLimit 2 Example.board in
  wellTyped (LeaderboardBuilder.background this) = true /\
  accepted Example.cssColor this = true /\
  LeaderboardBuilder.usersToRender this = take 2 Example.five /\
  exists buf,
    fst (LeaderboardBuilder.build Example.decimal Example.online Example.cssColor this
           Example.store Example.quiet) = Ok buf.
Proof.
  cbv zeta. split; [reflexivity|].
  assert (Hacc : accepted Example.cssColor
                   (LeaderboardBuilder.setLimit 2 Example.board) = true)
    by (vm_compute; reflexivity).
  split; [exact Hacc|].
  destruct (build_renders_limit_prefix Example.decimal Example.online Example.cssColor
              (LeaderboardBuilder.setLimit 2 Example.board)
              Example.store Example.quiet eq_refl Hacc)
    as (buf & e' & Hb & _ & _ & _ & _ & Hpos & _).
  split.
  - apply (Hpos 2%float 2); reflexivity.
  - exists buf. rewrite Hb. reflexivity.
Defined.

(** The first row of the README's board: 2500 of 3000. *)
Lemma xp_bar_width_and_text_witness :
  wellTyped (LeaderboardBuilder.background Example.board) = true /\
  accepted Example.cssColor Example.board = true /\
  LeaderboardBuilder.usersToRender Example.board !! 0%nat =
    Some (Example.player "wuuu" 10 2500 3000) /\
  exists buf e' before after,
    LeaderboardBuilder.build Example.decimal Example.online Example.cssColor Example.board
      Example.store Example.quiet = (Ok buf, e') /\
    Canvas.content buf =
      before
      ++ LeaderboardBuilder.xpTrackCalls Example.board 120
      ++ ([ Canvas.set_fillStyle
              (Canvas.Gradient (LeaderboardBuilder.xpGradient Example.board)) ]
          ++ LeaderboardBuilder.roundRect 450 165 0x1.4d55555555556p+7 10 5
          ++ [ Canvas.fill ])
      ++ [ Canvas.set_font "bold 10px Roboto";
           Canvas.set_fillStyle (Canvas.Color "#FFFFFF");
           Canvas.set_textAlign "right";
           Canvas.fillText "2500 / 3000" 650 190 ]
      ++ after.
Proof.
  assert (Hacc : accepted Example.cssColor Example.board = true)
    by (vm_compute; reflexivity).
  split; [reflexivity|]. split; [exact Hacc|]. split; [reflexivity|].
  destruct (xp_bar_width_and_text Example.decimal Example.online Example.cssColor
              Example.board
              Example.store Example.quiet 0 (Example.player "wuuu" 10 2500 3000)
              eq_refl Hacc eq_refl)
    as (buf & e' & before & after & Hb & Hc & _).
  exists buf, e', before, after. split; [exact Hb|]. exact Hc.
Defined.

(** A participant with negative XP: track and text only. *)
Lemma xp_fill_only_for_positive_ratio_witness :
  let debtor := Example.player "debtor" 1 (-50) 200 in
  let this := LeaderboardBuilder.setUsers [debtor] Example.board in
  wellTyped (LeaderboardBuilder.background this) = true /\
  accepted Example.cssColor this = true /\
  LeaderboardBuilder.usersToRender this !! 0%nat = Some debtor /\
  exists buf e' before after,
    LeaderboardBuilder.build Example.decimal Example.online Example.cssColor this
      Example.store Example.quiet = (Ok buf, e') /\
    Canvas.content buf =
      before
      ++ LeaderboardBuilder.xpTrackCalls this 120
      ++ LeaderboardBuilder.xpTextCalls Example.decimal this 120 debtor
      ++ after.
Proof.
  cbv zeta.
  assert (Hacc : accepted Example.cssColor
                   (LeaderboardBuilder.setUsers [Example.player "debtor" 1 (-50) 200]
                                                Example.board) = true)
    by (vm_compute; reflexivity).
  split; [reflexivity|]. split; [exact Hacc|]. split; [reflexivity|].
  destruct (xp_fill_only_for_positive_ratio Example.decimal Example.online
              Example.cssColor
              (LeaderboardBuilder.setUsers [Example.player "debtor" 1 (-50) 200] Example.board)
              Example.store Example.quiet 0 (Example.player "debtor" 1 (-50) 200)
              eq_refl Hacc eq_refl)
    as (buf & e' & before & after & fillCalls & Hb & Hc & _ & _ & Hneg).
  exists buf, e', before, after. split; [exact Hb|].
  rewrite Hc, (Hneg eq_refl). reflexivity.
Defined.

(** The second of five avatars fails to load. *)
Lemma avatar_failure_is_local_witness :
  wellTyped (LeaderboardBuilder.background Example.board) = true /\
  accepted Example.cssColor Example.board = true /\
  LeaderboardBuilder.usersToRender Example.board !! 1%nat =
    Some (Example.player "wuuu2" 8 1800 2000) /\
  Example.failing 1 1 "https://example.com/wuuu2.png" =
    inl (Js.LoadError "getaddrinfo ENOTFOUND") /\
  exists buf e',
    LeaderboardBuilder.build Example.decimal (Example.failing 1) Example.cssColor Example.board
      Example.store Example.quiet = (Ok buf, e') /\
    Canvas.width buf = 900 /\ Canvas.height buf = 640 /\
    console e' = [ {| message := "Could not load avatar";
                      detail := Js.LoadError "getaddrinfo ENOTFOUND" |} ].
Proof.
  assert (Hacc : accepted Example.cssColor Example.board = true)
    by (vm_compute; reflexivity).
  split; [reflexivity|]. split; [exact Hacc|]. split; [reflexivity|].
  split; [reflexivity|].
  destruct (avatar_failure_is_local Example.decimal (Example.failing 1) Example.cssColor
              Example.board
              Example.store Example.quiet 1 (Example.player "wuuu2" 8 1800 2000)
              (Js.LoadError "getaddrinfo ENOTFOUND") eq_refl Hacc eq_refl eq_refl)
    as (buf & e' & rows & Hb & Hw & Hh & _).
  exists buf, e'. split; [exact Hb|]. split; [exact Hw|]. split; [exact Hh|].
  assert (He : e' = snd (LeaderboardBuilder.build Example.decimal (Example.failing 1) Example.cssColor
                           Example.board Example.store Example.quiet))
    by (rewrite Hb; reflexivity).
  rewrite He. vm_compute. reflexivity.
Defined.

(** A gradient object typed ['aurora'] is not painted as a gradient:
    [build] throws. *)
Lemma aurora_typed_gradient_throws :
  ~ recognized "aurora" /\
  fst (LeaderboardBuilder.build Example.decimal Example.online Example.cssColor
         (LeaderboardBuilder.setBackground
            (BgGradient {| GradientOptions.type := "aurora";
                           GradientOptions.colors := ["#000000"; "#ffffff"] |})
            Example.board)
         Example.store Example.quiet)
  = Throw (Js.TypeError "auroraOptions.spots is not iterable").
Proof.
  split; [| vm_compute; reflexivity].
  unfold recognized. cbn. intuition discriminate.
Qed.

(** A gradient typed ['conic'] is painted as the diagonal one. *)
Lemma unrecognized_gradient_is_diagonal_witness :
  let conic := {| GradientOptions.type := "conic";
                  GradientOptions.colors := ["#5865F2"; "#0D0E12"] |} in
  ~ recognized (GradientOptions.type conic) /\
  GradientOptions.type conic <> "aurora" /\
  accepted Example.cssColor
    (LeaderboardBuilder.setBackground (BgGradient conic) Example.board) = true /\
  exists buf e',
    LeaderboardBuilder.build Example.decimal Example.online Example.cssColor
      (LeaderboardBuilder.setBackground (BgGradient conic) Example.board)
      Example.store Example.quiet = (Ok buf, e') /\
    LeaderboardBuilder.build Example.decimal Example.online Example.cssColor
      (LeaderboardBuilder.setBackground
         (BgGradient {| GradientOptions.type := "linear-top-left-bottom-right";
                        GradientOptions.colors := ["#5865F2"; "#0D0E12"] |})
         Example.board)
      Example.store Example.quiet = (Ok buf, e').
Proof.
  cbv zeta.
  assert (H1 : ~ recognized "conic") by (unfold recognized; cbn; intuition discriminate).
  assert (H2 : "conic" <> "aurora") by discriminate.
  assert (Hacc : accepted Example.cssColor
                   (LeaderboardBuilder.setBackground
                      (BgGradient {| GradientOptions.type := "conic";
                                     GradientOptions.colors := ["#5865F2"; "#0D0E12"] |})
                      Example.board) = true)
    by (vm_compute; reflexivity).
  split; [exact H1|]. split; [exact H2|]. split; [exact Hacc|].
  destruct (unrecognized_gradient_is_diagonal Example.decimal Example.online
              Example.cssColor Example.board
              Example.store Example.quiet
              {| GradientOptions.type := "conic";
                 GradientOptions.colors := ["#5865F2"; "#0D0E12"] |} H1 H2)
    as (_ & Hdiag).
  destruct (Hdiag Hacc) as (buf & e' & gradient & rest & Hb & _ & _ & Hd).
  exists buf, e'. split; [exact Hb | exact Hd].
Defined.

(** An aurora with two spots behind the README's board: three background
    paints, the spots at alpha 0.4. *)
#[warnings="-inexact-float"]
Lemma aurora_alpha_restored_witness :
  let aurora :=
    {| AuroraBackgroundOptions.baseColor := "#0D0E12";
       AuroraBackgroundOptions.spots :=
         [ {| AuroraSpot.color := "#5865F2"; AuroraSpot.x := 150; AuroraSpot.y := 100;
              AuroraSpot.radius := 300 |};
           {| AuroraSpot.color := "#A458F2"; AuroraSpot.x := 700; AuroraSpot.y := 500;
              AuroraSpot.radius := 250 |} ] |} in
  let this := LeaderboardBuilder.setBackground (BgAurora aurora) Example.board in
  accepted Example.cssColor this = true /\
  exists buf e' base first second later,
    LeaderboardBuilder.build Example.decimal Example.online Example.cssColor this
      Example.store Example.quiet = (Ok buf, e') /\
    Canvas.paints Example.cssColor buf = base :: [first; second] ++ later /\
    Canvas.fillStyle (Canvas.seen base) = Canvas.Color "#0D0E12" /\
    Canvas.globalAlpha (Canvas.seen first) = 0.4%float /\
    Canvas.globalAlpha (Canvas.seen second) = 0.4%float /\
    Forall (fun p => Canvas.globalAlpha (Canvas.seen p) = 1%float) later.
Proof.
  cbv zeta.
  set (aurora :=
    {| AuroraBackgroundOptions.baseColor := "#0D0E12";
       AuroraBackgroundOptions.spots :=
         [ {| AuroraSpot.color := "#5865F2"; AuroraSpot.x := 150%float;
              AuroraSpot.y := 100%float; AuroraSpot.radius := 300%float |};
           {| AuroraSpot.color := "#A458F2"; AuroraSpot.x := 700%float;
              AuroraSpot.y := 500%float; AuroraSpot.radius := 250%float |} ] |}).
  assert (Hacc : accepted Example.cssColor
                   (LeaderboardBuilder.setBackground (BgAurora aurora) Example.board) = true)
    by (vm_compute; reflexivity).
  split; [exact Hacc|].
  destruct (aurora_alpha_restored Example.decimal Example.online Example.cssColor
              Example.board Example.store Example.quiet aurora Hacc)
    as (buf & e' & base & spotPaints & later & Hb & Hp & _ & Hbase & _ & Hspots & Hl & _).
  cbn [AuroraBackgroundOptions.spots aurora] in Hspots.
  destruct spotPaints as [| first [| second [| third rest]]];
    try (exfalso; inversion Hspots as [| ? ? ? ? ? Ht]; subst;
         inversion Ht as [| ? ? ? ? ? Ht']; subst; inversion Ht'; fail).
  apply Forall2_cons_1 in Hspots as [(_ & _ & H1) Hspots].
  apply Forall2_cons_1 in Hspots as [(_ & _ & H2) _].
  exists buf, e', base, first, second, later.
  split; [exact Hb|]. split; [exact Hp|].
  split; [apply Hbase; reflexivity|]. split; [exact H1|]. split; [exact H2 | exact Hl].
Defined.

(** A spot whose color is the short form [#f00]: the second stop of the
    spot is [#f0000], which is no color, and [build] throws; the global
    alpha was 0.4 when it did. *)
Example aurora_short_hex_spot_throws :
  let this :=
    LeaderboardBuilder.setBackground
      (BgAurora {| AuroraBackgroundOptions.baseColor := "#0D0E12";
                   AuroraBackgroundOptions.spots :=
                     [ {| AuroraSpot.color := "#f00"; AuroraSpot.x := 150;
                          AuroraSpot.y := 100; AuroraSpot.radius := 300 |} ] |})
      (LeaderboardBuilder.setUsers [] Example.board) in
  wellTyped (LeaderboardBuilder.background this) = true /\
  accepted Example.cssColor this = false /\
  LeaderboardBuilder.build Example.decimal Example.online Example.cssColor this
    Example.store Example.quiet
  = (Throw (Js.TypeError "parse color failed"), Example.quiet) /\
  match LeaderboardBuilder.draw Example.decimal Example.online Example.cssColor this
          Example.store [] 900 120 140 {| canvas := []; env := Example.quiet |} with
  | (Throw _, s) =>
      Canvas.globalAlpha (Canvas.state (Canvas.replay Example.cssColor (canvas s)))
      = LeaderboardBuilder.spotAlpha
  | (Ok _, _) => False
  end.
Proof. cbv zeta. repeat split; vm_compute; reflexivity. Qed.

(** The README's tiers, given in ascending order, end up descending in the
    caller's own array. *)
Lemma setRankTiers_sorts_in_place_witness :
  Example.store !! 1%positive = Some Example.readmeTiers /\
  LeaderboardBuilder.rankTiers (snd Example.ranked) = 1%positive /\
  fst Example.ranked !! 1%positive = Some (rev Example.readmeTiers).
Proof.
  split; [reflexivity|].
  destruct (setRankTiers_sorts_in_place Example.store Example.board 1%positive
              Example.readmeTiers eq_refl)
    as (Href & _).
  split; [exact Href|]. vm_compute. reflexivity.
Defined.

(** * More binary64 facts: equality, quotients, whole numbers *)
Module Float64Arith.
Import Float64.

Lemma eqb_fval x y :
  PrimFloat.is_nan x = false -> PrimFloat.is_nan y = false ->
  (x =? y)%float = (fval x =? fval y).
Proof.
  rewrite !is_nan_spec. intros Nx Ny. rewrite FloatAxioms.eqb_spec. unfold SFeqb, fval.
  rewrite SFcompare_val by (apply Prim2SF_valid || assumption).
  destruct (Z.eqb_spec (SFval (Prim2SF x)) (SFval (Prim2SF y))) as [-> | Hne].
  - rewrite Z.compare_refl. reflexivity.
  - destruct (_ ?= _) eqn:E; try reflexivity.
    apply Z.compare_eq in E. contradiction.
Qed.

Lemma eqb_true_fval x y : (x =? y)%float = true -> fval x = fval y.
Proof.
  intros H.
  assert (N : PrimFloat.is_nan x = false /\ PrimFloat.is_nan y = false).
  { revert H. rewrite FloatAxioms.eqb_spec, !is_nan_spec. unfold SFeqb.
    destruct (Prim2SF x), (Prim2SF y); simpl; auto; discriminate. }
  destruct N as [Nx Ny]. rewrite eqb_fval in H by assumption.
  apply Z.eqb_eq. exact H.
Qed.

Lemma leb_trans x y z :
  (x <=? y)%float = true -> (y <=? z)%float = true -> (x <=? z)%float = true.
Proof.
  intros Hxy Hyz.
  destruct (leb_true_not_nan _ _ Hxy) as [Nx Ny].
  destruct (leb_true_not_nan _ _ Hyz) as [_ Nz].
  rewrite leb_fval in * by assumption.
  apply Z.leb_le in Hxy, Hyz. apply Z.leb_le. lia.
Qed.

(** A quotient by a positive number is positive only if the dividend is. *)
Lemma div_pos_inv x y :
  (0 <? y)%float = true -> (0 <? x / y)%float = true -> (0 <? x)%float = true.
Proof.
  rewrite !ltb_spec, div_spec. change (Prim2SF 0) with (S754_zero false).
  unfold SFltb. intros Hy.
  destruct (Prim2SF x) as [sx | sx | | sx mx ex], (Prim2SF y) as [sy | sy | | sy my ey];
    try destruct sx; try destruct sy; cbv [SFcompare] in Hy |- *; try discriminate;
    cbv [SF64div SFdiv xorb]; try discriminate; try reflexivity.
  destruct (SFdiv_core_binary prec emax (Zpos mx) ex (Zpos my) ey) as [[mz ez] lz].
  pose proof (binary_round_aux_sign true mz ez lz) as Hs.
  destruct (binary_round_aux prec emax true mz ez lz); try subst; discriminate.
Qed.

(** ** Whole numbers *)

Lemma size_le_of_lt p k : Zpos p < 2 ^ k -> Zpos (Pos.size p) <= k.
Proof.
  intros H. pose proof (Pos.size_le p) as Hle.
  assert (Hle' : 2 ^ Zpos (Pos.size p) <= 2 * Zpos p).
  { rewrite <- Pos2Z.inj_pow. change (2 * Zpos p) with (Zpos p~0).
    apply Pos2Z.pos_le_pos. exact Hle. }
  destruct (Z_le_gt_dec (Zpos (Pos.size p)) k) as [? | Hgt]; [assumption|].
  assert (0 <= k).
  { destruct (Z_le_gt_dec 0 k); [assumption|].
    rewrite Z.pow_neg_r in H by lia. lia. }
  assert (Hk : 2 ^ (k + 1) <= 2 ^ Zpos (Pos.size p)) by (apply Z.pow_le_mono_r; lia).
  rewrite Z.add_1_r, Z.pow_succ_r in Hk by lia. lia.
Qed.

Lemma size_lt_pow p : Zpos p < 2 ^ Zpos (Pos.size p).
Proof. rewrite <- Pos2Z.inj_pow. apply Pos2Z.pos_lt_pos. apply Pos.size_gt. Qed.

(** The exponent after one alignment step. *)
Lemma shr_fexp_exp m e l :
  snd (shr_fexp prec emax (Zpos m) e l) = Z.max e (Z.max (Zpos (Pos.size m) + e - 53) (-1074)).
Proof.
  unfold shr_fexp, shr, fexp, SpecFloat.emin, prec, emax, Zdigits2.
  rewrite digits2_pos_size.
  destruct (Z.max (Zpos (Pos.size m) + e - 53) (3 - 1024 - 53) - e) as [| n | n] eqn:En;
    simpl snd; lia.
Qed.

Lemma shr_fexp_mantissa m e l m' :
  shr_m (fst (shr_fexp prec emax (Zpos m) e l)) = Zpos m' -> Zpos m' <= Zpos m.
Proof.
  unfold shr_fexp, shr. 
  destruct (fexp prec emax (Zdigits2 (Zpos m) + e) - e) as [| n | n] eqn:En; simpl fst.
  - rewrite shr_record_of_loc_m. intros [= ->]. lia.
  - rewrite iter_pos_iter, shr_iter_shiftr by (rewrite shr_record_of_loc_m; lia).
    rewrite shr_record_of_loc_m, Z.shiftr_div_pow2 by lia. intros H.
    assert (Hp : 0 < 2 ^ Zpos n) by (apply Z.pow_pos_nonneg; lia).
    rewrite <- H. apply Z.div_le_upper_bound; [exact Hp | nia].
  - rewrite shr_record_of_loc_m. intros [= ->]. lia.
Qed.

Lemma binary_round_aux_finite m e l :
  Zpos m < 2 ^ 63 -> -1074 < Zpos (Pos.size m) + e -> e <= 0 ->
  exists m' e', binary_round_aux prec emax false (Zpos m) e l = S754_finite false m' e'.
Proof.
  intros Hm Hlo He. unfold binary_round_aux.
  assert (Hsize : Zpos (Pos.size m) <= 63) by (apply size_le_of_lt; exact Hm).
  destruct (shr_fexp_pos m e l Hlo) as (m1 & Hm1 & He1).
  pose proof (shr_fexp_exp m e l) as Hexp1.
  pose proof (shr_fexp_mantissa m e l m1 Hm1) as Hle1.
  destruct (shr_fexp prec emax (Zpos m) e l) as [mrs1 e1]. simpl in Hm1, He1, Hexp1.
  assert (Hr : exists m2, round_nearest_even (shr_m mrs1) (loc_of_shr_record mrs1) = Zpos m2
                          /\ Zpos m2 <= Zpos m1 + 1).
  { rewrite Hm1. unfold round_nearest_even.
    destruct (loc_of_shr_record mrs1) as [| []]; try destruct (Z.even (Zpos m1));
      simpl; eexists; (split; [reflexivity | lia]). }
  destruct Hr as (m2 & -> & Hle2).
  assert (Hsize2 : Zpos (Pos.size m2) <= 64).
  { apply size_le_of_lt. change (2 ^ 64) with (2 ^ 63 + 2 ^ 63).
    assert (0 < 2 ^ 63) by (apply Z.pow_pos_nonneg; lia). lia. }
  assert (Hlo2 : -1074 < Zpos (Pos.size m2) + e1) by lia.
  destruct (shr_fexp_pos m2 e1 loc_Exact Hlo2) as (m3 & Hm3 & He3).
  pose proof (shr_fexp_exp m2 e1 loc_Exact) as Hexp3.
  destruct (shr_fexp prec emax (Zpos m2) e1 loc_Exact) as [mrs3 e3]. simpl in Hm3, He3, Hexp3.
  rewrite Hm3. unfold emax, prec.
  destruct (Z.leb_spec e3 (1024 - 53)) as [_ | Hbig]; [eauto | lia].
Qed.

(** A whole number below [2^63] converts to a finite, positive float. *)
Lemma binary_round_small m :
  Zpos m < 2 ^ 63 ->
  exists m' e', binary_round prec emax false m 0 = S754_finite false m' e'.
Proof.
  intros Hm. unfold binary_round.
  assert (Hsize : Zpos (Pos.size m) <= 63) by (apply size_le_of_lt; exact Hm).
  rewrite digits2_pos_size.
  unfold shl_align, fexp, SpecFloat.emin, prec, emax.
  destruct (Z.max (Zpos (Pos.size m) + 0 - 53) (3 - 1024 - 53) - 0) as [| d | d] eqn:Ed.
  - apply binary_round_aux_finite; lia.
  - apply binary_round_aux_finite; lia.
  - assert (Hd : Zpos d = 53 - Zpos (Pos.size m)) by lia.
    assert (Hval : Zpos (Pos.iter xO m d) < 2 ^ 53).
    { rewrite pos_iter_xO. pose proof (size_lt_pow m) as Hlt.
      assert (0 < 2 ^ Zpos d) by (apply Z.pow_pos_nonneg; lia).
      replace 53 with (Zpos (Pos.size m) + Zpos d) by lia.
      rewrite Z.pow_add_r by lia. nia. }
    assert (Zpos (Pos.size (Pos.iter xO m d)) <= 53) by (apply size_le_of_lt; exact Hval).
    apply binary_round_aux_finite.
    + eapply Z.lt_le_trans; [exact Hval|]. apply Z.pow_le_mono_r; lia.
    + lia.
    + lia.
Qed.

Lemma Z2num_finite k :
  1 <= k < 2 ^ 63 ->
  exists m e, Prim2SF (Js.Z2num k) = S754_finite false m e.
Proof.
  intros Hk. unfold Js.Z2num.
  destruct (Z.ltb_spec k 0) as [? | _]; [lia|].
  rewrite of_uint63_spec, Uint63.of_Z_spec.
  rewrite Z.mod_small by (change Uint63.wB with (2 ^ 63); lia).
  destruct k as [| p | p]; try lia.
  apply binary_round_small. lia.
Qed.

Lemma div_self x m e : Prim2SF x = S754_finite false m e -> (x / x)%float = 1%float.
Proof.
  intros Hx. apply Prim2SF_inj. rewrite div_spec, Hx.
  change (Prim2SF 1) with (S754_finite false 4503599627370496 (-52)).
  cbv [SF64div SFdiv xorb SFdiv_core_binary].
  replace (Zdigits2 (Zpos m) + e - (Zdigits2 (Zpos m) + e)) with 0 by lia.
  replace (e - e) with 0 by lia.
  change (Z.min (fexp prec emax 0) 0) with (-53).
  change (0 - -53) with 53. cbv iota.
  rewrite Z.shiftl_mul_pow2 by lia.
  assert (Hq : Z.div_eucl (Zpos m * 2 ^ 53) (Zpos m) = (2 ^ 53, 0)).
  { pose proof (Z.div_eucl_eq (Zpos m * 2 ^ 53) (Zpos m)) as Heq.
    pose proof (Z.mod_pos_bound (Zpos m * 2 ^ 53) (Zpos m)) as Hb.
    unfold Z.modulo in Hb.
    destruct (Z.div_eucl (Zpos m * 2 ^ 53) (Zpos m)) as [q r].
    assert (Hr : 0 <= r < Zpos m) by (apply Hb; lia).
    assert (Hm : Zpos m * 2 ^ 53 = Zpos m * q + r) by (apply Heq; lia).
    assert (q = 2 ^ 53) by nia. subst q. f_equal. lia. }
  rewrite Hq. unfold new_location.
  destruct (Z.even (Zpos m)); reflexivity.
Qed.

Lemma zero_div x m e : Prim2SF x = S754_finite false m e -> (0 / x)%float = 0%float.
Proof.
  intros Hx. apply Prim2SF_inj. rewrite div_spec, Hx. reflexivity.
Qed.

End Float64Arith.

(** * More on tiers: what sorting buys *)
Section TierOrder.
Import Js LeaderboardBuilder.

Lemma Array_sort_sorted_id l :
  Forall tierNumeric l -> StronglySorted descending l ->
  Array_sort byMinXpDescending l = l.
Proof.
  intros Hn Hs. induction Hs as [| a l Hs IH Ha]; [reflexivity|].
  inversion Hn as [| ? ? Na Nl]; subst.
  change (Array_sort byMinXpDescending (a :: l))
    with (sort_insert byMinXpDescending a (Array_sort byMinXpDescending l)).
  rewrite IH by assumption.
  destruct l as [| b l]; [reflexivity|]. cbn [sort_insert].
  inversion Nl; subst. inversion Ha; subst.
  rewrite byMinXpDescending_key by assumption.
  destruct (Z.ltb_spec (tierKey a) (tierKey b)) as [Hlt | _]; [| reflexivity].
  unfold descending in *. lia.
Qed.

Lemma Array_sort_idempotent l :
  Forall tierNumeric l ->
  Array_sort byMinXpDescending (Array_sort byMinXpDescending l) =
  Array_sort byMinXpDescending l.
Proof.
  intros Hn. apply Array_sort_sorted_id.
  - rewrite <- Array_sort_perm. exact Hn.
  - apply Array_sort_descending, Hn.
Qed.

Lemma sort_insert_filter (p : RankTier.t -> bool) a l :
  tierNumeric a -> Forall tierNumeric l ->
  (forall b, p a = true -> p b = true -> tierKey b = tierKey a) ->
  List.filter p (sort_insert byMinXpDescending a l) = List.filter p (a :: l).
Proof.
  intros Na Nl Hclass. induction Nl as [| b l Nb Nl IH]; [reflexivity|].
  cbn [sort_insert]. rewrite byMinXpDescending_key by assumption.
  destruct (Z.ltb_spec (tierKey a) (tierKey b)) as [Hlt | _]; [| reflexivity].
  cbn [List.filter] in *. rewrite IH.
  destruct (p a) eqn:Pa; [| reflexivity].
  destruct (p b) eqn:Pb; [| reflexivity].
  specialize (Hclass b eq_refl Pb). lia.
Qed.

Lemma Array_sort_filter (p : RankTier.t -> bool) l :
  Forall tierNumeric l ->
  (forall a b, p a = true -> p b = true -> tierKey b = tierKey a) ->
  List.filter p (Array_sort byMinXpDescending l) = List.filter p l.
Proof.
  intros Nl Hclass. induction Nl as [| a l Na Nl IH]; [reflexivity|].
  change (Array_sort byMinXpDescending (a :: l))
    with (sort_insert byMinXpDescending a (Array_sort byMinXpDescending l)).
  rewrite sort_insert_filter.
  - cbn [List.filter]. rewrite IH. reflexivity.
  - exact Na.
  - rewrite <- Array_sort_perm. exact Nl.
  - intros b. apply Hclass.
Qed.

Lemma tierNumeric_of_leb t xp :
  (RankTier.minXp t <=? xp)%float = true -> tierNumeric t.
Proof. intros H. apply (Float64.leb_true_not_nan _ _ H). Qed.
Lemma tiersOf_setRankTiers h this tiers l :
  h !! tiers = Some l ->
  tiersOf (fst (setRankTiers tiers h this)) (snd (setRankTiers tiers h this)) =
  Array_sort byMinXpDescending l.
Proof.
  intros Hl. unfold tiersOf, setRankTiers. cbn. rewrite lookup_alter_eq, Hl. reflexivity.
Qed.

(** In a descending array the first tier that qualifies is the highest. *)
Lemma find_highest l xp tier :
  StronglySorted (fun a b => (RankTier.minXp b <=? RankTier.minXp a)%float = true) l ->
  find (fun t => (RankTier.minXp t <=? xp)%float) l = Some tier ->
  forall other,
    In other l -> (RankTier.minXp other <=? xp)%float = true ->
    (RankTier.minXp other <=? RankTier.minXp tier)%float = true.
Proof.
  intros Hsorted Hfind other Hin Hother.
  apply (find_first (fun t => (RankTier.minXp t <=? xp)%float)) in Hfind
    as (before & after & Heq & Htier & Hbefore).
  rewrite Heq in Hin, Hsorted.
  apply in_app_or in Hin as [Hin | [<- | Hin]].
  - rewrite Forall_forall in Hbefore. apply list_elem_of_In in Hin.
    specialize (Hbefore other Hin). cbv beta in Hbefore. congruence.
  - apply Float64.leb_refl. apply (Float64.leb_true_not_nan _ _ Htier).
  - apply StronglySorted_middle in Hsorted.
    rewrite Forall_forall in Hsorted. apply list_elem_of_In in Hin.
    exact (Hsorted other Hin).
Qed.
End TierOrder.


(** X1. Whatever the order in which the caller listed the tiers, after
    [setRankTiers] the rank of an XP value is a tier of the caller's list
    whose [minXp] is at most the XP and at least the [minXp] of every
    other tier of the list that qualifies; and there is no rank exactly
    when no tier of the list qualifies. *)
Theorem rank_is_highest_of_supplied
    (h : heap) (this : LeaderboardBuilder.t) (tiers : loc) (l : list RankTier.t)
    (xp : number) :
  h !! tiers = Some l ->
  Forall tierNumeric l ->
  let after := LeaderboardBuilder.setRankTiers tiers h this in
  let rank := LeaderboardBuilder.getRankForXp (fst after) (snd after) xp in
  (rank = None <-> Forall (fun t => (RankTier.minXp t <=? xp)%float = false) l) /\
  (forall tier,
     rank = Some tier ->
     In tier l /\
     (RankTier.minXp tier <=? xp)%float = true /\
     forall other,
       In other l -> (RankTier.minXp other <=? xp)%float = true ->
       (RankTier.minXp other <=? RankTier.minXp tier)%float = true).
Proof.
  intros Hl Hn after rank. unfold rank, after.
  rewrite getRankForXp_find, (tiersOf_setRankTiers _ _ _ _ Hl).
  pose proof (Array_sort_perm LeaderboardBuilder.byMinXpDescending l) as Hperm.
  split.
  - rewrite (find_none_iff (fun t => (RankTier.minXp t <=? xp)%float)).
    split; intros H.
    + rewrite Hperm. exact H.
    + rewrite <- Hperm. exact H.
  - intros tier Hfind. split; [| split].
    + apply find_some in Hfind as [Hin _].
      apply (Permutation_in _ (Permutation_sym Hperm)). exact Hin.
    + apply find_some in Hfind as [_ Hq]. exact Hq.
    + intros other Hin Hother.
      apply (find_highest _ xp tier (Array_sort_minXp_descending l Hn) Hfind).
      * apply (Permutation_in _ Hperm). exact Hin.
      * exact Hother.
Qed.

(** X2. The sort of [setRankTiers] is stable: tiers with the same [minXp]
    stay in the order in which the caller listed them. *)
Theorem setRankTiers_keeps_ties_in_order
    (h : heap) (this : LeaderboardBuilder.t) (tiers : loc) (l : list RankTier.t)
    (x : number) :
  h !! tiers = Some l ->
  Forall tierNumeric l ->
  let after := LeaderboardBuilder.setRankTiers tiers h this in
  List.filter (fun t => (RankTier.minXp t =? x)%float)
              (LeaderboardBuilder.tiersOf (fst after) (snd after)) =
  List.filter (fun t => (RankTier.minXp t =? x)%float) l.
Proof.
  intros Hl Hn after. unfold after. rewrite (tiersOf_setRankTiers _ _ _ _ Hl).
  apply Array_sort_filter; [exact Hn|].
  intros a b Ha Hb. unfold tierKey.
  rewrite (Float64Arith.eqb_true_fval _ _ Ha), (Float64Arith.eqb_true_fval _ _ Hb).
  reflexivity.
Qed.

(** X3. Calling [setRankTiers] again with the same array changes nothing:
    neither the heap nor the builder. *)
Theorem setRankTiers_twice
    (h : heap) (this : LeaderboardBuilder.t) (tiers : loc) (l : list RankTier.t) :
  h !! tiers = Some l ->
  Forall tierNumeric l ->
  let once := LeaderboardBuilder.setRankTiers tiers h this in
  LeaderboardBuilder.setRankTiers tiers (fst once) (snd once) = once.
Proof.
  intros Hl Hn once. unfold once, LeaderboardBuilder.setRankTiers. cbn [fst snd].
  f_equal. apply map_eq. intros k.
  destruct (decide (k = tiers)) as [-> | Hne].
  - rewrite !lookup_alter_eq, Hl. cbn. f_equal. apply Array_sort_idempotent, Hn.
  - rewrite !lookup_alter_ne by congruence. reflexivity.
Qed.

(** X4. More XP never lowers the rank: after [setRankTiers], if an XP
    value has a rank then every XP value at least as large has one too,
    with a [minXp] at least as large. *)
Theorem rank_is_monotone
    (h : heap) (this : LeaderboardBuilder.t) (tiers : loc) (l : list RankTier.t)
    (xp1 xp2 : number) (tier1 : RankTier.t) :
  h !! tiers = Some l ->
  Forall tierNumeric l ->
  (xp1 <=? xp2)%float = true ->
  let after := LeaderboardBuilder.setRankTiers tiers h this in
  LeaderboardBuilder.getRankForXp (fst after) (snd after) xp1 = Some tier1 ->
  exists tier2,
    LeaderboardBuilder.getRankForXp (fst after) (snd after) xp2 = Some tier2 /\
    (RankTier.minXp tier1 <=? RankTier.minXp tier2)%float = true.
Proof.
  intros Hl Hn Hxp after. unfold after.
  rewrite !getRankForXp_find, (tiersOf_setRankTiers _ _ _ _ Hl).
  intros Hfind1.
  pose proof (find_some _ _ Hfind1) as [Hin1 Hq1]. cbv beta in Hq1.
  assert (Hq12 : (RankTier.minXp tier1 <=? xp2)%float = true)
    by (eapply Float64Arith.leb_trans; eassumption).
  destruct (find (fun t => (RankTier.minXp t <=? xp2)%float)
              (Js.Array_sort LeaderboardBuilder.byMinXpDescending l)) as [tier2 |] eqn:Hfind2.
  - exists tier2. split; [reflexivity|].
    apply (find_highest _ xp2 tier2 (Array_sort_minXp_descending l Hn) Hfind2);
      assumption.
  - apply (find_none_iff (fun t => (RankTier.minXp t <=? xp2)%float)) in Hfind2.
    rewrite Forall_forall in Hfind2. apply list_elem_of_In in Hin1.
    specialize (Hfind2 tier1 Hin1). cbv beta in Hfind2. congruence.
Qed.

(** * Comparing two runs of [build]

    Two runs are alike up to a map [f] on calls when they end the same way
    (both return, or both throw the same error), print and request the
    same, and make the same calls up to [f]. *)
Section Simulation.
Import Js Canvas LeaderboardBuilder.

Variable Number_toString : number -> string.
Variable network : nat -> string -> Js.Error + Image.
Variable colorError : string -> option Js.Error.
Variable f : Call -> Call.

Definition similar (s s' : Frame) : Prop :=
  map f (canvas s) = map f (canvas s') /\ env s = env s'.

Definition alike {A} (r r' : Result A * Frame) : Prop :=
  fst r = fst r' /\ similar (snd r) (snd r').

Lemma alike_bind {A B} (m m' : M A) (k k' : A -> M B) s s' :
  alike (m s) (m' s') ->
  (forall a t t', similar t t' -> alike (k a t) (k' a t')) ->
  alike ((m ≫= k) s) ((m' ≫= k') s').
Proof.
  unfold mbind, M_bind.
  destruct (m s) as [[a | err] t], (m' s') as [[a' | err'] t'];
    intros [Hr Hs] Hk; cbn in Hr, Hs; try discriminate; inversion Hr; subst.
  - apply Hk, Hs.
  - split; [reflexivity | exact Hs].
Qed.

Lemma alike_emit calls calls' s s' :
  map f calls = map f calls' -> similar s s' -> alike (emit calls s) (emit calls' s').
Proof.
  intros Hc [Hs He]. split; [reflexivity|]. split; cbn; [| exact He].
  rewrite !map_app, Hc, Hs. reflexivity.
Qed.

Lemma alike_settle {A} (r : Js.Error + A) s s' :
  similar s s' -> alike (settle r s) (settle r s').
Proof. intros Hs. destruct r; split; cbn; auto. Qed.

Lemma alike_mret {A} (a : A) s s' :
  similar s s' -> alike ((mret a : M A) s) ((mret a : M A) s').
Proof. intros Hs. split; cbn; auto. Qed.

Lemma alike_throw {A} err s s' :
  similar s s' -> alike (@throw A err s) (@throw A err s').
Proof. intros Hs. split; cbn; auto. Qed.

Lemma alike_for_each {A} (body body' : nat -> A -> M unit) l :
  (forall i a t t', similar t t' -> alike (body i a t) (body' i a t')) ->
  forall i s s', similar s s' -> alike (for_each body i l s) (for_each body' i l s').
Proof.
  intros Hbody. induction l as [| a rest IH]; intros i s s' Hs; cbn [for_each].
  - apply alike_mret, Hs.
  - apply alike_bind; [apply Hbody, Hs |]. intros _ t t' Ht. apply IH, Ht.
Qed.

Lemma alike_drawAvatar y player s s' :
  similar s s' -> alike (drawAvatar network y player s) (drawAvatar network y player s').
Proof.
  intros [Hs He]. rewrite !drawAvatar_run. cbv zeta. rewrite He.
  split; [reflexivity|]. split; cbn; [| reflexivity].
  rewrite !map_app, Hs. reflexivity.
Qed.

Lemma alike_addStops colors : forall count index g s s',
  similar s s' ->
  alike (addStops colorError count index colors g s)
        (addStops colorError count index colors g s').
Proof.
  induction colors as [| color rest IH]; intros count index g s s' Hs; cbn [addStops].
  - apply alike_mret, Hs.
  - apply alike_bind; [apply alike_settle, Hs |]. intros g' t t' Ht. apply IH, Ht.
Qed.

Lemma alike_paintSpot width height spot s s' :
  similar s s' ->
  alike (paintSpot colorError width height spot s)
        (paintSpot colorError width height spot s').
Proof.
  intros Hs. unfold paintSpot.
  apply alike_bind; [apply alike_settle, Hs |]. intros g t t' Ht.
  apply alike_bind; [apply alike_settle, Ht |]. intros g' u u' Hu.
  apply alike_emit; [reflexivity | exact Hu].
Qed.

Lemma alike_paintBackground bg width height s s' :
  similar s s' ->
  alike (paintBackground colorError bg width height s)
        (paintBackground colorError bg width height s').
Proof.
  intros Hs. destruct bg as [color | g | a]; cbn [paintBackground].
  - apply alike_emit; [reflexivity | exact Hs].
  - destruct (String.eqb (GradientOptions.type g) "aurora").
    + apply alike_bind; [apply alike_emit; [reflexivity | exact Hs] |].
      intros _ t t' Ht. apply alike_throw, Ht.
    + cbv zeta. apply alike_bind; [apply alike_addStops, Hs |].
      intros g' t t' Ht. apply alike_emit; [reflexivity | exact Ht].
  - apply alike_bind; [apply alike_emit; [reflexivity | exact Hs] |].
    intros _ t t' Ht.
    apply alike_bind.
    + apply alike_for_each; [| exact Ht].
      intros i spot u u' Hu. apply alike_paintSpot, Hu.
    + intros _ u u' Hu. apply alike_emit; [reflexivity | exact Hu].
Qed.

(** The builder with other font styles. *)
Definition withFontStyles (styles : FontStyles.t) (this : t) : t :=
  mk (users this) (limit this) (background this) (header this) (podium this)
     (rankVisible this) (rankTiers this) (xpBarColors this) styles.

Lemma alike_fillXpBar a b this y player s s' :
  similar s s' ->
  alike (fillXpBar colorError (withFontStyles a this) y player s)
        (fillXpBar colorError (withFontStyles b this) y player s').
Proof.
  intros Hs. unfold fillXpBar. destruct (0 <? progress player)%float.
  - apply alike_bind; [apply alike_settle, Hs |]. intros g t t' Ht.
    apply alike_bind; [apply alike_settle, Ht |]. intros g' u u' Hu.
    apply alike_emit; [reflexivity | exact Hu].
  - apply alike_mret, Hs.
Qed.

Section Builders.
(** Two builders that differ in their font styles at most, and two heaps. *)
Variable this : t.
Variables a b : FontStyles.t.
Variables h h' : heap.

Hypothesis same_header : forall width,
  map f (headerCalls (withFontStyles a this) width) =
  map f (headerCalls (withFontStyles b this) width).
Hypothesis same_position : forall y position,
  map f (positionCalls Number_toString (withFontStyles a this) y position) =
  map f (positionCalls Number_toString (withFontStyles b this) y position).
Hypothesis same_name : forall y player,
  map f (nameCalls Number_toString (withFontStyles a this) y player) =
  map f (nameCalls Number_toString (withFontStyles b this) y player).
Hypothesis same_xpText : forall y player,
  map f (xpTextCalls Number_toString (withFontStyles a this) y player) =
  map f (xpTextCalls Number_toString (withFontStyles b this) y player).
Hypothesis same_rank : forall width y player,
  map f (rankCalls (withFontStyles a this) h width y player) =
  map f (rankCalls (withFontStyles b this) h' width y player).

Lemma alike_drawRow width headerHeight i player s s' :
  similar s s' ->
  alike (drawRow Number_toString network colorError (withFontStyles a this) h
                 width headerHeight i player s)
        (drawRow Number_toString network colorError (withFontStyles b this) h'
                 width headerHeight i player s').
Proof.
  intros Hs. unfold drawRow. cbv zeta.
  apply alike_bind; [apply alike_emit; [reflexivity | exact Hs] |]. intros _ s1 s1' H1.
  apply alike_bind; [apply alike_emit; [reflexivity | exact H1] |]. intros _ s2 s2' H2.
  apply alike_bind; [apply alike_emit; [apply same_position | exact H2] |].
  intros _ s3 s3' H3.
  apply alike_bind; [apply alike_drawAvatar, H3 |]. intros _ s4 s4' H4.
  apply alike_bind; [apply alike_emit; [apply same_name | exact H4] |].
  intros _ s5 s5' H5.
  apply alike_bind; [apply alike_emit; [reflexivity | exact H5] |]. intros _ s6 s6' H6.
  apply alike_bind; [apply alike_fillXpBar, H6 |]. intros _ s7 s7' H7.
  apply alike_bind; [apply alike_emit; [apply same_xpText | exact H7] |].
  intros _ s8 s8' H8.
  apply alike_emit; [apply same_rank | exact H8].
Qed.

Lemma alike_draw rendered width headerHeight height s s' :
  similar s s' ->
  alike (draw Number_toString network colorError (withFontStyles a this) h
              rendered width headerHeight height s)
        (draw Number_toString network colorError (withFontStyles b this) h'
              rendered width headerHeight height s').
Proof.
  intros Hs. unfold draw.
  apply alike_bind; [apply alike_paintBackground, Hs |]. intros _ s1 s1' H1.
  apply alike_bind; [apply alike_emit; [apply same_header | exact H1] |].
  intros _ s2 s2' H2.
  apply alike_for_each; [| exact H2].
  intros i player t t' Ht. apply alike_drawRow, Ht.
Qed.

(** The two builds end the same way, with the same console and request
    count, and their images have the same size and the same calls up to
    [f]. *)
Lemma alike_build e :
  match build Number_toString network colorError (withFontStyles a this) h e,
        build Number_toString network colorError (withFontStyles b this) h' e with
  | (Ok buf, e1), (Ok buf', e2) =>
      width buf' = width buf /\ height buf' = height buf /\
      map f (content buf') = map f (content buf) /\ e2 = e1
  | (Throw err, e1), (Throw err', e2) => err' = err /\ e2 = e1
  | _, _ => False
  end.
Proof.
  unfold build. cbv zeta.
  change (usersToRender (withFontStyles b this)) with (usersToRender (withFontStyles a this)).
  change (headerHeight (withFontStyles b this)) with (headerHeight (withFontStyles a this)).
  match goal with
  | |- context [ draw _ _ _ (withFontStyles a this) h ?l ?w ?hh ?ht ?s0 ] =>
      pose proof (alike_draw l w hh ht s0 s0 (conj eq_refl eq_refl)) as [Hr [Hc He]];
      destruct (draw Number_toString network colorError (withFontStyles a this) h
                     l w hh ht s0) as [[[] | err] s1];
      destruct (draw Number_toString network colorError (withFontStyles b this) h'
                     l w hh ht s0) as [[[] | err'] s1']
  end; cbn in Hr, Hc, He; try discriminate.
  - cbn [width height content]. repeat split; auto.
  - inversion Hr. split; auto.
Qed.
End Builders.
End Simulation.

(** * More on [build]: what it depends on and what it costs *)
Section BuildFacts.
Import Js Canvas LeaderboardBuilder.

Variable Number_toString : number -> string.
Variable network : nat -> string -> Js.Error + Image.
Variable colorError : string -> option Js.Error.

Lemma rankCalls_hidden this h width y player :
  rankVisible this = false -> rankCalls this h width y player = [].
Proof.
  intros Hv. unfold rankCalls. rewrite Hv.
  destruct (getRankForXp h this (LeaderboardData.xp player)); reflexivity.
Qed.

Lemma rowsFrom_hidden this h h' l :
  rankVisible this = false ->
  forall i n,
    rowsFrom Number_toString network this h i n l =
    rowsFrom Number_toString network this h' i n l.
Proof.
  intros Hv. induction l as [| player rest IH]; intros i n; [reflexivity|].
  cbn [rowsFrom]. rewrite IH. f_equal.
  unfold rowCalls. cbv zeta. rewrite !rankCalls_hidden by assumption. reflexivity.
Qed.

Lemma build_hidden this h h' e :
  rankVisible this = false ->
  build Number_toString network colorError this h e = build Number_toString network colorError this h' e.
Proof.
  intros Hv. destruct this as [us lim bg hd pod vis tiers xpc fonts].
  cbn in Hv. subst vis.
  pose proof (alike_build Number_toString network colorError (fun call => call)
                (mk us lim bg hd pod false tiers xpc fonts) fonts fonts h h'
                (fun _ => eq_refl) (fun _ _ => eq_refl) (fun _ _ => eq_refl)
                (fun _ _ => eq_refl)) as H.
  cbv [withFontStyles users limit background header podium rankVisible rankTiers
       xpBarColors] in H.
  assert (Hrank : forall width y player,
             map (fun call => call)
                 (rankCalls (mk us lim bg hd pod false tiers xpc fonts) h width y player) =
             map (fun call => call)
                 (rankCalls (mk us lim bg hd pod false tiers xpc fonts) h' width y player)).
  { intros. rewrite !rankCalls_hidden by reflexivity. reflexivity. }
  specialize (H Hrank e).
  destruct (build Number_toString network colorError
              (mk us lim bg hd pod false tiers xpc fonts) h e) as [[buf | err] e1],
    (build Number_toString network colorError
              (mk us lim bg hd pod false tiers xpc fonts) h' e) as [[buf' | err'] e2];
    try contradiction.
  - destruct H as (Hw & Hh & Hc & ->). rewrite !map_id in Hc.
    destruct buf, buf'. cbn in *. subst. reflexivity.
  - destruct H as (-> & ->). reflexivity.
Qed.

Lemma consoleFrom_entries l : forall n,
  Forall (fun entry =>
            message entry = "Could not load avatar" /\
            exists k player,
              l !! k = Some player /\
              network (n + k) (LeaderboardData.avatarUrl player) = inl (detail entry))
         (consoleFrom network n l).
Proof.
  induction l as [| player rest IH]; intros n; cbn [consoleFrom]; [constructor|].
  apply Forall_app. split.
  - unfold rowConsole.
    destruct (network n (LeaderboardData.avatarUrl player)) as [err |] eqn:E;
      constructor; [| constructor].
    split; [reflexivity|]. exists 0%nat, player. rewrite Nat.add_0_r. auto.
  - eapply Forall_impl; [apply (IH (S n)) |].
    intros entry (Hm & k & p & Hk & Hn). split; [exact Hm|].
    exists (S k), p. split; [exact Hk|].
    replace (n + S k)%nat with (S n + k)%nat by lia. exact Hn.
Qed.

Lemma consoleFrom_all_loaded l : forall n,
  (forall k player,
     l !! k = Some player ->
     exists image, network (n + k) (LeaderboardData.avatarUrl player) = inr image) ->
  consoleFrom network n l = [].
Proof.
  induction l as [| player rest IH]; intros n Hall; [reflexivity|].
  cbn [consoleFrom].
  destruct (Hall 0%nat player eq_refl) as (image & Himg).
  rewrite Nat.add_0_r in Himg. rewrite Himg. cbn.
  apply IH. intros k p Hk. destruct (Hall (S k) p Hk) as (img & Hi).
  exists img. replace (S n + k)%nat with (n + S k)%nat by lia. exact Hi.
Qed.

Lemma consoleFrom_length l : forall n, (length (consoleFrom network n l) <= length l)%nat.
Proof.
  induction l as [| player rest IH]; intros n; cbn [consoleFrom length]; [lia|].
  rewrite length_app. specialize (IH (S n)).
  unfold rowConsole. destruct (network n _); cbn; lia.
Qed.
End BuildFacts.

(** X5. With the rank column hidden the tiers play no part: [build]
    gives the same result, image and console, whatever the heap holds. *)
Theorem hidden_rank_ignores_tiers
    (Number_toString : number -> string)
    (network : nat -> string -> Js.Error + Canvas.Image)
    (colorError : string -> option Js.Error)
    (this : LeaderboardBuilder.t) (h h' : heap) (e : Env) :
  LeaderboardBuilder.build Number_toString network colorError
    (LeaderboardBuilder.showRank false this) h e =
  LeaderboardBuilder.build Number_toString network colorError
    (LeaderboardBuilder.showRank false this) h' e.
Proof. apply build_hidden. reflexivity. Qed.

(** X6. An empty participant list is valid: on a background whose stops
    the canvas takes, [build] returns the image of the background and the
    header alone, [headerHeight + 20] tall, asks for no image and prints
    nothing; the bar colors play no part. *)
Theorem build_empty_board
    (Number_toString : number -> string)
    (network : nat -> string -> Js.Error + Canvas.Image)
    (colorError : string -> option Js.Error)
    (this : LeaderboardBuilder.t) (h : heap) (e : Env) :
  wellTyped (LeaderboardBuilder.background this) = true ->
  backgroundAccepted colorError (LeaderboardBuilder.background this) = true ->
  LeaderboardBuilder.build Number_toString network colorError
    (LeaderboardBuilder.setUsers [] this) h e =
  (Ok {| Canvas.width := 900;
         Canvas.height := LeaderboardBuilder.headerHeight this + 20;
         Canvas.content :=
           backgroundCalls (LeaderboardBuilder.background this) 900
                           (LeaderboardBuilder.headerHeight this + 20)
           ++ LeaderboardBuilder.headerCalls this 900 |},
   e).
Proof.
  intros Hwt Hacc.
  assert (Hnone : LeaderboardBuilder.usersToRender (LeaderboardBuilder.setUsers [] this) = []).
  { destruct (usersToRender_prefix (LeaderboardBuilder.setUsers [] this)) as (dropped & Hd).
    cbn in Hd. symmetry in Hd. apply app_eq_nil in Hd as [Hd _]. exact Hd. }
  assert (Hall : accepted colorError (LeaderboardBuilder.setUsers [] this) = true).
  { unfold accepted. rewrite Hnone. cbn. rewrite Hacc. reflexivity. }
  rewrite (build_run _ _ _ (LeaderboardBuilder.setUsers [] this) _ e Hwt Hall).
  unfold LeaderboardBuilder.canvasHeight.
  rewrite Hnone. cbn [concat rowsFrom consoleFrom length app].
  change (Z.of_nat 0 * 100) with 0.
  rewrite !app_nil_r, Nat.add_0_r, Z.add_0_r. destruct e. reflexivity.
Qed.

(** X7. A [build] that returns (the canvas takes the color stops handed
    to it) asks for exactly one image per rendered row.  What it
    prints is one ["Could not load avatar"] line per failed request and
    nothing else: each new console line carries the error of some row's
    request, and a board whose avatars all load prints nothing. *)
Theorem build_requests_and_console
    (Number_toString : number -> string)
    (network : nat -> string -> Js.Error + Canvas.Image)
    (colorError : string -> option Js.Error)
    (this : LeaderboardBuilder.t) (h : heap) (e : Env) :
  wellTyped (LeaderboardBuilder.background this) = true ->
  accepted colorError this = true ->
  let rendered := LeaderboardBuilder.usersToRender this in
  exists buf e' printed,
    LeaderboardBuilder.build Number_toString network colorError this h e = (Ok buf, e') /\
    fetched e' = (fetched e + length rendered)%nat /\
    console e' = console e ++ printed /\
    (length printed <= length rendered)%nat /\
    Forall (fun entry =>
              message entry = "Could not load avatar" /\
              exists k player,
                rendered !! k = Some player /\
                network (fetched e + k)%nat (LeaderboardData.avatarUrl player)
                = inl (detail entry))
           printed /\
    ((forall k player,
        rendered !! k = Some player ->
        exists image,
          network (fetched e + k)%nat (LeaderboardData.avatarUrl player) = inr image) ->
     printed = []).
Proof.
  intros Hwt Hacc rendered. rewrite (build_run _ _ _ _ _ e Hwt Hacc).
  eexists _, _, (consoleFrom network (fetched e) rendered).
  split; [reflexivity|]. cbn [console fetched].
  split; [reflexivity|]. split; [reflexivity|].
  split; [apply consoleFrom_length|].
  split; [apply consoleFrom_entries|].
  apply consoleFrom_all_loaded.
Qed.

(** X8. A limit that is not zero or NaN goes to [slice(0, limit)] as it
    is.  With whole part [n]: [n >= 0] keeps the first [n] participants,
    so a limit strictly between -1 and 1 renders no row at all; [n < 0]
    counts from the end and leaves out the last [-n]. *)
Theorem limit_is_the_end_of_a_slice
    (this : LeaderboardBuilder.t) (count : number) (n : Z) :
  LeaderboardBuilder.limit this = Some count ->
  Js.ToBoolean_number count = true ->
  Js.ToIntegerOrInfinity count = Js.Finite n ->
  let users := LeaderboardBuilder.users this in
  let rendered := LeaderboardBuilder.usersToRender this in
  (0 <= n -> rendered = take (Z.to_nat n) users) /\
  (n = 0 -> rendered = []) /\
  (n < 0 -> rendered = take (length users - Z.to_nat (- n)) users).
Proof.
  intros Hl Ht Hn users rendered.
  unfold rendered, users, LeaderboardBuilder.usersToRender. rewrite Hl, Ht.
  split; [| split].
  - intros Hge. apply Array_slice0_nonneg; assumption.
  - intros ->. rewrite (Array_slice0_nonneg _ _ 0 Hn) by lia. reflexivity.
  - intros Hlt. apply Array_slice0_negative; assumption.
Qed.

(** X9. The fill of a progress bar is drawn only for a participant whose
    [xp] and [neededXp] are both strictly positive: zero, negative zero
    and NaN draw the track alone. *)
Theorem fill_needs_positive_xp
    (this : LeaderboardBuilder.t) (y : Z) (player : LeaderboardData.t) :
  LeaderboardBuilder.xpFillCalls this y player <> [] ->
  (0 <? LeaderboardData.xp player)%float = true /\
  (0 <? LeaderboardData.neededXp player)%float = true.
Proof.
  unfold LeaderboardBuilder.xpFillCalls, LeaderboardBuilder.progress.
  destruct (0 <? LeaderboardData.neededXp player)%float eqn:Hn.
  - destruct (0 <? LeaderboardData.xp player / LeaderboardData.neededXp player)%float eqn:Hp.
    + intros _. split; [| reflexivity].
      apply (Float64Arith.div_pos_inv _ _ Hn Hp).
    + intros H. contradiction.
  - change (0 <? 0)%float with false. intros H. contradiction.
Qed.

(** * More on gradients: the color stops *)
Section ColorStops.
Import Js Canvas LeaderboardBuilder.

(** The stops added for [colors], the first of which has index [index]. *)
Fixpoint stopsFrom (count index : Z) (colors : list string) : list (number * string) :=
  match colors with
  | [] => []
  | color :: rest =>
      ((Z2num index / Z2num (count - 1))%float, color) :: stopsFrom count (index + 1) rest
  end.

Lemma addColorStops_stops colors : forall count index gradient,
  colorStops (addColorStops count index colors gradient) =
  colorStops gradient ++ stopsFrom count index colors.
Proof.
  induction colors as [| color rest IH]; intros count index gradient; cbn.
  - rewrite app_nil_r. reflexivity.
  - rewrite IH. cbn. rewrite <- app_assoc. reflexivity.
Qed.

Lemma createGradient_no_stops type width height :
  colorStops (createGradient type width height) = [].
Proof. unfold createGradient. repeat destruct (String.eqb type _); reflexivity. Qed.

Lemma stopsFrom_colors colors : forall count index,
  map snd (stopsFrom count index colors) = colors.
Proof. induction colors as [| c rest IH]; intros; cbn; [reflexivity | rewrite IH; reflexivity]. Qed.

Lemma stopsFrom_last colors : forall count index color,
  last colors = Some color ->
  last (stopsFrom count index colors) =
  Some ((Z2num (index + Z.of_nat (length colors) - 1) / Z2num (count - 1))%float, color).
Proof.
  induction colors as [| c rest IH]; intros count index color Hlast; [discriminate|].
  destruct rest as [| c' rest'].
  - cbn in Hlast. inversion Hlast; subst. cbn [stopsFrom last length].
    replace (index + Z.of_nat 1 - 1) with index by lia. reflexivity.
  - change (last (c :: c' :: rest')) with (last (c' :: rest')) in Hlast.
    change (last (stopsFrom count index (c :: c' :: rest')))
      with (last (stopsFrom count (index + 1) (c' :: rest'))).
    rewrite (IH count (index + 1) color Hlast).
    replace (index + Z.of_nat (length (c :: c' :: rest')) - 1)
      with (index + 1 + Z.of_nat (length (c' :: rest')) - 1)
      by (rewrite (length_cons c); lia).
    reflexivity.
Qed.
End ColorStops.

(** X10. The stops of a background gradient are its colors, one stop per
    color in the order given.  With two colors or more the first stop is
    at offset 0 and the last at offset 1, exactly. *)
Theorem gradient_stops_run_from_0_to_1
    (g : GradientOptions.t) (width height : Z) :
  let colors := GradientOptions.colors g in
  2 <= Z.of_nat (length colors) < 2 ^ 63 ->
  exists gradient,
    LeaderboardBuilder.gradientCalls g width height =
      [ Canvas.set_fillStyle (Canvas.Gradient gradient);
        Canvas.fillRect 0 0 (Js.Z2num width) (Js.Z2num height) ] /\
    map snd (Canvas.colorStops gradient) = colors /\
    (fst <$> head (Canvas.colorStops gradient)) = Some 0%float /\
    (fst <$> last (Canvas.colorStops gradient)) = Some 1%float.
Proof.
  intros colors Hlen. unfold LeaderboardBuilder.gradientCalls. cbv zeta. fold colors.
  eexists. split; [reflexivity|].
  rewrite addColorStops_stops, createGradient_no_stops. cbn [app].
  destruct (Float64Arith.Z2num_finite (Z.of_nat (length colors) - 1)) as (m & e & Hfin);
    [lia|].
  split; [apply stopsFrom_colors|]. split.
  - destruct colors as [| first rest]; [cbn in Hlen; lia|].
    cbn [stopsFrom head fmap option_fmap option_map fst].
    change (Js.Z2num 0) with 0%float.
    rewrite (Float64Arith.zero_div _ _ _ Hfin). reflexivity.
  - destruct (last colors) as [color |] eqn:Hlast.
    + rewrite (stopsFrom_last _ _ 0 color Hlast). cbn [fmap option_fmap option_map fst].
      replace (0 + Z.of_nat (length colors) - 1) with (Z.of_nat (length colors) - 1) by lia.
      rewrite (Float64Arith.div_self _ _ _ Hfin). reflexivity.
    + apply last_None in Hlast. rewrite Hlast in Hlen. cbn in Hlen. lia.
Qed.

(** * More on fonts *)
Section Fonts.
Import Js Canvas LeaderboardBuilder.

Variable Number_toString : number -> string.
Variable network : nat -> string -> Js.Error + Image.
Variable colorError : string -> option Js.Error.

Lemma setFontStyles_withFontStyles styles this :
  exists stored, setFontStyles styles this = withFontStyles stored this.
Proof. eexists. reflexivity. Qed.

(** A call with its font string, if any, blotted out. *)
Definition sansFont (call : Call) : Call :=
  match call with
  | set_font _ => set_font ""
  | _ => call
  end.

Lemma headerCalls_sansFont a b this width :
  map sansFont (headerCalls (withFontStyles a this) width) =
  map sansFont (headerCalls (withFontStyles b this) width).
Proof.
  unfold headerCalls. cbn [header withFontStyles].
  destruct (truthy (HeaderOptions.subtitle (header this))); reflexivity.
Qed.

Lemma rankCalls_sansFont a b this h width y player :
  map sansFont (rankCalls (withFontStyles a this) h width y player) =
  map sansFont (rankCalls (withFontStyles b this) h width y player).
Proof.
  unfold rankCalls.
  change (getRankForXp h (withFontStyles a this)) with (getRankForXp h this).
  change (getRankForXp h (withFontStyles b this)) with (getRankForXp h this).
  cbn [rankVisible withFontStyles].
  destruct (getRankForXp h this (LeaderboardData.xp player)); [| reflexivity].
  destruct (rankVisible this); reflexivity.
Qed.

(** With or without other font styles, [build] ends alike up to the font
    strings. *)
Lemma build_sansFont a b this h e :
  match build Number_toString network colorError (withFontStyles a this) h e,
        build Number_toString network colorError (withFontStyles b this) h e with
  | (Ok buf, e1), (Ok buf', e2) =>
      width buf' = width buf /\ height buf' = height buf /\
      map sansFont (content buf') = map sansFont (content buf) /\ e2 = e1
  | (Throw err, e1), (Throw err', e2) => err' = err /\ e2 = e1
  | _, _ => False
  end.
Proof.
  apply (alike_build Number_toString network colorError sansFont this a b h h).
  - apply headerCalls_sansFont.
  - reflexivity.
  - reflexivity.
  - reflexivity.
  - intros. apply rankCalls_sansFont.
Qed.

(** Two sets of styles that read alike in a condition. *)
Definition sameFonts (a b : FontStyles.t) : Prop :=
  truthy (FontStyles.headerTitle a) = truthy (FontStyles.headerTitle b) /\
  truthy (FontStyles.headerSubtitle a) = truthy (FontStyles.headerSubtitle b) /\
  truthy (FontStyles.userNickname a) = truthy (FontStyles.userNickname b) /\
  truthy (FontStyles.userLevel a) = truthy (FontStyles.userLevel b) /\
  truthy (FontStyles.userPosition a) = truthy (FontStyles.userPosition b) /\
  truthy (FontStyles.xpText a) = truthy (FontStyles.xpText b) /\
  truthy (FontStyles.rankText a) = truthy (FontStyles.rankText b).

Lemma or_default_truthy a b d : truthy a = truthy b -> or_default a d = or_default b d.
Proof. unfold or_default. intros ->. reflexivity. Qed.

Lemma headerCalls_sameFonts a b this width :
  sameFonts a b ->
  headerCalls (withFontStyles a this) width = headerCalls (withFontStyles b this) width.
Proof.
  intros (H1 & H2 & _). unfold headerCalls. cbn [header fontStyles withFontStyles].
  rewrite (or_default_truthy _ _ _ H1), (or_default_truthy _ _ _ H2). reflexivity.
Qed.

Lemma positionCalls_sameFonts a b this y position :
  sameFonts a b ->
  positionCalls Number_toString (withFontStyles a this) y position =
  positionCalls Number_toString (withFontStyles b this) y position.
Proof.
  intros (_ & _ & _ & _ & H5 & _). unfold positionCalls. cbn [fontStyles withFontStyles].
  rewrite (or_default_truthy _ _ _ H5). reflexivity.
Qed.

Lemma nameCalls_sameFonts a b this y player :
  sameFonts a b ->
  nameCalls Number_toString (withFontStyles a this) y player =
  nameCalls Number_toString (withFontStyles b this) y player.
Proof.
  intros (_ & _ & H3 & H4 & _). unfold nameCalls. cbn [fontStyles withFontStyles].
  rewrite (or_default_truthy _ _ _ H3), (or_default_truthy _ _ _ H4). reflexivity.
Qed.

Lemma xpTextCalls_sameFonts a b this y player :
  sameFonts a b ->
  xpTextCalls Number_toString (withFontStyles a this) y player =
  xpTextCalls Number_toString (withFontStyles b this) y player.
Proof.
  intros (_ & _ & _ & _ & _ & H6 & _). unfold xpTextCalls.
  cbn [fontStyles withFontStyles].
  rewrite (or_default_truthy _ _ _ H6). reflexivity.
Qed.

Lemma rankCalls_sameFonts a b this h width y player :
  sameFonts a b ->
  rankCalls (withFontStyles a this) h width y player =
  rankCalls (withFontStyles b this) h width y player.
Proof.
  intros (_ & _ & _ & _ & _ & _ & H7). unfold rankCalls.
  change (getRankForXp h (withFontStyles a this)) with (getRankForXp h this).
  change (getRankForXp h (withFontStyles b this)) with (getRankForXp h this).
  cbn [fontStyles rankVisible withFontStyles].
  rewrite (or_default_truthy _ _ _ H7). reflexivity.
Qed.

Lemma build_sameFonts a b this h e :
  sameFonts a b ->
  build Number_toString network colorError (withFontStyles a this) h e =
  build Number_toString network colorError (withFontStyles b this) h e.
Proof.
  intros Hs.
  pose proof (alike_build Number_toString network colorError (fun call => call)
                this a b h h) as H.
  specialize (H (fun width => f_equal _ (headerCalls_sameFonts a b this width Hs))).
  specialize (H (fun y position =>
                   f_equal _ (positionCalls_sameFonts a b this y position Hs))).
  specialize (H (fun y player => f_equal _ (nameCalls_sameFonts a b this y player Hs))).
  specialize (H (fun y player => f_equal _ (xpTextCalls_sameFonts a b this y player Hs))).
  specialize (H (fun width y player =>
                   f_equal _ (rankCalls_sameFonts a b this h width y player Hs)) e).
  destruct (build Number_toString network colorError (withFontStyles a this) h e)
    as [[buf | err] e1],
    (build Number_toString network colorError (withFontStyles b this) h e)
    as [[buf' | err'] e2]; try contradiction.
  - destruct H as (Hw & Hh & Hc & ->). rewrite !map_id in Hc.
    destruct buf, buf'. cbn in *. subst. reflexivity.
  - destruct H as (-> & ->). reflexivity.
Qed.

(** The literal with every empty string replaced by [undefined]. *)
Definition blank (p : Property string) : Property string :=
  match p with
  | Present (Some s) => if ToBoolean_string s then p else Present None
  | _ => p
  end.

Definition blanked (styles : FontStylesLiteral.t) : FontStylesLiteral.t :=
  {| FontStylesLiteral.headerTitle := blank (FontStylesLiteral.headerTitle styles);
     FontStylesLiteral.headerSubtitle := blank (FontStylesLiteral.headerSubtitle styles);
     FontStylesLiteral.userNickname := blank (FontStylesLiteral.userNickname styles);
     FontStylesLiteral.userLevel := blank (FontStylesLiteral.userLevel styles);
     FontStylesLiteral.userPosition := blank (FontStylesLiteral.userPosition styles);
     FontStylesLiteral.xpText := blank (FontStylesLiteral.xpText styles);
     FontStylesLiteral.rankText := blank (FontStylesLiteral.rankText styles) |}.

Lemma spread_blank old p : truthy (spread old (blank p)) = truthy (spread old p).
Proof.
  destruct p as [| [s |]]; try reflexivity.
  cbn. destruct s; reflexivity.
Qed.
End Fonts.

(** X11. Font styles touch nothing but fonts: after [setFontStyles],
    [build] returns an image of the same size, made of the same calls with
    the same arguments, except for the strings assigned to [font]; and it
    prints the same. *)
Theorem setFontStyles_changes_fonts_only
    (Number_toString : number -> string)
    (network : nat -> string -> Js.Error + Canvas.Image)
    (colorError : string -> option Js.Error)
    (styles : FontStylesLiteral.t)
    (this : LeaderboardBuilder.t) (h : heap) (e : Env) :
  match LeaderboardBuilder.build Number_toString network colorError this h e,
        LeaderboardBuilder.build Number_toString network colorError
          (LeaderboardBuilder.setFontStyles styles this) h e with
  | (Ok buf, e1), (Ok buf', e2) =>
      Canvas.width buf' = Canvas.width buf /\
      Canvas.height buf' = Canvas.height buf /\
      map sansFont (Canvas.content buf') = map sansFont (Canvas.content buf) /\
      e2 = e1
  | (Throw err, e1), (Throw err', e2) => err' = err /\ e2 = e1
  | _, _ => False
  end.
Proof.
  destruct this as [us lim bg hd pod vis tiers xpc fonts].
  exact (build_sansFont Number_toString network colorError fonts _
           (LeaderboardBuilder.mk us lim bg hd pod vis tiers xpc fonts) h e).
Qed.

(** X12. An empty string given as a font style is no style: [build]
    returns for it what it returns when the same key is given as
    [undefined], that is, it draws that text in its default font. *)
Theorem empty_font_style_is_no_style
    (Number_toString : number -> string)
    (network : nat -> string -> Js.Error + Canvas.Image)
    (colorError : string -> option Js.Error)
    (styles : FontStylesLiteral.t)
    (this : LeaderboardBuilder.t) (h : heap) (e : Env) :
  LeaderboardBuilder.build Number_toString network colorError
    (LeaderboardBuilder.setFontStyles (blanked styles) this) h e =
  LeaderboardBuilder.build Number_toString network colorError
    (LeaderboardBuilder.setFontStyles styles this) h e.
Proof.
  apply (build_sameFonts Number_toString network colorError _ _ this).
  unfold sameFonts, blanked. cbn.
  repeat split; apply spread_blank.
Qed.

(** * The image, paint by paint *)
Section Anatomy.
Import Js Canvas LeaderboardBuilder.

Variable Number_toString : number -> string.
Variable network : nat -> string -> Js.Error + Image.
Variable colorError : string -> option Js.Error.

(** The context with its list of paints emptied. *)
Definition unpainted (c : Context) : Context :=
  {| state := state c; path := path c; saved := saved c; painted := [] |}.

(** What a call does never depends on what was painted before. *)
Lemma step_unpainted c call :
  step colorError c call =
  {| state := state (step colorError (unpainted c) call);
     path := path (step colorError (unpainted c) call);
     saved := saved (step colorError (unpainted c) call);
     painted := painted c ++ painted (step colorError (unpainted c) call) |}.
Proof.
  destruct c as [st pth sv ps].
  destruct call; cbn; rewrite ?app_nil_r; try reflexivity.
  - destruct (_ && _); cbn; rewrite ?app_nil_r; reflexivity.
  - destruct sv; cbn; rewrite app_nil_r; reflexivity.
Qed.

Lemma fold_step_unpainted log : forall c,
  fold_left (step colorError) log c =
  {| state := state (fold_left (step colorError) log (unpainted c));
     path := path (fold_left (step colorError) log (unpainted c));
     saved := saved (fold_left (step colorError) log (unpainted c));
     painted := painted c ++ painted (fold_left (step colorError) log (unpainted c)) |}.
Proof.
  induction log as [| call log IH]; intros c.
  - destruct c; cbn. rewrite app_nil_r. reflexivity.
  - cbn [fold_left].
    assert (Hu : unpainted (step colorError c call) =
                 unpainted (step colorError (unpainted c) call))
      by (rewrite (step_unpainted c call); reflexivity).
    assert (Hp : painted (step colorError c call) =
                 painted c ++ painted (step colorError (unpainted c) call))
      by (rewrite (step_unpainted c call); reflexivity).
    rewrite (IH (step colorError c call)), (IH (step colorError (unpainted c) call)), Hu, Hp.
    cbn [state path saved painted]. rewrite app_assoc. reflexivity.
Qed.

(** The state in which the rows are drawn: the shadow color [shadow], no
    clipping region, nothing saved. *)
Definition settled (shadow : string) (c : Context) : Prop :=
  shadowColor (state c) = shadow /\ clipping (state c) = [] /\ saved c = [].

Definition roundedRectangle (outl : list Call) : Prop :=
  exists x y w h r, roundRect x y w h r = beginPath :: outl.

(** The color of a card's border. *)
Definition borderColor : string := "rgba(255, 255, 255, 0.1)".

Definition border (p : Paint) : Prop :=
  lineWidth (seen p) = 1%float /\
  strokeStyle (seen p) = Color "rgba(255, 255, 255, 0.1)".

(** A stroke of width 2 around the card of one of the first three places,
    in the color configured for that place if the canvas takes it for a
    color, and in the color of the border if not. *)
Definition accent (this : t) (p : Paint) : Prop :=
  lineWidth (seen p) = 2%float /\
  exists position color,
    1 <= position <= 3 /\ podiumColor this position = Some color /\
    strokeStyle (seen p) =
      (if parses colorError color then Color color
       else Color "rgba(255, 255, 255, 0.1)") /\
    roundRect 30 (Z2num (headerHeight this + (position - 1) * 100))
              (Z2num (900 - 60)) 90 15 = beginPath :: outline p.

Definition rowPaint (shadow : string) (this : t) (p : Paint) : Prop :=
  shadowColor (seen p) = shadow /\
  match drawn p with
  | drawImage _ dx dy dw dh =>
      outline p = [] /\
      exists y,
        dx = 140%float /\ dy = Z2num (y + 15) /\ dw = 60%float /\ dh = 60%float /\
        clipping (seen p) = [ [ arc 170 (Z2num (y + 45)) 30 0 (Math_PI * 2) ] ]
  | fill => clipping (seen p) = [] /\ roundedRectangle (outline p)
  | stroke =>
      clipping (seen p) = [] /\ roundedRectangle (outline p) /\
      (colorError "rgba(255, 255, 255, 0.1)" = None -> border p \/ accent this p)
  | _ => clipping (seen p) = [] /\ outline p = []
  end.

Lemma podiumColor_position this position color :
  podiumColor this position = Some color -> 1 <= position <= 3.
Proof.
  unfold podiumColor. cbv zeta.
  destruct (Z.eqb_spec position 1); [lia|].
  destruct (Z.eqb_spec position 2); [lia|].
  destruct (Z.eqb_spec position 3); [lia|].
  discriminate.
Qed.

Lemma assignStyle_taken color old :
  colorError color = None -> assignStyle colorError (Color color) old = Color color.
Proof. intros H. unfold assignStyle, parses. rewrite H. reflexivity. Qed.

Lemma assignColor_taken color old :
  colorError color = None -> assignColor colorError color old = color.
Proof. intros H. unfold assignColor, parses. rewrite H. reflexivity. Qed.

Ltac rounded := unfold roundedRectangle; do 5 eexists; reflexivity.

Ltac row_paint Hp :=
  split; [reflexivity |];
  cbn [drawn seen outline clipping];
  first
    [ split; reflexivity
    | split; [reflexivity | rounded]
    | split; [reflexivity | split; [rounded |]];
      let Hb := fresh "Hb" in
      intros Hb; left; split;
      [reflexivity | cbn [seen strokeStyle]; apply assignStyle_taken, Hb]
    | split; [reflexivity | split; [rounded |]];
      let Hb := fresh "Hb" in
      intros Hb; right; split; [reflexivity |];
      eexists _, _; split; [exact (podiumColor_position _ _ _ Hp) |];
      split; [exact Hp |]; split;
      [ cbn [seen strokeStyle];
        rewrite (assignStyle_taken "rgba(255, 255, 255, 0.1)" _ Hb); reflexivity |];
      cbn [outline];
      match goal with
      | |- context [ (Z.of_nat ?i + 1 - 1) * 100 ] =>
          replace (Z.of_nat i + 1 - 1) with (Z.of_nat i) by lia
      end;
      reflexivity
    | split; [reflexivity |]; eexists; repeat split; reflexivity ].

Lemma row_replay shadow this h i player outcome c :
  settled shadow c ->
  let r := fold_left (step colorError)
             (rowCalls Number_toString this h i player outcome) (unpainted c) in
  settled shadow r /\ Forall (rowPaint shadow this) (painted r).
Proof.
  intros (Hs & Hc & Hsv).
  destruct c as [st pth sv ps]. destruct st. cbn in Hs, Hc, Hsv. subst.
  unfold unpainted. cbn [state path saved painted].
  unfold rowCalls, cardCalls, podiumCalls, positionCalls, avatarCalls, nameCalls,
    xpTrackCalls, xpFillCalls, xpTextCalls, rankCalls. cbv zeta.
  set (y := headerHeight this + Z.of_nat i * 100).
  destruct (podiumColor this (Z.of_nat i + 1)) as [color |] eqn:Hp.
  all: destruct outcome as [err | avatar].
  all: destruct (0 <? progress player)%float.
  all: destruct (getRankForXp h this (LeaderboardData.xp player)) as [rank |].
  all: destruct (rankVisible this) eqn:Hv.
  all: unfold roundRect.
  all: cbv [fold_left app step with_state paint extend_path state path saved painted
            fillStyle strokeStyle globalAlpha lineWidth font textAlign shadowColor
            shadowBlur clipping].
  all: (split; [repeat split |]).
  all: repeat (apply Forall_cons; split; [row_paint Hp |]).
  all: apply Forall_nil; exact I.
Qed.

Lemma settled_unpainted shadow log c :
  settled shadow (fold_left (step colorError) log c) <->
  settled shadow (fold_left (step colorError) log (unpainted c)).
Proof. rewrite (fold_step_unpainted log c). unfold settled. cbn. reflexivity. Qed.

Lemma rows_replay shadow this h l : forall i n c,
  settled shadow c ->
  let r := fold_left (step colorError)
             (concat (rowsFrom Number_toString network this h i n l)) c in
  settled shadow r /\
  exists new, painted r = painted c ++ new /\ Forall (rowPaint shadow this) new.
Proof.
  induction l as [| player rest IH]; intros i n c Hc; cbv zeta.
  - cbn. split; [exact Hc|]. exists []. rewrite app_nil_r. split; [reflexivity | constructor].
  - cbn [rowsFrom concat]. rewrite fold_left_app.
    set (row := rowCalls Number_toString this h i player
                  (network n (LeaderboardData.avatarUrl player))).
    destruct (row_replay shadow this h i player
                (network n (LeaderboardData.avatarUrl player)) c Hc) as (Hs & Hq).
    fold row in Hs, Hq.
    apply settled_unpainted in Hs.
    destruct (IH (S i) (S n) (fold_left (step colorError) row c) Hs)
      as (Hs' & new & Hnew & Hall).
    split; [exact Hs'|].
    exists (painted (fold_left (step colorError) row (unpainted c)) ++ new).
    split.
    + rewrite Hnew. rewrite (fold_step_unpainted row c) at 1.
      cbn [painted]. rewrite app_assoc. reflexivity.
    + apply Forall_app. split; assumption.
Qed.

(** The state of a fresh context but for its fill style. *)
Definition plain (style : Style) : State :=
  {| fillStyle := style; strokeStyle := Color "#000000"; globalAlpha := 1%float;
     lineWidth := 1%float; font := "10px sans-serif"; textAlign := "start";
     shadowColor := "rgba(0, 0, 0, 0)"; shadowBlur := 0%float; clipping := [] |}.

(** The fill style of a fresh context after the assignment of a string:
    the string if it is a color, black as before if not. *)
Definition firstColor (color : string) : Style :=
  if parses colorError color then Color color else Color "#000000".

(** The style of the first fill of a background. *)
Definition backgroundStyle (bg : BackgroundOptions) (width height : Z) : Style :=
  match bg with
  | BgColor color => firstColor color
  | BgAurora auroraOptions =>
      firstColor (AuroraBackgroundOptions.baseColor auroraOptions)
  | BgGradient gradientOptions =>
      let colors := GradientOptions.colors gradientOptions in
      Gradient (addColorStops (Z.of_nat (length colors)) 0 colors
                  (createGradient (GradientOptions.type gradientOptions) width height))
  end.

Definition backgroundPaint (width height : Z) (p : Paint) : Prop :=
  drawn p = fillRect 0 0 (Z2num width) (Z2num height) /\ outline p = [] /\
  shadowColor (seen p) = "rgba(0, 0, 0, 0)" /\ clipping (seen p) = [].

Lemma background_replay bg width height :
  wellTyped bg = true ->
  exists style first rest,
    replay colorError (backgroundCalls bg width height) =
      {| state := plain style; path := []; saved := []; painted := first :: rest |} /\
    Forall (backgroundPaint width height) (first :: rest) /\
    fillStyle (seen first) = backgroundStyle bg width height /\
    globalAlpha (seen first) = 1%float.
Proof.
  intros Hwt. destruct bg as [color | g | a].
  - eexists _, _, _. split; [reflexivity|].
    split; [| split; reflexivity].
    repeat constructor.
  - eexists _, _, _. split; [reflexivity|].
    split; [| split; reflexivity].
    repeat constructor.
  - cbn [backgroundCalls]. unfold auroraCalls. rewrite replay_app, fold_left_app.
    change (replay colorError
              [ set_fillStyle (Color (AuroraBackgroundOptions.baseColor a));
                fillRect 0 0 (Z2num width) (Z2num height);
                set_globalAlpha spotAlpha ])
      with {| state := spotState (assignStyle colorError
                                    (Color (AuroraBackgroundOptions.baseColor a))
                                    (Color "#000000"));
              path := []; saved := [];
              painted := [basePaint colorError (AuroraBackgroundOptions.baseColor a)
                                    width height] |}.
    destruct (replay_spots colorError width height (AuroraBackgroundOptions.spots a)
                (assignStyle colorError (Color (AuroraBackgroundOptions.baseColor a))
                             (Color "#000000"))
                [basePaint colorError (AuroraBackgroundOptions.baseColor a) width height])
      as (style' & ->).
    exists style', (basePaint colorError (AuroraBackgroundOptions.baseColor a) width height),
      (map (spotPaint width height) (AuroraBackgroundOptions.spots a)).
    split; [reflexivity|]. split; [| split; reflexivity].
    constructor; [repeat split; reflexivity |].
    induction (AuroraBackgroundOptions.spots a) as [| spot spots IH]; cbn [map];
      constructor; [repeat split; reflexivity | exact IH].
Qed.

(** The shadow color under the header's texts, and after the header. *)
Definition headerShadow : string :=
  assignColor colorError "rgba(0, 0, 0, 0.5)" "rgba(0, 0, 0, 0)".

Definition rowShadow : string := assignColor colorError "transparent" headerShadow.

Definition headerPaint (p : Paint) : Prop :=
  (exists text x y, drawn p = fillText text x y) /\ outline p = [] /\
  shadowColor (seen p) = headerShadow /\ shadowBlur (seen p) = 10%float /\
  clipping (seen p) = [].

Lemma header_replay this width style :
  let r := fold_left (step colorError) (headerCalls this width)
             {| state := plain style; path := []; saved := []; painted := [] |} in
  settled rowShadow r /\
  map drawn (painted r) =
    fillText (HeaderOptions.title (header this)) (Z2num width / 2) 85
    :: match truthy (HeaderOptions.subtitle (header this)) with
       | Some subtitle => [ fillText subtitle (Z2num width / 2) 115 ]
       | None => []
       end /\
  Forall headerPaint (painted r).
Proof.
  unfold headerCalls.
  destruct (truthy (HeaderOptions.subtitle (header this))) as [subtitle |].
  all: cbv [fold_left app step with_state paint extend_path state path saved painted
            fillStyle strokeStyle globalAlpha lineWidth font textAlign shadowColor
            shadowBlur clipping plain].
  all: split; [repeat split |].
  all: split; [reflexivity |].
  all: repeat (apply Forall_cons; split;
               [split; [eexists _, _, _; reflexivity | repeat split; reflexivity] |]).
  all: apply Forall_nil; exact I.
Qed.

(** The paints of the image [build] returns: those of the background, then
    those of the header, then those of the rows. *)
Lemma build_anatomy this h e :
  wellTyped (background this) = true ->
  let log := backgroundCalls (background this) canvasWidth (canvasHeight this)
             ++ headerCalls this canvasWidth
             ++ concat (rowsFrom Number_toString network this h 0 (fetched e)
                          (usersToRender this)) in
  exists first others title rows,
    painted (replay colorError log) = (first :: others) ++ title ++ rows /\
    Forall (backgroundPaint canvasWidth (canvasHeight this)) (first :: others) /\
    fillStyle (seen first) = backgroundStyle (background this) canvasWidth (canvasHeight this) /\
    globalAlpha (seen first) = 1%float /\
    map drawn title =
      fillText (HeaderOptions.title (header this)) (Z2num canvasWidth / 2) 85
      :: match truthy (HeaderOptions.subtitle (header this)) with
         | Some subtitle => [ fillText subtitle (Z2num canvasWidth / 2) 115 ]
         | None => []
         end /\
    Forall headerPaint title /\
    Forall (rowPaint rowShadow this) rows /\
    settled rowShadow (replay colorError log).
Proof.
  intros Hwt log.
  destruct (background_replay (background this) canvasWidth (canvasHeight this) Hwt)
    as (style & first & others & Hbg & Hbgs & Hstyle & Halpha).
  destruct (header_replay this canvasWidth style) as (Hset & Hdrawn & Htitle).
  set (hd := fold_left (step colorError) (headerCalls this canvasWidth)
               {| state := plain style; path := []; saved := []; painted := [] |}) in *.
  assert (Hhd : fold_left (step colorError) (headerCalls this canvasWidth)
                  (replay colorError
                     (backgroundCalls (background this) canvasWidth (canvasHeight this)))
                = {| state := state hd; path := path hd; saved := saved hd;
                     painted := (first :: others) ++ painted hd |}).
  { rewrite Hbg, fold_step_unpainted. reflexivity. }
  assert (Hset' : settled rowShadow
                    {| state := state hd; path := path hd; saved := saved hd;
                       painted := (first :: others) ++ painted hd |})
    by exact Hset.
  destruct (rows_replay rowShadow this h (usersToRender this) 0 (fetched e) _ Hset')
    as (Hfinal & rows & Hrows & Hall).
  exists first, others, (painted hd), rows.
  unfold log. rewrite replay_app, fold_left_app, Hhd.
  split; [| split; [exact Hbgs | split; [exact Hstyle | split; [exact Halpha |
    split; [exact Hdrawn | split; [exact Htitle | split; [exact Hall | exact Hfinal]]]]]]].
  rewrite Hrows. cbn [painted]. rewrite <- app_assoc. reflexivity.
Qed.

(** A paint is made inside a clipping region only if it draws an avatar,
    and then inside the circle of radius 30 inscribed in the image's
    60 x 60 box. *)
Definition clipped (p : Paint) : Prop :=
  match drawn p with
  | drawImage _ dx dy dw dh =>
      exists y,
        dx = 140%float /\ dy = Z2num (y + 15) /\ dw = 60%float /\ dh = 60%float /\
        clipping (seen p) = [ [ arc 170 (Z2num (y + 45)) 30 0 (Math_PI * 2) ] ]
  | _ => clipping (seen p) = []
  end.

(** A filled or stroked paint has the path of one [roundRect] call for
    its outline; any other paint has none. *)
Definition shaped (p : Paint) : Prop :=
  match drawn p with
  | fill | stroke => roundedRectangle (outline p)
  | _ => outline p = []
  end.

Lemma backgroundPaint_clipped width height p : backgroundPaint width height p -> clipped p.
Proof. intros (Hd & _ & _ & Hc). unfold clipped. rewrite Hd. exact Hc. Qed.

Lemma headerPaint_clipped p : headerPaint p -> clipped p.
Proof.
  intros ((text & x & y & Hd) & _ & _ & _ & Hc). unfold clipped. rewrite Hd. exact Hc.
Qed.

Lemma rowPaint_clipped shadow this p : rowPaint shadow this p -> clipped p.
Proof.
  intros (_ & H). unfold clipped.
  destruct (drawn p); try (destruct H as (H & _); exact H).
  destruct H as (_ & y & H). exists y. exact H.
Qed.

Lemma backgroundPaint_shaped width height p : backgroundPaint width height p -> shaped p.
Proof. intros (Hd & Ho & _). unfold shaped. rewrite Hd. exact Ho. Qed.

Lemma headerPaint_shaped p : headerPaint p -> shaped p.
Proof.
  intros ((text & x & y & Hd) & Ho & _). unfold shaped. rewrite Hd. exact Ho.
Qed.

Lemma rowPaint_shaped shadow this p : rowPaint shadow this p -> shaped p.
Proof.
  intros (_ & H). unfold shaped.
  destruct (drawn p); try (destruct H as (_ & H); exact H).
  - destruct H as (H & _). exact H.
  - destruct H as (_ & H & _). exact H.
Qed.
End Anatomy.

(** X13. The drop shadow is under the header's texts and nowhere else.
    On a canvas that takes [rgba(0, 0, 0, 0.5)] and [transparent] for
    colors, the paints of an image that [build] returns are: those made
    before the header, with the canvas's default (no) shadow; then the
    title and, if there is one that is not empty, the subtitle, both with
    the shadow [rgba(0, 0, 0, 0.5)] blurred by 10; then all the paints of
    the rows, with the shadow color [transparent]. *)
Theorem shadow_only_under_the_header
    (Number_toString : number -> string)
    (network : nat -> string -> Js.Error + Canvas.Image)
    (colorError : string -> option Js.Error)
    (this : LeaderboardBuilder.t) (h : heap) (e : Env) :
  wellTyped (LeaderboardBuilder.background this) = true ->
  accepted colorError this = true ->
  colorError "rgba(0, 0, 0, 0.5)" = None ->
  colorError "transparent" = None ->
  exists buf e' before title after,
    LeaderboardBuilder.build Number_toString network colorError this h e = (Ok buf, e') /\
    Canvas.paints colorError buf = before ++ title ++ after /\
    Forall (fun p => Canvas.shadowColor (Canvas.seen p) = "rgba(0, 0, 0, 0)") before /\
    map Canvas.drawn title =
      Canvas.fillText (HeaderOptions.title (LeaderboardBuilder.header this))
                      (Js.Z2num (Canvas.width buf) / 2) 85
      :: match Js.truthy (HeaderOptions.subtitle (LeaderboardBuilder.header this)) with
         | Some subtitle =>
             [ Canvas.fillText subtitle (Js.Z2num (Canvas.width buf) / 2) 115 ]
         | None => []
         end /\
    Forall (fun p => Canvas.shadowColor (Canvas.seen p) = "rgba(0, 0, 0, 0.5)" /\
                     Canvas.shadowBlur (Canvas.seen p) = 10%float) title /\
    Forall (fun p => Canvas.shadowColor (Canvas.seen p) = "transparent") after.
Proof.
  intros Hwt Hacc Hshadow Hclear. rewrite (build_run _ _ _ _ _ _ Hwt Hacc).
  destruct (build_anatomy Number_toString network colorError this h e Hwt)
    as (first & others & title & rows & Hp & Hbg & _ & _ & Hd & Ht & Hr & _).
  assert (Hhs : headerShadow colorError = "rgba(0, 0, 0, 0.5)")
    by (apply assignColor_taken, Hshadow).
  assert (Hrs : rowShadow colorError = "transparent")
    by (apply assignColor_taken, Hclear).
  eexists _, _, (first :: others), title, rows.
  split; [reflexivity|].
  unfold Canvas.paints. cbn [Canvas.content Canvas.width].
  split; [exact Hp|].
  split; [| split; [exact Hd | split]].
  - eapply Forall_impl; [exact Hbg|]. intros p (_ & _ & H & _). exact H.
  - eapply Forall_impl; [exact Ht|]. intros p (_ & _ & H1 & H2 & _).
    split; [rewrite H1; exact Hhs | exact H2].
  - eapply Forall_impl; [exact Hr|]. intros p (H & _). rewrite H. exact Hrs.
Qed.

(** X14. The circular clip of an avatar holds for that avatar only.  In
    an image that [build] returns, every [drawImage] is made at
    [(140, y + 15)], 60 by 60, inside one clipping region, the circle of
    radius 30 around [(170, y + 45)]; every other paint is made with no
    clipping region.  When [build] is done the context has no clipping
    region and no saved state left. *)
Theorem avatar_clip_is_confined
    (Number_toString : number -> string)
    (network : nat -> string -> Js.Error + Canvas.Image)
    (colorError : string -> option Js.Error)
    (this : LeaderboardBuilder.t) (h : heap) (e : Env) :
  wellTyped (LeaderboardBuilder.background this) = true ->
  accepted colorError this = true ->
  exists buf e',
    LeaderboardBuilder.build Number_toString network colorError this h e = (Ok buf, e') /\
    Forall clipped (Canvas.paints colorError buf) /\
    Canvas.clipping (Canvas.state (Canvas.replay colorError (Canvas.content buf))) = [] /\
    Canvas.saved (Canvas.replay colorError (Canvas.content buf)) = [].
Proof.
  intros Hwt Hacc. rewrite (build_run _ _ _ _ _ _ Hwt Hacc).
  destruct (build_anatomy Number_toString network colorError this h e Hwt)
    as (first & others & title & rows & Hp & Hbg & _ & _ & _ & Ht & Hr & _ & Hc & Hs).
  eexists _, _. split; [reflexivity|].
  unfold Canvas.paints. cbn [Canvas.content].
  split; [| split; [exact Hc | exact Hs]].
  rewrite Hp. apply Forall_app. split; [| apply Forall_app; split].
  - eapply Forall_impl; [exact Hbg|]. apply backgroundPaint_clipped.
  - eapply Forall_impl; [exact Ht|]. apply headerPaint_clipped.
  - eapply Forall_impl; [exact Hr|]. apply rowPaint_clipped.
Qed.

(** X15. Every shape of an image that [build] returns is one rounded
    rectangle: the outline of each [fill] and each [stroke] is the path of
    a single [roundRect] call, with nothing left in it of an earlier path
    (the avatar's circle included); the other paints ([fillRect],
    [fillText], [drawImage]) have no outline. *)
Theorem every_shape_is_a_rounded_rectangle
    (Number_toString : number -> string)
    (network : nat -> string -> Js.Error + Canvas.Image)
    (colorError : string -> option Js.Error)
    (this : LeaderboardBuilder.t) (h : heap) (e : Env) :
  wellTyped (LeaderboardBuilder.background this) = true ->
  accepted colorError this = true ->
  exists buf e',
    LeaderboardBuilder.build Number_toString network colorError this h e = (Ok buf, e') /\
    Forall shaped (Canvas.paints colorError buf).
Proof.
  intros Hwt Hacc. rewrite (build_run _ _ _ _ _ _ Hwt Hacc).
  destruct (build_anatomy Number_toString network colorError this h e Hwt)
    as (first & others & title & rows & Hp & Hbg & _ & _ & _ & Ht & Hr & _).
  eexists _, _. split; [reflexivity|].
  unfold Canvas.paints. cbn [Canvas.content].
  rewrite Hp. apply Forall_app. split; [| apply Forall_app; split].
  - eapply Forall_impl; [exact Hbg|]. apply backgroundPaint_shaped.
  - eapply Forall_impl; [exact Ht|]. apply headerPaint_shaped.
  - eapply Forall_impl; [exact Hr|]. apply rowPaint_shaped.
Qed.

(** X16. On a canvas that takes [rgba(255, 255, 255, 0.1)] for a color,
    every stroke of an image that [build] returns is either a card's
    border, of width 1 in that color, or a podium accent: of width 2,
    around the card of place 1, 2 or 3, in the color the podium options
    give for that place (in the color of the border, should the canvas
    not take the podium color for a color).  So a place whose color is
    missing or empty, and every place from the fourth on, has the border
    only; and the width 2 of an accent never carries over to a later
    border. *)
Theorem strokes_are_borders_or_accents
    (Number_toString : number -> string)
    (network : nat -> string -> Js.Error + Canvas.Image)
    (colorError : string -> option Js.Error)
    (this : LeaderboardBuilder.t) (h : heap) (e : Env) :
  wellTyped (LeaderboardBuilder.background this) = true ->
  accepted colorError this = true ->
  colorError "rgba(255, 255, 255, 0.1)" = None ->
  exists buf e',
    LeaderboardBuilder.build Number_toString network colorError this h e = (Ok buf, e') /\
    Forall (fun p => Canvas.drawn p = Canvas.stroke ->
                     border p \/ accent colorError this p)
           (Canvas.paints colorError buf).
Proof.
  intros Hwt Hacc Hborder. rewrite (build_run _ _ _ _ _ _ Hwt Hacc).
  destruct (build_anatomy Number_toString network colorError this h e Hwt)
    as (first & others & title & rows & Hp & Hbg & _ & _ & _ & Ht & Hr & _).
  eexists _, _. split; [reflexivity|].
  unfold Canvas.paints. cbn [Canvas.content].
  rewrite Hp. apply Forall_app. split; [| apply Forall_app; split].
  - eapply Forall_impl; [exact Hbg|]. intros p (Hd & _) Hs. congruence.
  - eapply Forall_impl; [exact Ht|]. intros p ((text & x & y & Hd) & _) Hs. congruence.
  - eapply Forall_impl; [exact Hr|]. intros p (_ & H) Hs. rewrite Hs in H.
    destruct H as (_ & _ & H). apply H, Hborder.
Qed.

(** X17. The background comes first and covers the canvas: the first
    paint of an image that [build] returns is a [fillRect] from [(0, 0)]
    over the full width and height of the returned canvas, at global
    alpha 1, in the gradient, or in the background's color or the
    aurora's base color (in black, the fill style of a fresh context,
    should the canvas not take that string for a color). *)
Theorem background_is_painted_first
    (Number_toString : number -> string)
    (network : nat -> string -> Js.Error + Canvas.Image)
    (colorError : string -> option Js.Error)
    (this : LeaderboardBuilder.t) (h : heap) (e : Env) :
  wellTyped (LeaderboardBuilder.background this) = true ->
  accepted colorError this = true ->
  exists buf e' first rest,
    LeaderboardBuilder.build Number_toString network colorError this h e = (Ok buf, e') /\
    Canvas.paints colorError buf = first :: rest /\
    Canvas.drawn first =
      Canvas.fillRect 0 0 (Js.Z2num (Canvas.width buf)) (Js.Z2num (Canvas.height buf)) /\
    Canvas.fillStyle (Canvas.seen first) =
      backgroundStyle colorError (LeaderboardBuilder.background this)
                      (Canvas.width buf) (Canvas.height buf) /\
    Canvas.globalAlpha (Canvas.seen first) = 1%float.
Proof.
  intros Hwt Hacc. rewrite (build_run _ _ _ _ _ _ Hwt Hacc).
  destruct (build_anatomy Number_toString network colorError this h e Hwt)
    as (first & others & title & rows & Hp & Hbg & Hstyle & Halpha & _).
  eexists _, _, first, (others ++ title ++ rows). split; [reflexivity|].
  unfold Canvas.paints. cbn [Canvas.content Canvas.width Canvas.height].
  split; [exact Hp|].
  apply Forall_cons in Hbg as ((Hd & _) & _).
  split; [exact Hd | split; [exact Hstyle | exact Halpha]].
Qed.

(** X18. No card is cut off: in an image that [build] returns, the card
    of the row at index [k] is the rectangle from [(30, y)] to
    [(width - 30, y + 90)] with [y = headerHeight + 100 k]; it starts
    below the header and ends 30 above the bottom edge of the canvas or
    higher. *)
Theorem cards_fit_the_canvas
    (Number_toString : number -> string)
    (network : nat -> string -> Js.Error + Canvas.Image)
    (colorError : string -> option Js.Error)
    (this : LeaderboardBuilder.t) (h : heap) (e : Env)
    (k : nat) (player : LeaderboardData.t) :
  wellTyped (LeaderboardBuilder.background this) = true ->
  accepted colorError this = true ->
  LeaderboardBuilder.usersToRender this !! k = Some player ->
  let y := LeaderboardBuilder.headerHeight this + Z.of_nat k * 100 in
  exists buf e' before after,
    LeaderboardBuilder.build Number_toString network colorError this h e = (Ok buf, e') /\
    Canvas.content buf =
      before
      ++ [ Canvas.set_fillStyle (Canvas.Color "rgba(255, 255, 255, 0.04)") ]
      ++ LeaderboardBuilder.roundRect 30 (Js.Z2num y) (Js.Z2num (Canvas.width buf - 60))
                                      90 15
      ++ [ Canvas.fill ]
      ++ after /\
    LeaderboardBuilder.headerHeight this <= y /\
    y + 90 <= Canvas.height buf - 30.
Proof.
  intros Hwt Hacc Hk y.
  destruct (build_row Number_toString network colorError this h e k player Hwt Hacc Hk)
    as (buf & e' & before & after & Hb & Hw & Hh & _ & Hc).
  apply lookup_lt_Some in Hk.
  eexists buf, e', before, _.
  split; [exact Hb|]. split; [| split; [unfold y; lia | rewrite Hh; unfold y; lia]].
  rewrite Hc, Hw. unfold rowCalls, LeaderboardBuilder.cardCalls. cbv zeta. fold y.
  change LeaderboardBuilder.canvasWidth with 900.
  rewrite <- !app_assoc. reflexivity.
Qed.

(** * The further properties on the README's board *)

Module Example2.
Import Js Canvas LeaderboardBuilder.

(** Two tiers with the same threshold, and one below them. *)
Definition tied : list RankTier.t :=
  [ {| RankTier.name := "Knight"; RankTier.color := "#C0C0C0"; RankTier.minXp := 1000 |};
    {| RankTier.name := "Squire"; RankTier.color := "#CD7F32"; RankTier.minXp := 500 |};
    {| RankTier.name := "Paladin"; RankTier.color := "#FFD700"; RankTier.minXp := 1000 |} ].

Definition tiedStore : heap := {[ 1%positive := tied ]}.

(** The README's board with a subtitle and gold, silver and no bronze. *)
Definition podiumBoard : t :=
  setPodium
    {| PodiumOptions.colors :=
         Some {| PodiumColors.first := Some "#FFD700";
                 PodiumColors.second := Some "#C0C0C0";
                 PodiumColors.third := None |} |}
    (setHeader
       {| HeaderOptions.title := "Global Leaderboard";
          HeaderOptions.subtitle := Some "Top players of the month" |}
       Example.board).

Definition conic : GradientOptions.t :=
  {| GradientOptions.type := "conic";
     GradientOptions.colors := ["#5865F2"; "#0D0E12"] |}.
End Example2.

Lemma rank_is_highest_of_supplied_witness :
  Example.store !! 1%positive = Some Example.readmeTiers /\
  Forall tierNumeric Example.readmeTiers /\
  exists tier,
    LeaderboardBuilder.getRankForXp (fst Example.ranked) (snd Example.ranked) 1700
      = Some tier /\
    In tier Example.readmeTiers /\
    (RankTier.minXp tier <=? 1700)%float = true.
Proof.
  assert (Hn : Forall tierNumeric Example.readmeTiers) by (repeat constructor).
  split; [reflexivity|]. split; [exact Hn|].
  destruct (rank_is_highest_of_supplied Example.store Example.board 1%positive
              Example.readmeTiers 1700 eq_refl Hn) as (_ & H).
  destruct (LeaderboardBuilder.getRankForXp (fst Example.ranked) (snd Example.ranked) 1700)
    as [tier |] eqn:E; [| vm_compute in E; discriminate].
  exists tier. destruct (H tier) as (Hin & Hle & _).
  - exact E.
  - split; [reflexivity|]. split; [exact Hin | exact Hle].
Defined.

Lemma setRankTiers_keeps_ties_in_order_witness :
  Example2.tiedStore !! 1%positive = Some Example2.tied /\
  Forall tierNumeric Example2.tied /\
  let after := LeaderboardBuilder.setRankTiers 1%positive Example2.tiedStore Example.board in
  map RankTier.name
      (List.filter (fun t => (RankTier.minXp t =? 1000)%float)
                   (LeaderboardBuilder.tiersOf (fst after) (snd after)))
  = ["Knight"; "Paladin"].
Proof.
  assert (Hn : Forall tierNumeric Example2.tied) by (repeat constructor).
  split; [reflexivity|]. split; [exact Hn|]. cbv zeta.
  rewrite (setRankTiers_keeps_ties_in_order Example2.tiedStore Example.board 1%positive
             Example2.tied 1000 eq_refl Hn).
  reflexivity.
Defined.

Lemma setRankTiers_twice_witness :
  Example.store !! 1%positive = Some Example.readmeTiers /\
  Forall tierNumeric Example.readmeTiers /\
  LeaderboardBuilder.setRankTiers 1%positive (fst Example.ranked) (snd Example.ranked)
  = Example.ranked.
Proof.
  assert (Hn : Forall tierNumeric Example.readmeTiers) by (repeat constructor).
  split; [reflexivity|]. split; [exact Hn|].
  exact (setRankTiers_twice Example.store Example.board 1%positive Example.readmeTiers
           eq_refl Hn).
Defined.

Lemma rank_is_monotone_witness :
  Example.store !! 1%positive = Some Example.readmeTiers /\
  Forall tierNumeric Example.readmeTiers /\
  (1200 <=? 1700)%float = true /\
  LeaderboardBuilder.getRankForXp (fst Example.ranked) (snd Example.ranked) 1200 =
    Some {| RankTier.name := "Pro"; RankTier.color := "#5865F2"; RankTier.minXp := 1000 |} /\
  exists tier2,
    LeaderboardBuilder.getRankForXp (fst Example.ranked) (snd Example.ranked) 1700
      = Some tier2 /\
    (1000 <=? RankTier.minXp tier2)%float = true.
Proof.
  assert (Hn : Forall tierNumeric Example.readmeTiers) by (repeat constructor).
  assert (Hr : LeaderboardBuilder.getRankForXp (fst Example.ranked) (snd Example.ranked) 1200 =
               Some {| RankTier.name := "Pro"; RankTier.color := "#5865F2";
                       RankTier.minXp := 1000 |})
    by (vm_compute; reflexivity).
  split; [reflexivity|]. split; [exact Hn|]. split; [reflexivity|]. split; [exact Hr|].
  exact (rank_is_monotone Example.store Example.board 1%positive Example.readmeTiers
           1200 1700 _ eq_refl Hn eq_refl Hr).
Defined.

Lemma build_empty_board_witness :
  wellTyped (LeaderboardBuilder.background Example.board) = true /\
  backgroundAccepted Example.cssColor (LeaderboardBuilder.background Example.board) = true /\
  LeaderboardBuilder.build Example.decimal Example.offline Example.cssColor
    (LeaderboardBuilder.setUsers [] Example.board) Example.store Example.quiet =
  (Ok {| Canvas.width := 900;
         Canvas.height := 140;
         Canvas.content :=
           [ Canvas.set_fillStyle (Canvas.Color "#0D0E12");
             Canvas.fillRect 0 0 900 140 ]
           ++ LeaderboardBuilder.headerCalls Example.board 900 |},
   Example.quiet).
Proof.
  split; [reflexivity|]. split; [reflexivity|].
  rewrite (build_empty_board Example.decimal Example.offline Example.cssColor Example.board
             Example.store Example.quiet eq_refl eq_refl).
  vm_compute. reflexivity.
Defined.

Lemma build_requests_and_console_witness :
  wellTyped (LeaderboardBuilder.background Example.board) = true /\
  accepted Example.cssColor Example.board = true /\
  exists buf e',
    LeaderboardBuilder.build Example.decimal (Example.failing 1) Example.cssColor Example.board
      Example.store Example.quiet = (Ok buf, e') /\
    fetched e' = 5%nat /\ (length (console e') <= 5)%nat.
Proof.
  assert (Hacc : accepted Example.cssColor Example.board = true)
    by (vm_compute; reflexivity).
  split; [reflexivity|]. split; [exact Hacc|].
  destruct (build_requests_and_console Example.decimal (Example.failing 1)
              Example.cssColor Example.board
              Example.store Example.quiet eq_refl Hacc)
    as (buf & e' & printed & Hb & Hf & Hc & Hlen & _).
  exists buf, e'. split; [exact Hb|]. split; [exact Hf|].
  rewrite Hc. exact Hlen.
Defined.

Lemma limit_is_the_end_of_a_slice_witness :
  let this := LeaderboardBuilder.setLimit (-2) Example.board in
  LeaderboardBuilder.limit this = Some (-2)%float /\
  Js.ToBoolean_number (-2) = true /\
  Js.ToIntegerOrInfinity (-2) = Js.Finite (-2) /\
  LeaderboardBuilder.usersToRender this = take 3 Example.five.
Proof.
  cbv zeta. split; [reflexivity|]. split; [reflexivity|].
  assert (Hi : Js.ToIntegerOrInfinity (-2) = Js.Finite (-2)) by (vm_compute; reflexivity).
  split; [exact Hi|].
  destruct (limit_is_the_end_of_a_slice (LeaderboardBuilder.setLimit (-2) Example.board)
              (-2)%float (-2) eq_refl eq_refl Hi) as (_ & _ & Hneg).
  apply Hneg. lia.
Defined.

Lemma fill_needs_positive_xp_witness :
  let wuuu := Example.player "wuuu" 10 2500 3000 in
  LeaderboardBuilder.xpFillCalls Example.board 120 wuuu <> [] /\
  (0 <? LeaderboardData.xp wuuu)%float = true /\
  (0 <? LeaderboardData.neededXp wuuu)%float = true.
Proof.
  cbv zeta.
  assert (H : LeaderboardBuilder.xpFillCalls Example.board 120
                (Example.player "wuuu" 10 2500 3000) <> [])
    by (vm_compute; discriminate).
  split; [exact H|].
  exact (fill_needs_positive_xp Example.board 120 (Example.player "wuuu" 10 2500 3000) H).
Defined.

Lemma gradient_stops_run_from_0_to_1_witness :
  2 <= Z.of_nat (length (GradientOptions.colors Example2.conic)) < 2 ^ 63 /\
  exists gradient,
    LeaderboardBuilder.gradientCalls Example2.conic 900 640 =
      [ Canvas.set_fillStyle (Canvas.Gradient gradient);
        Canvas.fillRect 0 0 900 640 ] /\
    Canvas.colorStops gradient = [ (0%float, "#5865F2"); (1%float, "#0D0E12") ].
Proof.
  assert (H : 2 <= Z.of_nat (length (GradientOptions.colors Example2.conic)) < 2 ^ 63)
    by (cbn; lia).
  split; [exact H|].
  destruct (gradient_stops_run_from_0_to_1 Example2.conic 900 640 H)
    as (gradient & Hg & _).
  exists gradient. split; [exact Hg|].
  vm_compute in Hg. injection Hg as <-. reflexivity.
Defined.

Lemma shadow_only_under_the_header_witness :
  wellTyped (LeaderboardBuilder.background Example2.podiumBoard) = true /\
  accepted Example.cssColor Example2.podiumBoard = true /\
  Example.cssColor "rgba(0, 0, 0, 0.5)" = None /\
  Example.cssColor "transparent" = None /\
  exists buf e' before title after,
    LeaderboardBuilder.build Example.decimal Example.online Example.cssColor Example2.podiumBoard
      Example.store Example.quiet = (Ok buf, e') /\
    Canvas.paints Example.cssColor buf = before ++ title ++ after /\
    map Canvas.drawn title =
      [ Canvas.fillText "Global Leaderboard" (Js.Z2num (Canvas.width buf) / 2) 85;
        Canvas.fillText "Top players of the month" (Js.Z2num (Canvas.width buf) / 2) 115 ] /\
    Forall (fun p => Canvas.shadowColor (Canvas.seen p) = "transparent") after.
Proof.
  assert (Hacc : accepted Example.cssColor Example2.podiumBoard = true)
    by (vm_compute; reflexivity).
  split; [reflexivity|]. split; [exact Hacc|].
  split; [reflexivity|]. split; [reflexivity|].
  destruct (shadow_only_under_the_header Example.decimal Example.online Example.cssColor
              Example2.podiumBoard
              Example.store Example.quiet eq_refl Hacc eq_refl eq_refl)
    as (buf & e' & before & title & after & Hb & Hp & _ & Hd & _ & Ha).
  exists buf, e', before, title, after.
  split; [exact Hb|]. split; [exact Hp|]. split; [exact Hd | exact Ha].
Defined.

Lemma avatar_clip_is_confined_witness :
  wellTyped (LeaderboardBuilder.background Example2.podiumBoard) = true /\
  accepted Example.cssColor Example2.podiumBoard = true /\
  exists buf e',
    LeaderboardBuilder.build Example.decimal Example.online Example.cssColor Example2.podiumBoard
      Example.store Example.quiet = (Ok buf, e') /\
    Forall clipped (Canvas.paints Example.cssColor buf) /\
    Canvas.saved (Canvas.replay Example.cssColor (Canvas.content buf)) = [].
Proof.
  assert (Hacc : accepted Example.cssColor Example2.podiumBoard = true)
    by (vm_compute; reflexivity).
  split; [reflexivity|]. split; [exact Hacc|].
  destruct (avatar_clip_is_confined Example.decimal Example.online Example.cssColor
              Example2.podiumBoard
              Example.store Example.quiet eq_refl Hacc)
    as (buf & e' & Hb & Hc & _ & Hs).
  exists buf, e'. split; [exact Hb|]. split; [exact Hc | exact Hs].
Defined.

Lemma every_shape_is_a_rounded_rectangle_witness :
  wellTyped (LeaderboardBuilder.background Example2.podiumBoard) = true /\
  accepted Example.cssColor Example2.podiumBoard = true /\
  exists buf e',
    LeaderboardBuilder.build Example.decimal Example.online Example.cssColor Example2.podiumBoard
      Example.store Example.quiet = (Ok buf, e') /\
    Forall shaped (Canvas.paints Example.cssColor buf).
Proof.
  assert (Hacc : accepted Example.cssColor Example2.podiumBoard = true)
    by (vm_compute; reflexivity).
  split; [reflexivity|]. split; [exact Hacc|].
  exact (every_shape_is_a_rounded_rectangle Example.decimal Example.online
           Example.cssColor Example2.podiumBoard Example.store Example.quiet
           eq_refl Hacc).
Defined.

Lemma strokes_are_borders_or_accents_witness :
  wellTyped (LeaderboardBuilder.background Example2.podiumBoard) = true /\
  accepted Example.cssColor Example2.podiumBoard = true /\
  Example.cssColor "rgba(255, 255, 255, 0.1)" = None /\
  exists buf e',
    LeaderboardBuilder.build Example.decimal Example.online Example.cssColor Example2.podiumBoard
      Example.store Example.quiet = (Ok buf, e') /\
    Forall (fun p => Canvas.drawn p = Canvas.stroke ->
                     border p \/ accent Example.cssColor Example2.podiumBoard p)
           (Canvas.paints Example.cssColor buf).
Proof.
  assert (Hacc : accepted Example.cssColor Example2.podiumBoard = true)
    by (vm_compute; reflexivity).
  split; [reflexivity|]. split; [exact Hacc|]. split; [reflexivity|].
  exact (strokes_are_borders_or_accents Example.decimal Example.online
           Example.cssColor Example2.podiumBoard Example.store Example.quiet
           eq_refl Hacc eq_refl).
Defined.

Lemma background_is_painted_first_witness :
  let this := LeaderboardBuilder.setBackground (BgGradient Example2.conic) Example.board in
  wellTyped (LeaderboardBuilder.background this) = true /\
  accepted Example.cssColor this = true /\
  exists buf e' first rest,
    LeaderboardBuilder.build Example.decimal Example.online Example.cssColor this
      Example.store Example.quiet = (Ok buf, e') /\
    Canvas.paints Example.cssColor buf = first :: rest /\
    Canvas.drawn first =
      Canvas.fillRect 0 0 (Js.Z2num (Canvas.width buf)) (Js.Z2num (Canvas.height buf)) /\
    Canvas.globalAlpha (Canvas.seen first) = 1%float.
Proof.
  cbv zeta.
  assert (Hacc : accepted Example.cssColor
                   (LeaderboardBuilder.setBackground (BgGradient Example2.conic)
                                                     Example.board) = true)
    by (vm_compute; reflexivity).
  split; [reflexivity|]. split; [exact Hacc|].
  destruct (background_is_painted_first Example.decimal Example.online Example.cssColor
              (LeaderboardBuilder.setBackground (BgGradient Example2.conic) Example.board)
              Example.store Example.quiet eq_refl Hacc)
    as (buf & e' & first & rest & Hb & Hp & Hd & _ & Ha).
  exists buf, e', first, rest.
  split; [exact Hb|]. split; [exact Hp|]. split; [exact Hd | exact Ha].
Defined.

Lemma cards_fit_the_canvas_witness :
  wellTyped (LeaderboardBuilder.background Example.board) = true /\
  accepted Example.cssColor Example.board = true /\
  LeaderboardBuilder.usersToRender Example.board !! 4%nat =
    Some (Example.player "wuuu5" 1 100 200) /\
  exists buf e' before after,
    LeaderboardBuilder.build Example.decimal Example.online Example.cssColor Example.board
      Example.store Example.quiet = (Ok buf, e') /\
    Canvas.content buf =
      before
      ++ [ Canvas.set_fillStyle (Canvas.Color "rgba(255, 255, 255, 0.04)") ]
      ++ LeaderboardBuilder.roundRect 30 520 (Js.Z2num (Canvas.width buf - 60)) 90 15
      ++ [ Canvas.fill ]
      ++ after /\
    520 + 90 <= Canvas.height buf - 30.
Proof.
  assert (Hacc : accepted Example.cssColor Example.board = true)
    by (vm_compute; reflexivity).
  split; [reflexivity|]. split; [exact Hacc|]. split; [reflexivity|].
  destruct (cards_fit_the_canvas Example.decimal Example.online Example.cssColor
              Example.board
              Example.store Example.quiet 4 (Example.player "wuuu5" 1 100 200)
              eq_refl Hacc eq_refl)
    as (buf & e' & before & after & Hb & Hc & _ & Hh).
  exists buf, e', before, after.
  split; [exact Hb|]. split; [exact Hc | exact Hh].
Defined.
